(** * The A/B testing engine of the FundBrave AI service

    A shallow embedding of [app/services/ab_testing.py] (and of the request
    models and guards of [app/api/experiments.py] that stand in front of
    it), followed by the properties of the engine.

    Conventions of the embedding.
    - A Python [float] is a primitive binary64 [float]; every arithmetic
      operation is the IEEE operation the interpreter performs.  Python
      raises where IEEE returns an infinity or a NaN (division by zero,
      square root of a negative number, an integer quotient too large for
      a float): those operations return a [result].
    - A Python [int] is a [Z].  [a / b] on two ints is the correctly
      rounded quotient ([int_truediv]).
    - A [str] is a [string] read as its UTF-8 bytes, so [.encode()] is the
      list of its characters' codes.
    - A [dict] is a [gmap].  Objects that the service mutates in place
      (variants inside an experiment inside the registry) are updated by
      position in the list held by the registry.
    - [datetime.utcnow()] and [random.random()] are inputs: the operation
      takes the clock reading [now] and the draw [rnd] as arguments.
    - Tolerances on floats are stated on the real number that a float
      denotes ([float_value]). *)

From Stdlib Require Import Reals Lra Lia.
From Stdlib Require Import ZArith List Floats.
From stdpp Require Import base option list gmap strings.

Open Scope Z_scope.

#[local] Set Warnings "-inexact-float".

(** ** Exceptions and results *)

Inductive PyExc : Set :=
| ZeroDivisionError
| OverflowError
| ValueError
| IndexError.

Inductive result (A : Type) : Type :=
| Ok (a : A)
| Raise (e : PyExc).

Arguments Ok {A} a.
Arguments Raise {A} e.

#[global] Instance result_ret : MRet result := fun A a => Ok a.

#[global] Instance result_bind : MBind result := fun A B k r =>
  match r with
  | Ok a => k a
  | Raise e => Raise e
  end.

(** ** Python numbers *)

Module Py.

(** An int as an (unrounded) binary number [m * 2^0]. *)
Definition int_to_SF (a : Z) : spec_float :=
  match a with
  | Z0 => S754_zero false
  | Zpos p => S754_finite false p 0
  | Zneg p => S754_finite true p 0
  end.

(** [float(a)] for an int of moderate size (no overflow check: the only
    ints converted are literals and a residue below 10000). *)
Definition float_of_int (a : Z) : float :=
  SF2Prim (binary_normalize prec emax a 0 false).

(** [a / b] on ints: the quotient rounded once to the nearest float. *)
Definition int_truediv (a b : Z) : result float :=
  if b =? 0 then Raise ZeroDivisionError
  else
    let q := SF2Prim (SFdiv prec emax (int_to_SF a) (int_to_SF b)) in
    if is_infinity q then Raise OverflowError else Ok q.

(** [x / y] on floats. *)
Definition float_truediv (x y : float) : result float :=
  if (y =? 0)%float then Raise ZeroDivisionError else Ok (x / y)%float.

(** [math.sqrt]: a domain error below zero. *)
Definition math_sqrt (x : float) : result float :=
  if (x <? 0)%float then Raise ValueError else Ok (sqrt x).

(** [min(a, b)]: the first argument unless the second is smaller. *)
Definition min (a b : float) : float :=
  if (b <? a)%float then b else a.

(** [sum(xs)] of floats from the int start value 0 (which behaves as
    [+0.0] in the first addition), adding left to right with one rounding
    per addition, as the interpreters recommended for the service (3.10
    and 3.11) do. *)
Definition sum (xs : list float) : float :=
  fold_left PrimFloat.add xs 0%float.

(** [len(s)] of a [str]: the number of its characters (code points), that
    is, of the bytes of its UTF-8 encoding that are not continuation bytes
    ([0x80] to [0xBF]). *)
Definition len (s : string) : nat :=
  length
    (filter (fun c => negb ((128 <=? Ascii.nat_of_ascii c)
                            && (Ascii.nat_of_ascii c <=? 191))%nat)
       (String.list_ascii_of_string s)).

End Py.

(** ** [hashlib.md5] *)

Module MD5.

Definition add32 (x y : Z) : Z := (x + y) mod 2^32.
Definition not32 (x : Z) : Z := Z.lxor x (2^32 - 1).
Definition rotl32 (x n : Z) : Z :=
  Z.lor (Z.shiftl x n mod 2^32) (Z.shiftr x (32 - n)).

Definition K : list Z :=
  [3614090360; 3905402710; 606105819; 3250441966;
   4118548399; 1200080426; 2821735955; 4249261313;
   1770035416; 2336552879; 4294925233; 2304563134;
   1804603682; 4254626195; 2792965006; 1236535329;
   4129170786; 3225465664; 643717713; 3921069994;
   3593408605; 38016083; 3634488961; 3889429448;
   568446438; 3275163606; 4107603335; 1163531501;
   2850285829; 4243563512; 1735328473; 2368359562;
   4294588738; 2272392833; 1839030562; 4259657740;
   2763975236; 1272893353; 4139469664; 3200236656;
   681279174; 3936430074; 3572445317; 76029189;
   3654602809; 3873151461; 530742520; 3299628645;
   4096336452; 1126891415; 2878612391; 4237533241;
   1700485571; 2399980690; 4293915773; 2240044497;
   1873313359; 4264355552; 2734768916; 1309151649;
   4149444226; 3174756917; 718787259; 3951481745].

Definition R : list Z :=
  [7; 12; 17; 22; 7; 12; 17; 22; 7; 12; 17; 22; 7; 12; 17; 22;
   5; 9; 14; 20; 5; 9; 14; 20; 5; 9; 14; 20; 5; 9; 14; 20;
   4; 11; 16; 23; 4; 11; 16; 23; 4; 11; 16; 23; 4; 11; 16; 23;
   6; 10; 15; 21; 6; 10; 15; 21; 6; 10; 15; 21; 6; 10; 15; 21].

Fixpoint le_bytes (n : nat) (x : Z) : list Z :=
  match n with
  | O => []
  | S n' => x mod 256 :: le_bytes n' (x / 256)
  end.

Fixpoint le_word (bs : list Z) : Z :=
  match bs with
  | [] => 0
  | b :: bs' => b + 256 * le_word bs'
  end.

Fixpoint chunks (fuel k : nat) (l : list Z) : list (list Z) :=
  match fuel, l with
  | O, _ | _, [] => []
  | S f, _ => take k l :: chunks f k (drop k l)
  end.

(** The message, a set bit, zeros up to 56 modulo 64, the bit length. *)
Definition pad (msg : list Z) : list Z :=
  let len := Z.of_nat (length msg) in
  msg ++ [128] ++ repeat 0 (Z.to_nat ((55 - len) mod 64))
      ++ le_bytes 8 (8 * len).

Definition step (M : list Z) (st : Z * Z * Z * Z) (i : nat)
  : Z * Z * Z * Z :=
  let '(A, B, C, D) := st in
  let iz := Z.of_nat i in
  let '(F, g) :=
    if iz <? 16 then
      (Z.lor (Z.land B C) (Z.land (not32 B) D), iz)
    else if iz <? 32 then
      (Z.lor (Z.land D B) (Z.land (not32 D) C), (5 * iz + 1) mod 16)
    else if iz <? 48 then
      (Z.lxor (Z.lxor B C) D, (3 * iz + 5) mod 16)
    else
      (Z.lxor C (Z.lor B (not32 D)), (7 * iz) mod 16) in
  let F' := add32 (add32 (add32 F A) (nth i K 0)) (nth (Z.to_nat g) M 0) in
  (D, add32 B (rotl32 F' (nth i R 0)), B, C).

Definition block (st : Z * Z * Z * Z) (blk : list Z) : Z * Z * Z * Z :=
  let M := map le_word (chunks 16 4 blk) in
  let '(a0, b0, c0, d0) := st in
  let '(A, B, C, D) := fold_left (step M) (seq 0 64) st in
  (add32 a0 A, add32 b0 B, add32 c0 C, add32 d0 D).

Definition digest (msg : list Z) : list Z :=
  let p := pad msg in
  let '(a, b, c, d) :=
    fold_left block (chunks (length p) 64 p)
              (1732584193, 4023233417, 2562383102, 271733878) in
  le_bytes 4 a ++ le_bytes 4 b ++ le_bytes 4 c ++ le_bytes 4 d.

(** [s.encode()] *)
Definition encode (s : string) : list Z :=
  map (fun c => Z.of_N (Ascii.N_of_ascii c)) (String.list_ascii_of_string s).

(** [int(hashlib.md5(s.encode()).hexdigest(), 16)] *)
Definition hexdigest_int (s : string) : Z :=
  fold_left (fun acc b => acc * 256 + b) (digest (encode s)) 0.

End MD5.

(** ** Data model *)

(** A JSON scalar of a variant's configuration payload; two payloads are
    equal when they hold the same scalars under the same keys. *)
Inductive PyVal : Set :=
| PyInt (n : Z)
| PyBool (b : bool)
| PyStr (s : string)
| PyNum (mantissa exponent : Z).

#[global] Instance PyVal_eq_dec : EqDecision PyVal.
Proof. solve_decision. Defined.

(** [dict[str, Any]]: the payload is returned to callers and otherwise only
    compared (by the generated [Variant.__eq__]). *)
Abbreviation Config := (gmap string PyVal).

Inductive ExperimentStatus : Set :=
| DRAFT
| RUNNING
| PAUSED
| COMPLETED
| CANCELLED.

#[global] Instance ExperimentStatus_eq_dec : EqDecision ExperimentStatus.
Proof. solve_decision. Defined.

Record Variant : Type := mkVariant {
  name : string;
  weight : float;
  config : Config;
  impressions : Z;
  conversions : Z }.

Record Experiment : Type := mkExperiment {
  e_id : string;
  e_name : string;
  description : string;
  variants : list Variant;
  status : ExperimentStatus;
  created_at : Z;
  started_at : option Z;
  ended_at : option Z;
  target_sample_size : Z;
  target_feature : string;
  metadata : Config }.

(** One entry of [ExperimentResult.variants]. *)
Record VariantResult : Type := mkVariantResult {
  r_name : string;
  r_impressions : Z;
  r_conversions : Z;
  r_conversion_rate : float;
  r_lift : float }.

(** The data from which the recommendation sentence is formatted. *)
Inductive Recommendation : Type :=
| ContinueCollecting
| Implement (winner : string) (best_lift confidence : float)
| KeepControl
| NeedMore (missing : Z).

Record ExperimentResult : Type := mkExperimentResult {
  experiment_id : string;
  winner : option string;
  confidence : float;
  lift : float;
  result_variants : list VariantResult;
  is_significant : bool;
  recommendation : Recommendation }.

(** [ABTestingService]: the three settings and the two dictionaries. *)
Record Service : Type := mkService {
  enabled : bool;
  default_variant : string;
  sample_rate : float;
  _experiments : gmap string Experiment;
  _user_assignments : gmap string (gmap string string) }.

(** One element of the [variants] argument of [create_experiment]: a dict
    with the key [name] and, optionally, the keys [weight] and [config]. *)
Record VariantDict : Type := mkVariantDict {
  d_name : string;
  d_weight : option float;
  d_config : option Config }.

(** *** Field updates *)

Definition set_impressions (n : Z) (v : Variant) : Variant :=
  mkVariant (name v) (weight v) (config v) n (conversions v).

Definition set_conversions (n : Z) (v : Variant) : Variant :=
  mkVariant (name v) (weight v) (config v) (impressions v) n.

Definition set_variants (vs : list Variant) (e : Experiment) : Experiment :=
  mkExperiment (e_id e) (e_name e) (description e) vs (status e)
    (created_at e) (started_at e) (ended_at e)
    (target_sample_size e) (target_feature e) (metadata e).

Definition set_running (now : Z) (e : Experiment) : Experiment :=
  mkExperiment (e_id e) (e_name e) (description e) (variants e) RUNNING
    (created_at e) (Some now) (ended_at e)
    (target_sample_size e) (target_feature e) (metadata e).

Definition set_completed (now : Z) (e : Experiment) : Experiment :=
  mkExperiment (e_id e) (e_name e) (description e) (variants e) COMPLETED
    (created_at e) (started_at e) (Some now)
    (target_sample_size e) (target_feature e) (metadata e).

Definition set_experiments (m : gmap string Experiment) (s : Service)
  : Service :=
  mkService (enabled s) (default_variant s) (sample_rate s) m
    (_user_assignments s).

Definition set_user_assignments (a : gmap string (gmap string string))
  (s : Service) : Service :=
  mkService (enabled s) (default_variant s) (sample_rate s)
    (_experiments s) a.

(** *** Properties of the dataclasses *)

(** [Variant.conversion_rate] *)
Definition conversion_rate (v : Variant) : result float :=
  if impressions v =? 0 then Ok 0%float
  else Py.int_truediv (conversions v) (impressions v).

(** [Experiment.total_impressions] *)
Definition total_impressions (e : Experiment) : Z :=
  fold_left Z.add (map impressions (variants e)) 0.

(** [Experiment.is_significant]: enough samples. *)
Definition enough_data (e : Experiment) : bool :=
  target_sample_size e <=? total_impressions e.

(** The [==] that [@dataclass] generates for [Variant]: the tuples of
    fields are compared. *)
Definition Variant_eqb (a b : Variant) : bool :=
  bool_decide (name a = name b)
  && (weight a =? weight b)%float
  && bool_decide (config a = config b)
  && (impressions a =? impressions b)
  && (conversions a =? conversions b).

(** ** The service *)

(** [ABTestingService.__init__] from the three settings. *)
Definition init (ab_testing_enabled : bool) (ab_test_default_variant : string)
  (ab_test_sample_rate : float) : Service :=
  mkService ab_testing_enabled ab_test_default_variant ab_test_sample_rate
    ∅ ∅.

(** [v.get("weight", 1.0)] *)
Definition get_weight (v : VariantDict) : float :=
  default 1%float (d_weight v).

(** The loop of [create_experiment] that builds the [Variant] objects. *)
Fixpoint variant_objects (total_weight : float) (vs : list VariantDict)
  : result (list Variant) :=
  match vs with
  | [] => Ok []
  | v :: rest =>
      w ← Py.float_truediv (get_weight v) total_weight;
      objs ← variant_objects total_weight rest;
      Ok (mkVariant (d_name v) w (default ∅ (d_config v)) 0 0 :: objs)
  end.

(** [create_experiment]: nothing is registered when the construction of the
    variants raises. *)
Definition create_experiment (experiment_id name description : string)
  (variants : list VariantDict) (target_sample_size : Z)
  (target_feature : string) (now : Z) (self : Service)
  : result Experiment * Service :=
  let total_weight := Py.sum (map get_weight variants) in
  match variant_objects total_weight variants with
  | Raise e => (Raise e, self)
  | Ok objs =>
      let experiment :=
        mkExperiment experiment_id name description objs DRAFT now None None
          target_sample_size target_feature ∅ in
      (Ok experiment,
       set_experiments (<[experiment_id := experiment]> (_experiments self))
         self)
  end.

(** [start_experiment] *)
Definition start_experiment (experiment_id : string) (now : Z)
  (self : Service) : bool * Service :=
  match _experiments self !! experiment_id with
  | None => (false, self)
  | Some experiment =>
      (true,
       set_experiments
         (<[experiment_id := set_running now experiment]> (_experiments self))
         self)
  end.

(** [stop_experiment] *)
Definition stop_experiment (experiment_id : string) (now : Z)
  (self : Service) : bool * Service :=
  match _experiments self !! experiment_id with
  | None => (false, self)
  | Some experiment =>
      (true,
       set_experiments
         (<[experiment_id := set_completed now experiment]>
            (_experiments self))
         self)
  end.

(** The loop of [_assign_variant]: the position of the first variant whose
    cumulative weight reaches [normalized]. *)
Fixpoint select_by_weight (normalized cumulative : float) (i : nat)
  (vs : list Variant) : option nat :=
  match vs with
  | [] => None
  | variant :: rest =>
      let cumulative := (cumulative + weight variant)%float in
      if (normalized <=? cumulative)%float then Some i
      else select_by_weight normalized cumulative (S i) rest
  end.

(** [(hash_value % 10000) / 10000.0] for the pair of identifiers. *)
Definition bucket (user_id exp_id : string) : float :=
  let hash_input := user_id +:+ ":" +:+ exp_id in
  let hash_value := MD5.hexdigest_int hash_input in
  (Py.float_of_int (hash_value mod 10000) / 10000)%float.

(** [_assign_variant]: the position in [experiment.variants] of the variant
    object it returns; [variants[-1]] of an empty list is an [IndexError]. *)
Definition _assign_variant (experiment : Experiment) (user_id : string)
  : result nat :=
  let normalized := bucket user_id (e_id experiment) in
  match select_by_weight normalized 0 0 (variants experiment) with
  | Some i => Ok i
  | None =>
      match variants experiment with
      | [] => Raise IndexError
      | _ => Ok (length (variants experiment) - 1)%nat
      end
  end.

(** The first variant of the list that carries the name, and where. *)
Fixpoint find_by_name (variant_name : string) (i : nat) (vs : list Variant)
  : option (nat * Variant) :=
  match vs with
  | [] => None
  | v :: rest =>
      if bool_decide (name v = variant_name) then Some (i, v)
      else find_by_name variant_name (S i) rest
  end.

(** [self._user_assignments[user_id][experiment_id]], when both keys are
    present. *)
Definition stored_assignment (self : Service) (user_id experiment_id : string)
  : option string :=
  a ← _user_assignments self !! user_id; a !! experiment_id.

(** The statements that store an assignment. *)
Definition store_assignment (user_id experiment_id variant_name : string)
  (self : Service) : Service :=
  let a := default ∅ (_user_assignments self !! user_id) in
  set_user_assignments
    (<[user_id := <[experiment_id := variant_name]> a]>
       (_user_assignments self))
    self.

(** The variant at position [i] of the registered experiment, after [f]. *)
Definition update_variant (experiment_id : string) (experiment : Experiment)
  (i : nat) (f : Variant -> Variant) (self : Service) : Service :=
  set_experiments
    (<[experiment_id :=
         set_variants (alter f i (variants experiment)) experiment]>
       (_experiments self))
    self.

(** [get_variant]; [rnd] is what [random.random()] returns if it is called. *)
Definition get_variant (experiment_id user_id : string) (rnd : float)
  (self : Service) : result (string * Config) * Service :=
  if negb (enabled self) then (Ok (default_variant self, ∅), self)
  else
    match _experiments self !! experiment_id with
    | None => (Ok (default_variant self, ∅), self)
    | Some experiment =>
        if negb (bool_decide (status experiment = RUNNING)) then
          (Ok (default_variant self, ∅), self)
        else
          match
            variant_name ← stored_assignment self user_id experiment_id;
            find_by_name variant_name 0 (variants experiment)
          with
          | Some (_, v) => (Ok (name v, config v), self)
          | None =>
              if (sample_rate self <? rnd)%float then
                (Ok (default_variant self, ∅), self)
              else
                match _assign_variant experiment user_id with
                | Raise e => (Raise e, self)
                | Ok i =>
                    match variants experiment !! i with
                    | None => (Raise IndexError, self)
                    | Some variant =>
                        let self1 :=
                          store_assignment user_id experiment_id
                            (name variant) self in
                        let self2 :=
                          update_variant experiment_id experiment i
                            (fun v => set_impressions (impressions v + 1) v)
                            self1 in
                        (Ok (name variant, config variant), self2)
                    end
                end
          end
    end.

(** [record_conversion] *)
Definition record_conversion (experiment_id user_id : string)
  (self : Service) : bool * Service :=
  match _experiments self !! experiment_id with
  | None => (false, self)
  | Some experiment =>
      match stored_assignment self user_id experiment_id with
      | None => (false, self)
      | Some variant_name =>
          match find_by_name variant_name 0 (variants experiment) with
          | None => (false, self)
          | Some (i, _) =>
              (true,
               update_variant experiment_id experiment i
                 (fun v => set_conversions (conversions v + 1) v) self)
          end
      end
  end.

(** [delete_experiment] *)
Definition delete_experiment (experiment_id : string) (self : Service)
  : bool * Service :=
  match _experiments self !! experiment_id with
  | None => (false, self)
  | Some _ =>
      (true,
       mkService (enabled self) (default_variant self) (sample_rate self)
         (delete experiment_id (_experiments self))
         (delete experiment_id <$> _user_assignments self))
  end.

(** ** Results *)

(** [_calculate_significance] *)
Definition _calculate_significance (control treatment : Variant)
  : result (bool * float) :=
  let n1 := impressions control in
  let n2 := impressions treatment in
  if (n1 <? 100) || (n2 <? 100) then Ok (false, 0%float)
  else
    p1 ← conversion_rate control;
    p2 ← conversion_rate treatment;
    p_pool ← Py.int_truediv (conversions control + conversions treatment)
                            (n1 + n2);
    if (p_pool =? 0)%float || (p_pool =? 1)%float then Ok (false, 0%float)
    else
      i1 ← Py.int_truediv 1 n1;
      i2 ← Py.int_truediv 1 n2;
      se ← Py.math_sqrt (p_pool * (1 - p_pool) * (i1 + i2))%float;
      if (se =? 0)%float then Ok (false, 0%float)
      else
        let z := (abs (p2 - p1) / se)%float in
        let confidence := Py.min 99.9%float (50 + z * 25)%float in
        let is_significant := (1.96 <=? z)%float in
        Ok (is_significant, confidence).

(** [variant != control] inside the loop of [get_experiment_results]:
    position 0 is the control object itself, every other variant is
    compared field by field. *)
Definition differs_from_control (i : nat) (variant control : Variant)
  : bool :=
  match i with
  | O => false
  | S _ => negb (Variant_eqb variant control)
  end.

(** The loop of [get_experiment_results] from position [i] on, with the
    current [best_lift] and the position [best_variant] of the current best
    variant; it returns their final values and the per-variant entries. *)
Fixpoint results_loop (control : Variant) (i : nat) (vs : list Variant)
  (best_lift : float) (best_variant : nat)
  : result (float * nat * list VariantResult) :=
  match vs with
  | [] => Ok (best_lift, best_variant, [])
  | variant :: rest =>
      rate ← conversion_rate variant;
      crate ← conversion_rate control;
      if (0 <? crate)%float then
        let lift := ((rate - crate) / crate * 100)%float in
        let entry :=
          mkVariantResult (name variant) (impressions variant)
            (conversions variant) rate lift in
        let '(best_lift, best_variant) :=
          if (best_lift <? lift)%float && differs_from_control i variant control
          then (lift, i) else (best_lift, best_variant) in
        '(bl, bv, entries) ← results_loop control (S i) rest
                                best_lift best_variant;
        Ok (bl, bv, entry :: entries)
      else
        let entry :=
          mkVariantResult (name variant) (impressions variant)
            (conversions variant) rate 0%float in
        '(bl, bv, entries) ← results_loop control (S i) rest
                                best_lift best_variant;
        Ok (bl, bv, entry :: entries)
  end.

(** The three-way decision at the end of [get_experiment_results]. *)
Definition decide_winner (experiment : Experiment) (control best : Variant)
  (best_lift : float) (is_significant : bool) (confidence : float)
  : option string * Recommendation :=
  if is_significant && (5 <? best_lift)%float then
    (Some (name best), Implement (name best) best_lift confidence)
  else if enough_data experiment && (best_lift <=? 0)%float then
    (Some (name control), KeepControl)
  else if negb (enough_data experiment) then
    (None,
     NeedMore (target_sample_size experiment - total_impressions experiment))
  else (None, ContinueCollecting).

(** The first half of [get_experiment_results]: the control is
    [variants[0]], the best variant starts as the control with lift [0.0]. *)
Definition analyse_variants (variants : list Variant)
  : result (float * nat * list VariantResult) :=
  match variants with
  | [] => Raise IndexError
  | control :: _ => results_loop control 0 variants 0%float 0%nat
  end.

(** The body of [get_experiment_results] once the experiment is found. *)
Definition compute_results (experiment_id : string) (experiment : Experiment)
  : result ExperimentResult :=
  match variants experiment with
  | [] => Raise IndexError
  | control :: _ =>
      '(best_lift, best_variant, variant_results) ←
        analyse_variants (variants experiment);
      let best := nth best_variant (variants experiment) control in
      '(is_significant, confidence) ← _calculate_significance control best;
      let '(winner, recommendation) :=
        decide_winner experiment control best best_lift is_significant
          confidence in
      Ok (mkExperimentResult experiment_id winner confidence best_lift
            variant_results is_significant recommendation)
  end.

(** [get_experiment_results]: [None] for an unknown experiment; the
    service is only read. *)
Definition get_experiment_results (experiment_id : string) (self : Service)
  : result (option ExperimentResult) :=
  match _experiments self !! experiment_id with
  | None => Ok None
  | Some experiment =>
      r ← compute_results experiment_id experiment; Ok (Some r)
  end.

(** ** The HTTP layer in front of the service ([app/api/experiments.py]) *)

Inductive HttpError : Set :=
| Http404
| Http409
| Http422
| Http500.

(** [VariantConfig], a validated request model. *)
Record VariantConfig : Type := mkVariantConfig {
  vc_name : string;
  vc_weight : float;
  vc_config : Config }.

(** [CreateExperimentRequest] *)
Record CreateExperimentRequest : Type := mkCreateExperimentRequest {
  rq_experiment_id : string;
  rq_name : string;
  rq_description : string;
  rq_variants : list VariantConfig;
  rq_target_sample_size : Z;
  rq_target_feature : string }.

(** [pattern=r"^[a-z0-9_]+$"] *)
Definition id_char (c : Ascii.ascii) : bool :=
  let n := Ascii.nat_of_ascii c in
  ((97 <=? n) && (n <=? 122) || (48 <=? n) && (n <=? 57) || (n =? 95))%nat.

(** The [Field] constraints of [VariantConfig]; [min_length] and
    [max_length] count characters. *)
Definition valid_variant_config (v : VariantConfig) : bool :=
  ((1 <=? Py.len (vc_name v)) && (Py.len (vc_name v) <=? 50))%nat
  && (0 <=? vc_weight v)%float && (vc_weight v <=? 1)%float.

(** The [Field] constraints of [CreateExperimentRequest]. *)
Definition valid_create_request (body : CreateExperimentRequest) : bool :=
  ((1 <=? Py.len (rq_experiment_id body))
   && (Py.len (rq_experiment_id body) <=? 100))%nat
  && forallb id_char (String.list_ascii_of_string (rq_experiment_id body))
  && ((1 <=? Py.len (rq_name body))
      && (Py.len (rq_name body) <=? 200))%nat
  && (2 <=? length (rq_variants body))%nat
  && forallb valid_variant_config (rq_variants body)
  && (100 <=? rq_target_sample_size body)
  && (rq_target_sample_size body <=? 1000000).

(** The endpoint [POST /experiments/create]: validation of the body, the
    conflict check, then the service. *)
Definition api_create_experiment (body : CreateExperimentRequest) (now : Z)
  (service : Service) : (HttpError + result Experiment) * Service :=
  if negb (valid_create_request body) then (inl Http422, service)
  else
    match _experiments service !! rq_experiment_id body with
    | Some _ => (inl Http409, service)
    | None =>
        let variants :=
          map (fun v => mkVariantDict (vc_name v) (Some (vc_weight v))
                          (Some (vc_config v)))
              (rq_variants body) in
        let '(r, service') :=
          create_experiment (rq_experiment_id body) (rq_name body)
            (rq_description body) variants (rq_target_sample_size body)
            (rq_target_feature body) now service in
        (inr r, service')
    end.

(** The two bodies that [POST /experiments/{experiment_id}/start] answers
    with status 200: [Experiment ... is already running] and
    [Experiment ... started successfully]. *)
Inductive StartMessage : Set :=
| is_already_running
| started_successfully.

(** The endpoint [POST /experiments/{experiment_id}/start]. *)
Definition api_start_experiment (experiment_id : string) (now : Z)
  (service : Service) : (HttpError + StartMessage) * Service :=
  match _experiments service !! experiment_id with
  | None => (inl Http404, service)
  | Some experiment =>
      if bool_decide (status experiment = RUNNING)
      then (inr is_already_running, service)
      else
        let '(success, service') :=
          start_experiment experiment_id now service in
        if success then (inr started_successfully, service')
        else (inl Http500, service')
  end.

(** ** Runs of the engine *)

(** [get_variant] called once per draw of [rnds], for the same experiment
    and user (the loop of [test_consistent_variant_assignment]). *)
Fixpoint get_variant_repeat (experiment_id user_id : string)
  (rnds : list float) (self : Service)
  : list (result (string * Config)) * Service :=
  match rnds with
  | [] => ([], self)
  | rnd :: rest =>
      let '(r, self1) := get_variant experiment_id user_id rnd self in
      let '(rs, self2) := get_variant_repeat experiment_id user_id rest self1 in
      (r :: rs, self2)
  end.

(** The engine operations that follow the creation of an experiment.
    [get_experiment_results] only reads the service, so running it leaves
    the service as it is. *)
Inductive Op : Type :=
| OpStart (experiment_id : string) (now : Z)
| OpStop (experiment_id : string) (now : Z)
| OpAssign (experiment_id user_id : string) (rnd : float)
| OpRecordConversion (experiment_id user_id : string)
| OpComputeResults (experiment_id : string).

Definition run_op (self : Service) (op : Op) : Service :=
  match op with
  | OpStart experiment_id now => (start_experiment experiment_id now self).2
  | OpStop experiment_id now => (stop_experiment experiment_id now self).2
  | OpAssign experiment_id user_id rnd =>
      (get_variant experiment_id user_id rnd self).2
  | OpRecordConversion experiment_id user_id =>
      (record_conversion experiment_id user_id self).2
  | OpComputeResults _ => self
  end.

Definition run_ops (ops : list Op) (self : Service) : Service :=
  fold_left run_op ops self.

(** The weights of a registered experiment, in list order. *)
Definition weights_of (self : Service) (experiment_id : string)
  : option (list float) :=
  e ← _experiments self !! experiment_id; Some (map weight (variants e)).

(** The impression and conversion counters of a registered experiment. *)
Definition counters_of (self : Service) (experiment_id : string)
  : option (list (Z * Z)) :=
  e ← _experiments self !! experiment_id;
  Some (map (fun v => (impressions v, conversions v)) (variants e)).

(** ** Closed forms *)

(** The variant that [create_experiment] builds from one input dict. *)
Definition normalised (total_weight : float) (v : VariantDict) : Variant :=
  mkVariant (d_name v) (get_weight v / total_weight)%float
    (default ∅ (d_config v)) 0 0.

(** The service after the first assignment of [user_id] to the variant at
    position [i]. *)
Definition after_assignment (self : Service) (experiment_id user_id : string)
  (experiment : Experiment) (i : nat) (v : Variant) : Service :=
  update_variant experiment_id experiment i
    (fun v => set_impressions (impressions v + 1) v)
    (store_assignment user_id experiment_id (name v) self).

(** ** The formulas of the results section of the specification *)

(** [lift = (rate - controlRate) / controlRate * 100] when
    [controlRate > 0], else [0]. *)
Definition lift_formula (rate control_rate : float) : float :=
  if (0 <? control_rate)%float
  then ((rate - control_rate) / control_rate * 100)%float
  else 0%float.

(** [z = |rate_b - rate_c| / sqrt(p (1 - p) (1/n_c + 1/n_b))] *)
Definition z_formula (rate_c rate_b p inv_c inv_b : float) : float :=
  (abs (rate_b - rate_c) / sqrt (p * (1 - p) * (inv_c + inv_b)))%float.

(** [min(99.9, 50 + 25 z)] *)
Definition confidence_formula (z : float) : float :=
  Py.min 99.9%float (50 + z * 25)%float.

(** The conversion rate of a variant whose rate does not overflow. *)
Definition rate_of (v : Variant) : float :=
  match conversion_rate v with
  | Ok r => r
  | Raise _ => 0%float
  end.

(** The lift of a variant against the control. *)
Definition lift_of (control v : Variant) : float :=
  lift_formula (rate_of v) (rate_of control).

(** The entry of a variant in the per-variant breakdown. *)
Definition entry_of (control v : Variant) : VariantResult :=
  mkVariantResult (name v) (impressions v) (conversions v) (rate_of v)
    (lift_of control v).

(** ** Sample data *)

Module Sample.

(** The two-variant inputs of the test suite. *)
Definition two_variants (w1 w2 : float) : list VariantDict :=
  [mkVariantDict "a" (Some w1) None; mkVariantDict "b" (Some w2) None].

(** A service with A/B testing on and the given sample rate. *)
Definition service (rate : float) : Service := init true "control" rate.

(** ["consistent_test"], created at time 0 and still a draft. *)
Definition drafted (rate : float) : Service :=
  (create_experiment "consistent_test" "Consistent Test" "Test"
     (two_variants 0.5 0.5) 1000 "default" 0 (service rate)).2.

(** The same experiment, started at time 1. *)
Definition started (rate : float) : Service :=
  (start_experiment "consistent_test" 1 (drafted rate)).2.

(** [user123] assigned (the draw 0.25 passes any gate of rate >= 0.25). *)
Definition assigned (rate : float) : Service :=
  (get_variant "consistent_test" "user123" 0.25 (started rate)).2.

(** The experiment stopped at time 2. *)
Definition stopped (rate : float) : Service :=
  (stop_experiment "consistent_test" 2 (started rate)).2.

Definition counters (n c : Z) (nm : string) : Variant :=
  mkVariant nm 0.5 ∅ n c.

End Sample.

(** ** The rest of the service *)

(** [record_conversion] called [n] times for the same experiment and
    user. *)
Fixpoint record_conversion_repeat (n : nat) (experiment_id user_id : string)
  (self : Service) : list bool * Service :=
  match n with
  | O => ([], self)
  | S n' =>
      let '(b, self1) := record_conversion experiment_id user_id self in
      let '(bs, self2) :=
        record_conversion_repeat n' experiment_id user_id self1 in
      (b :: bs, self2)
  end.

(** The values of [cumulative] after each turn of the loop of
    [_assign_variant]. *)
Fixpoint running_sums (cumulative : float) (vs : list Variant) : list float :=
  match vs with
  | [] => []
  | variant :: rest =>
      let cumulative := (cumulative + weight variant)%float in
      cumulative :: running_sums cumulative rest
  end.

(** [create_ai_experiments]: the three pre-configured experiments, created
    one after the other (each creation reads the clock once). *)
Definition create_ai_experiments (now1 now2 now3 : Z) (self : Service)
  : result (list string) * Service :=
  let '(r1, self1) :=
    create_experiment "ai_response_length" "AI Response Length Test"
      "Test if shorter or longer AI responses improve engagement"
      [mkVariantDict "control" (Some 0.5%float)
         (Some {[ "max_tokens" := PyInt 512 ]});
       mkVariantDict "longer" (Some 0.5%float)
         (Some {[ "max_tokens" := PyInt 1024 ]})]
      1000 "chat_response" now1 self in
  match r1 with
  | Raise e => (Raise e, self1)
  | Ok _ =>
      let '(r2, self2) :=
        create_experiment "rag_enabled" "RAG Enhancement Test"
          "Test if RAG-enhanced responses improve satisfaction"
          [mkVariantDict "control" (Some 0.5%float)
             (Some {[ "use_rag" := PyBool false ]});
           mkVariantDict "rag_enabled" (Some 0.5%float)
             (Some {[ "use_rag" := PyBool true ]})]
          1000 "chat_response" now2 self1 in
      match r2 with
      | Raise e => (Raise e, self2)
      | Ok _ =>
          let '(r3, self3) :=
            create_experiment "temperature_test" "Temperature Test"
              "Test different temperature settings for AI responses"
              [mkVariantDict "conservative" (Some 0.33%float)
                 (Some {[ "temperature" := PyNum 3 (-1) ]});
               mkVariantDict "balanced" (Some 0.34%float)
                 (Some {[ "temperature" := PyNum 7 (-1) ]});
               mkVariantDict "creative" (Some 0.33%float)
                 (Some {[ "temperature" := PyNum 10 (-1) ]})]
              1000 "chat_response" now3 self2 in
          match r3 with
          | Raise e => (Raise e, self3)
          | Ok _ =>
              (Ok ["ai_response_length"; "rag_enabled"; "temperature_test"],
               self3)
          end
      end
  end.

(** ** The other endpoints of [app/api/experiments.py] *)

(** The error answers of the endpoints below: the [HTTPException]s they
    raise (400, 404, 500), the 422 of a request body that the request
    model refuses, the 429 of the rate limiter, and the 500 with which
    [global_exception_handler] ([app/main.py]) answers any other exception
    that leaves an endpoint. *)
Inductive HttpException : Set :=
| Status400
| Status404
| Status422
| Status429
| Status500.

(** [POST /experiments/{experiment_id}/stop] *)
Definition api_stop_experiment (experiment_id : string) (now : Z)
  (service : Service) : (HttpException + unit) * Service :=
  match _experiments service !! experiment_id with
  | None => (inl Status404, service)
  | Some _ =>
      let '(success, service') := stop_experiment experiment_id now service in
      if success then (inr tt, service') else (inl Status500, service')
  end.

(** [DELETE /experiments/{experiment_id}] *)
Definition api_delete_experiment (experiment_id : string) (service : Service)
  : (HttpException + unit) * Service :=
  match _experiments service !! experiment_id with
  | None => (inl Status404, service)
  | Some _ =>
      let '(success, service') := delete_experiment experiment_id service in
      if success then (inr tt, service') else (inl Status500, service')
  end.

(** A field of a JSON request body as the request model meets it: absent,
    present with a value that the declared type does not accept, or
    present with a value of that type. *)
Inductive BodyField (A : Type) : Type :=
| Missing
| IllTyped
| Given (a : A).

Arguments Missing {A}.
Arguments IllTyped {A}.
Arguments Given {A} a.

(** The body of [POST /experiments/conversion] before validation. *)
Record ConversionBody : Type := mkConversionBody {
  cb_experiment_id : BodyField string;
  cb_user_id : BodyField string;
  cb_value : BodyField float;
  cb_metadata : BodyField (option Config) }.

(** [RecordConversionRequest], a validated request model. *)
Record RecordConversionRequest : Type := mkRecordConversionRequest {
  rc_experiment_id : string;
  rc_user_id : string;
  rc_value : float;
  rc_metadata : option Config }.

(** The validation of [RecordConversionRequest]: [experiment_id] and
    [user_id] are required, [value] defaults to [1.0] and must satisfy
    [ge=0.0], [metadata] defaults to [None]. *)
Definition validate_conversion (body : ConversionBody)
  : option RecordConversionRequest :=
  match cb_experiment_id body, cb_user_id body with
  | Given experiment_id, Given user_id =>
      let value :=
        match cb_value body with
        | Missing => Some 1%float
        | IllTyped => None
        | Given x => if (0 <=? x)%float then Some x else None
        end in
      let metadata :=
        match cb_metadata body with
        | Missing => Some None
        | IllTyped => None
        | Given m => Some m
        end in
      match value, metadata with
      | Some x, Some m =>
          Some (mkRecordConversionRequest experiment_id user_id x m)
      | _, _ => None
      end
  | _, _ => None
  end.

(** [POST /experiments/conversion]: the body is validated (422) before the
    endpoint function runs; the function is wrapped by
    [limiter.limit("1000/minute")], which answers 429 when the caller is
    over the limit ([over_limit], an input: the limiter keeps its own
    counters outside the service); then the endpoint's own guards.  The
    service ignores [value] and [metadata]. *)
Definition api_record_conversion (body : ConversionBody) (over_limit : bool)
  (service : Service) : (HttpException + unit) * Service :=
  match validate_conversion body with
  | None => (inl Status422, service)
  | Some request =>
      if over_limit then (inl Status429, service)
      else
        match _experiments service !! rc_experiment_id request with
        | None => (inl Status404, service)
        | Some _ =>
            let '(success, service') :=
              record_conversion (rc_experiment_id request)
                (rc_user_id request) service in
            if success then (inr tt, service')
            else (inl Status400, service')
        end
  end.

(** [GET /experiments/{experiment_id}/results]; the service is only read.
    An exception that leaves [get_experiment_results] is not caught by the
    endpoint: [global_exception_handler] answers it with status 500, the
    status that the endpoint itself raises when the result is [None].  The
    serialisation of the response is not modelled. *)
Definition api_get_experiment_results (experiment_id : string)
  (service : Service) : HttpException + ExperimentResult :=
  match _experiments service !! experiment_id with
  | None => inl Status404
  | Some _ =>
      match get_experiment_results experiment_id service with
      | Raise _ => inl Status500
      | Ok None => inl Status500
      | Ok (Some r) => inr r
      end
  end.

(** [ExperimentStatus.value] *)
Definition status_value (st : ExperimentStatus) : string :=
  match st with
  | DRAFT => "draft"
  | RUNNING => "running"
  | PAUSED => "paused"
  | COMPLETED => "completed"
  | CANCELLED => "cancelled"
  end.

(** The dict returned by [GET /experiments/stats/summary]. *)
Record Summary : Type := mkSummary {
  total_experiments : Z;
  by_status : gmap string Z;
  summary_impressions : Z;
  summary_conversions : Z;
  significant_experiments : Z }.

(** One turn of the loop of [get_experiments_summary]. *)
Definition summary_step (exp : Experiment) (summary : Summary) : Summary :=
  mkSummary (total_experiments summary)
    (<[status_value (status exp) :=
         default 0 (by_status summary !! status_value (status exp)) + 1]>
       (by_status summary))
    (summary_impressions summary + total_impressions exp)
    (fold_left (fun acc v => acc + conversions v) (variants exp)
       (summary_conversions summary))
    (if enough_data exp then significant_experiments summary + 1
     else significant_experiments summary).

(** [get_experiments_summary]: every field is a count or a sum, so the
    order in which the experiments are visited does not show. *)
Definition get_experiments_summary (service : Service) : Summary :=
  map_fold (fun _ exp summary => summary_step exp summary)
    (mkSummary (Z.of_nat (size (_experiments service))) ∅ 0 0 0)
    (_experiments service).

(** Component-wise order on (impressions, conversions). *)
Definition counters_le (a b : Z * Z) : Prop := a.1 <= b.1 /\ a.2 <= b.2.

(** The identifier and the weights of a registered experiment. *)
Definition identity_of (self : Service) (experiment_id : string)
  : option (string * list float) :=
  e ← _experiments self !! experiment_id;
  Some (e_id e, map weight (variants e)).

(** A registered experiment as [create_experiment] leaves it: a Draft
    without dates and with all counters at zero. *)
Definition fresh_draft (self : Service) (experiment_id : string) : Prop :=
  exists e,
    _experiments self !! experiment_id = Some e
    /\ status e = DRAFT
    /\ started_at e = None
    /\ ended_at e = None
    /\ Forall (fun v => impressions v = 0 /\ conversions v = 0) (variants e)
    /\ Py.sum (map weight (variants e)) = 1%float.

(** The count that the summary reports for a status (0 when the status is
    not a key of [by_status]). *)
Definition status_count (summary : Summary) (st : ExperimentStatus) : Z :=
  default 0 (by_status summary !! status_value st).

(** ** The real number that a float denotes *)

(** [2^e] *)
Definition pow2 (e : Z) : R := powerRZ 2 e.

(** The value of a finite binary number [m * 2^e]; zero for the zeros
    (and, by convention, for the infinities and NaN). *)
Definition SF2R (x : spec_float) : R :=
  match x with
  | S754_finite s m e =>
      ((if s then -1 else 1) * IZR (Zpos m) * pow2 e)%R
  | _ => 0%R
  end.

Definition float_value (x : float) : R := SF2R (Prim2SF x).

(** The real number [x], in units of the last place of [mrs], lies where
    the round and sticky bits of [mrs] say. *)
Definition inloc (x : R) (mrs : shr_record) : Prop :=
  match shr_r mrs, shr_s mrs with
  | false, false => x = IZR (shr_m mrs)
  | false, true => (IZR (shr_m mrs) < x < IZR (shr_m mrs) + / 2)%R
  | true, false => x = (IZR (shr_m mrs) + / 2)%R
  | true, true => (IZR (shr_m mrs) + / 2 < x < IZR (shr_m mrs) + 1)%R
  end.

(** The relative error of one rounding to nearest, [2^-53], and the
    absolute error of a rounding that underflows, [2^-1075]. *)
Definition unit_roundoff : R := pow2 (-53).
Definition underflow_error : R := pow2 (-1075).

(** A zero or a positive finite number. *)
Definition nonneg_SF (z : spec_float) : Prop :=
  match z with
  | S754_zero _ | S754_finite false _ _ => True
  | _ => False
  end.

Definition nonneg_finite (a : float) : Prop := nonneg_SF (Prim2SF a).

(** The sum of the values of the floats, computed exactly. *)
Definition exact_sum (xs : list float) : R :=
  fold_right (fun x s => (float_value x + s)%R) 0%R xs.

(** The accumulator of a float sum after [k] additions of non-negative
    numbers whose exact sum is [A]: either it has overflowed, or it is
    within [k] roundings of [A]. *)
Definition sum_invariant (acc : float) (k : nat) (A : R) : Prop :=
  (Prim2SF acc = S754_infinity false
   /\ (pow2 1023 <= (1 + unit_roundoff) ^ k * A)%R)
  \/ (nonneg_finite acc
      /\ ((1 - unit_roundoff) ^ k * A <= float_value acc
          <= (1 + unit_roundoff) ^ k * A)%R).

(** * Properties *)

(** ** The order of floats *)

Section FloatOrder.

Ltac cases_compare :=
  repeat match goal with
    | H : context [Z.compare ?x ?y] |- _ => destruct (Z.compare_spec x y)
    | |- context [Z.compare ?x ?y] => destruct (Z.compare_spec x y)
    | H : context [Pos.compare_cont Eq ?x ?y] |- _ =>
        change (Pos.compare_cont Eq x y) with (Pos.compare x y) in *;
        destruct (Pos.compare_spec x y)
    | |- context [Pos.compare_cont Eq ?x ?y] =>
        change (Pos.compare_cont Eq x y) with (Pos.compare x y) in *;
        destruct (Pos.compare_spec x y)
    end.

Lemma SFcompare_refl (a : spec_float) : SFcompare a a <> Some Lt.
Proof.
  destruct a as [[]|[]| |[] m e]; simpl; try discriminate;
    rewrite Z.compare_refl;
    change (Pos.compare_cont Eq m m) with (Pos.compare m m);
    rewrite Pos.compare_refl; discriminate.
Qed.

Lemma SFcompare_lt_le_trans (a b c : spec_float) :
  SFcompare a b = Some Lt ->
  SFcompare b c = Some Lt \/ SFcompare b c = Some Eq ->
  SFcompare a c = Some Lt.
Proof.
  destruct a as [[]|[]| |[] ma ea], b as [[]|[]| |[] mb eb],
    c as [[]|[]| |[] mc ec]; simpl; intros H1 [H2|H2];
    try discriminate; try reflexivity;
    cases_compare; simpl in *; subst; try discriminate; try reflexivity;
    try lia.
Qed.

Lemma ltb_irrefl (x : float) : (x <? x)%float = false.
Proof.
  rewrite ltb_spec. unfold SFltb.
  pose proof (SFcompare_refl (Prim2SF x)) as H.
  destruct (SFcompare (Prim2SF x) (Prim2SF x)) as [[]|]; congruence.
Qed.

Lemma ltb_leb_trans (x y z : float) :
  (x <? y)%float = true -> (y <=? z)%float = true -> (x <? z)%float = true.
Proof.
  rewrite !ltb_spec, leb_spec. unfold SFltb, SFleb. intros H1 H2.
  rewrite (SFcompare_lt_le_trans (Prim2SF x) (Prim2SF y) (Prim2SF z));
    trivial.
  - destruct (SFcompare (Prim2SF x) (Prim2SF y)) as [[]|]; congruence.
  - destruct (SFcompare (Prim2SF y) (Prim2SF z)) as [[]|]; auto;
      discriminate.
Qed.

Lemma ltb_leb (x y : float) :
  (x <? y)%float = true -> (x <=? y)%float = true.
Proof.
  rewrite ltb_spec, leb_spec. unfold SFltb, SFleb.
  destruct (SFcompare (Prim2SF x) (Prim2SF y)) as [[]|]; congruence.
Qed.

Lemma ltb_trans (x y z : float) :
  (x <? y)%float = true -> (y <? z)%float = true -> (x <? z)%float = true.
Proof. intros H1 H2. eapply ltb_leb_trans; eauto using ltb_leb. Qed.

Lemma ltb_not_leb (x y : float) :
  (x <? y)%float = true -> (y <=? x)%float = false.
Proof.
  intros H. destruct (y <=? x)%float eqn:E; trivial.
  pose proof (ltb_leb_trans _ _ _ H E) as C.
  rewrite ltb_irrefl in C. discriminate.
Qed.

Lemma ltb_asym (x y : float) :
  (x <? y)%float = true -> (y <? x)%float = false.
Proof.
  intros H. destruct (y <? x)%float eqn:E; trivial.
  pose proof (ltb_trans _ _ _ H E) as C.
  rewrite ltb_irrefl in C. discriminate.
Qed.

End FloatOrder.

(** ** Lookups in the list of variants *)

Lemma find_by_name_Some (vn : string) (vs : list Variant) (i j : nat)
  (v : Variant) :
  find_by_name vn i vs = Some (j, v) ->
  (i <= j)%nat /\ vs !! (j - i)%nat = Some v /\ name v = vn /\
  forall k w, (k < j - i)%nat -> vs !! k = Some w -> name w <> vn.
Proof.
  revert i. induction vs as [|x vs IH]; intros i H; simpl in H.
  - discriminate.
  - case_bool_decide as Hn.
    + injection H as <- <-. rewrite Nat.sub_diag. repeat split; auto.
      intros k w Hk. lia.
    + apply IH in H as (Hle & Hl & Hv & Hfirst).
      split; [lia|]. replace (j - i)%nat with (S (j - S i)) by lia.
      repeat split; auto.
      intros [|k] w Hk Hw; simpl in Hw.
      * injection Hw as <-. exact Hn.
      * apply (Hfirst k w); [lia | exact Hw].
Qed.

Lemma find_by_name_None (vn : string) (vs : list Variant) (i : nat) :
  find_by_name vn i vs = None <-> forall v, v ∈ vs -> name v <> vn.
Proof.
  revert i. induction vs as [|x vs IH]; intros i; simpl.
  - split; [intros _ v Hv; inversion Hv | reflexivity].
  - case_bool_decide as Hn.
    + split; [discriminate|]. intros H. destruct (H x); [left | exact Hn].
    + rewrite IH. split.
      * intros H v Hv. inversion Hv; subst; auto.
      * intros H v Hv. apply H. right. exact Hv.
Qed.

Lemma find_by_name_is_Some (vn : string) (vs : list Variant) (v : Variant) :
  v ∈ vs -> name v = vn -> exists j w, find_by_name vn 0 vs = Some (j, w).
Proof.
  intros Hv Hn. destruct (find_by_name vn 0 vs) as [[j w]|] eqn:E; eauto.
  rewrite find_by_name_None in E. destruct (E v Hv Hn).
Qed.

(** ** Assignment outside the Running state *)

(** C8: for an experiment that is registered but not Running (Draft,
    Paused, Completed, and Cancelled as well), [get_variant] returns the
    configured default variant with an empty configuration and the service
    is left exactly as it was: the assignments and every counter are the
    same, whatever the user and whatever the draw. *)
Theorem get_variant_not_running (self : Service)
  (experiment_id user_id : string) (rnd : float) (experiment : Experiment) :
  _experiments self !! experiment_id = Some experiment ->
  status experiment <> RUNNING ->
  get_variant experiment_id user_id rnd self
  = (Ok (default_variant self, ∅), self).
Proof.
  intros Hlook Hst. unfold get_variant.
  destruct (enabled self); simpl; [|reflexivity].
  rewrite Hlook. rewrite bool_decide_eq_false_2 by exact Hst. reflexivity.
Qed.

Lemma get_variant_not_running_witness :
  get_variant "consistent_test" "user123" 0.25 (Sample.drafted 1)
  = (Ok ("control", ∅), Sample.drafted 1)
  /\ record_conversion "consistent_test" "user123"
       (get_variant "consistent_test" "user123" 0.25 (Sample.drafted 1)).2
     = (false, Sample.drafted 1).
Proof.
  split.
  - apply (get_variant_not_running (Sample.drafted 1) "consistent_test"
             "user123" 0.25
             (mkExperiment "consistent_test" "Consistent Test" "Test"
                [mkVariant "a" 0.5 ∅ 0 0; mkVariant "b" 0.5 ∅ 0 0]
                DRAFT 0 None None 1000 "default" ∅)).
    + vm_compute. reflexivity.
    + simpl. discriminate.
  - vm_compute. reflexivity.
Defined.

(** ** Conversions *)

(** C9: for a registered experiment, [record_conversion] answers [False]
    (the HTTP layer turns it into the not-assigned error) and leaves the
    service untouched when no assignment is stored for the user; when the
    stored assignment names one of the experiment's variants it answers
    [True], and the new service differs from the old one only in the
    conversion counter of the first variant carrying that name, which is
    one higher. *)
Theorem record_conversion_spec (self : Service)
  (experiment_id user_id : string) (experiment : Experiment) :
  _experiments self !! experiment_id = Some experiment ->
  (stored_assignment self user_id experiment_id = None ->
   record_conversion experiment_id user_id self = (false, self))
  /\
  (forall variant_name,
     stored_assignment self user_id experiment_id = Some variant_name ->
     (exists v, v ∈ variants experiment /\ name v = variant_name) ->
     exists i v,
       variants experiment !! i = Some v
       /\ name v = variant_name
       /\ (forall k w, (k < i)%nat -> variants experiment !! k = Some w ->
                       name w <> variant_name)
       /\ record_conversion experiment_id user_id self
          = (true,
             set_experiments
               (<[experiment_id :=
                    set_variants
                      (<[i := set_conversions (conversions v + 1) v]>
                         (variants experiment))
                      experiment]> (_experiments self))
               self)).
Proof.
  intros Hlook. split.
  - intros Hnone. unfold record_conversion. rewrite Hlook, Hnone. reflexivity.
  - intros vn Hst (v & Hv & Hn).
    destruct (find_by_name_is_Some vn _ v Hv Hn) as (j & w & Hf).
    destruct (find_by_name_Some _ _ _ _ _ Hf) as (_ & Hl & Hw & Hfirst).
    rewrite Nat.sub_0_r in Hl, Hfirst.
    exists j, w. repeat split; auto.
    unfold record_conversion. rewrite Hlook, Hst, Hf.
    unfold update_variant. do 4 f_equal.
    apply list_eq. intros k. destruct (decide (k = j)) as [->|Hk].
    + rewrite list_lookup_alter_eq, list_lookup_insert_eq, Hl.
      * reflexivity.
      * eapply lookup_lt_Some; eauto.
    + rewrite list_lookup_alter_ne, list_lookup_insert_ne by auto. reflexivity.
Qed.

Lemma record_conversion_spec_witness :
  let experiment :=
    mkExperiment "consistent_test" "Consistent Test" "Test"
      [mkVariant "a" 0.5 ∅ 1 0; mkVariant "b" 0.5 ∅ 0 0]
      RUNNING 0 (Some 1) None 1000 "default" ∅ in
  _experiments (Sample.assigned 1) !! "consistent_test" = Some experiment
  /\ record_conversion "consistent_test" "user456" (Sample.assigned 1)
     = (false, Sample.assigned 1)
  /\ exists i v,
       variants experiment !! i = Some v
       /\ name v = "a"
       /\ counters_of
            (record_conversion "consistent_test" "user123"
               (Sample.assigned 1)).2 "consistent_test"
          = Some (<[i := (impressions v, conversions v + 1)]> [(1, 0); (0, 0)]).
Proof.
  intros experiment.
  assert (_experiments (Sample.assigned 1) !! "consistent_test"
          = Some experiment) as He by (vm_compute; reflexivity).
  split; [exact He|]. split.
  - apply (record_conversion_spec (Sample.assigned 1) "consistent_test"
             "user456" experiment He).
    vm_compute. reflexivity.
  - destruct (proj2 (record_conversion_spec (Sample.assigned 1)
                       "consistent_test" "user123" experiment He) "a")
      as (i & v & Hv & Hn & _ & Hrun).
    + vm_compute. reflexivity.
    + exists (mkVariant "a" 0.5 ∅ 1 0). split; [left | reflexivity].
    + exists i, v. split; [exact Hv|]. split; [exact Hn|].
      rewrite Hrun. unfold counters_of. simpl.
      rewrite lookup_insert_eq. simpl. f_equal.
      rewrite list_fmap_insert. reflexivity.
Defined.

(** ** Starting an experiment *)

(** C6, as stated, fails on the service: [start_experiment] has no guard
    on the current status.  An experiment started at time 1 and completed
    at time 2 is moved back to Running by a call at time 3, and its
    [started_at] is overwritten; a call on a Running experiment at time 5
    also overwrites [started_at]. *)
Lemma start_experiment_restarts_completed :
  (status <$> _experiments (Sample.stopped 1) !! "consistent_test")
  = Some COMPLETED
  /\ (started_at <$> _experiments (Sample.stopped 1) !! "consistent_test")
     = Some (Some 1)
  /\ (status <$>
        _experiments (start_experiment "consistent_test" 3 (Sample.stopped 1)).2
          !! "consistent_test")
     = Some RUNNING
  /\ (started_at <$>
        _experiments (start_experiment "consistent_test" 3 (Sample.stopped 1)).2
          !! "consistent_test")
     = Some (Some 3)
  /\ (started_at <$>
        _experiments (start_experiment "consistent_test" 5 (Sample.started 1)).2
          !! "consistent_test")
     = Some (Some 5).
Proof. repeat split; vm_compute; reflexivity. Qed.

(** C6, amended: [start_experiment] on a registered experiment answers
    [True] and stores the experiment with status Running and [started_at]
    set to the time of the call, whatever its status was (Draft, Paused,
    Running, Completed or Cancelled); every other field, every other
    experiment and the assignments are unchanged.  On an unknown
    identifier it answers [False] and changes nothing.  The guard for an
    already Running experiment is in the HTTP endpoint, which then leaves
    the service as it is. *)
Theorem start_experiment_spec (self : Service) (experiment_id : string)
  (now : Z) :
  (_experiments self !! experiment_id = None ->
   start_experiment experiment_id now self = (false, self))
  /\
  (forall experiment,
     _experiments self !! experiment_id = Some experiment ->
     exists self' experiment',
       start_experiment experiment_id now self = (true, self')
       /\ _experiments self' !! experiment_id = Some experiment'
       /\ status experiment' = RUNNING
       /\ started_at experiment' = Some now
       /\ (e_id experiment', e_name experiment', description experiment',
           variants experiment', created_at experiment', ended_at experiment',
           target_sample_size experiment', target_feature experiment',
           metadata experiment')
          = (e_id experiment, e_name experiment, description experiment,
             variants experiment, created_at experiment, ended_at experiment,
             target_sample_size experiment, target_feature experiment,
             metadata experiment)
       /\ (forall other, other <> experiment_id ->
             _experiments self' !! other = _experiments self !! other)
       /\ _user_assignments self' = _user_assignments self
       /\ (status experiment = RUNNING ->
           api_start_experiment experiment_id now self
           = (inr is_already_running, self))).
Proof.
  split.
  - intros Hn. unfold start_experiment. rewrite Hn. reflexivity.
  - intros e He. unfold start_experiment, api_start_experiment. rewrite He.
    eexists _, (set_running now e). split; [reflexivity|]. simpl.
    rewrite lookup_insert_eq. repeat split; auto.
    + intros other Ho. rewrite lookup_insert_ne by auto. reflexivity.
    + intros Hr. rewrite bool_decide_eq_true_2 by exact Hr. reflexivity.
Qed.

Lemma start_experiment_spec_witness :
  start_experiment "unknown" 3 (Sample.stopped 1) = (false, Sample.stopped 1)
  /\ exists self' experiment',
       start_experiment "consistent_test" 3 (Sample.stopped 1) = (true, self')
       /\ _experiments self' !! "consistent_test" = Some experiment'
       /\ status experiment' = RUNNING
       /\ started_at experiment' = Some 3.
Proof.
  pose proof (start_experiment_spec (Sample.stopped 1)) as H. split.
  - apply (H "unknown" 3). vm_compute. reflexivity.
  - destruct (proj2 (H "consistent_test" 3)
                (mkExperiment "consistent_test" "Consistent Test" "Test"
                   [mkVariant "a" 0.5 ∅ 0 0; mkVariant "b" 0.5 ∅ 0 0]
                   COMPLETED 0 (Some 1) (Some 2) 1000 "default" ∅))
      as (s' & e' & H1 & H2 & H3 & H4 & _).
    + vm_compute. reflexivity.
    + exists s', e'. auto.
Defined.

(** ** Creating an experiment *)

Lemma variant_objects_nonzero (total_weight : float) (vs : list VariantDict) :
  (total_weight =? 0)%float = false ->
  variant_objects total_weight vs = Ok (map (normalised total_weight) vs).
Proof.
  intros Hz. induction vs as [|v vs IH]; simpl; [reflexivity|].
  unfold Py.float_truediv. rewrite Hz. simpl. rewrite IH. reflexivity.
Qed.


Lemma create_experiment_nonzero (experiment_id name description : string)
  (variants : list VariantDict) (target_sample_size : Z)
  (target_feature : string) (now : Z) (self : Service) :
  let total_weight := Py.sum (map get_weight variants) in
  let experiment :=
    mkExperiment experiment_id name description
      (map (normalised total_weight) variants) DRAFT now None None
      target_sample_size target_feature ∅ in
  (total_weight =? 0)%float = false ->
  create_experiment experiment_id name description variants
    target_sample_size target_feature now self
  = (Ok experiment,
     set_experiments (<[experiment_id := experiment]> (_experiments self))
       self).
Proof.
  intros total_weight experiment Hz. unfold create_experiment.
  fold total_weight. rewrite variant_objects_nonzero by exact Hz.
  reflexivity.
Qed.

(** C3, as stated, fails on the service: [create_experiment] validates
    nothing.  The one-variant experiment of [test_get_all_experiments] is
    created and registered, and so is an experiment with a negative
    weight. *)
Lemma create_experiment_accepts_malformed :
  (exists e,
     create_experiment "exp1" "Experiment 1" "Test 1"
       [mkVariantDict "a" (Some 1%float) None] 1000 "default" 0
       (Sample.service 1)
     = (Ok e,
        set_experiments (<[ "exp1" := e ]> ∅) (Sample.service 1))
     /\ map name (variants e) = ["a"])
  /\ (exists e,
        create_experiment "exp2" "Experiment 2" "Test 2"
          (Sample.two_variants (-1) 3) 1000 "default" 0 (Sample.service 1)
        = (Ok e,
           set_experiments (<[ "exp2" := e ]> ∅) (Sample.service 1))
        /\ map weight (variants e) = [(-0.5)%float; 1.5%float]).
Proof. split; eexists; split; vm_compute; reflexivity. Qed.

(** C3, amended: [create_experiment] itself rejects nothing for a missing
    second variant or a negative weight: whenever the float sum of the
    input weights is not zero it returns the experiment, in Draft, with one
    variant per input dict, and registers it under its identifier.  The
    rejection of fewer than two variants and of negative weights is done by
    the request model of the HTTP endpoint, before the service is called:
    such a request is answered with a validation error and the service is
    unchanged. *)
Theorem create_experiment_validation :
  (forall experiment_id title text vs target_sample_size
          target_feature now self,
     (Py.sum (map get_weight vs) =? 0)%float = false ->
     exists e,
       create_experiment experiment_id title text vs
         target_sample_size target_feature now self
       = (Ok e,
          set_experiments (<[experiment_id := e]> (_experiments self)) self)
       /\ status e = DRAFT
       /\ map name (variants e) = map d_name vs)
  /\
  (forall body now service,
     (length (rq_variants body) < 2)%nat
     \/ (exists v, v ∈ rq_variants body /\ (vc_weight v <? 0)%float = true) ->
     api_create_experiment body now service = (inl Http422, service)).
Proof.
  split.
  - intros eid n d vs tss tf now self Hz. eexists. split.
    + apply create_experiment_nonzero. exact Hz.
    + split; [reflexivity|]. simpl. rewrite map_map. reflexivity.
  - intros body now service H.
    assert (valid_create_request body = false) as Hv.
    { unfold valid_create_request. destruct H as [Hlen|(v & Hin & Hneg)].
      - apply Nat.leb_gt in Hlen. rewrite Hlen.
        rewrite !andb_false_r. reflexivity.
      - assert (forallb valid_variant_config (rq_variants body) = false)
          as ->.
        { apply not_true_is_false. intros Hall.
          rewrite forallb_forall in Hall.
          apply list_elem_of_In in Hin. specialize (Hall v Hin).
          unfold valid_variant_config in Hall.
          apply ltb_not_leb in Hneg. rewrite Hneg in Hall.
          rewrite andb_false_r in Hall. discriminate. }
        rewrite !andb_false_r. reflexivity. }
    unfold api_create_experiment. rewrite Hv. reflexivity.
Qed.

Lemma create_experiment_validation_witness :
  (exists e,
     create_experiment "weight_test" "Weight Test" "Test"
       (Sample.two_variants 2 2) 1000 "default" 0 (Sample.service 1)
     = (Ok e, set_experiments (<[ "weight_test" := e ]> ∅) (Sample.service 1))
     /\ status e = DRAFT
     /\ map name (variants e) = ["a"; "b"])
  /\ api_create_experiment
       (mkCreateExperimentRequest "exp1" "Experiment 1" "Test 1"
          [mkVariantConfig "a" 1 ∅] 1000 "default") 0 (Sample.service 1)
     = (inl Http422, Sample.service 1)
  /\ api_create_experiment
       (mkCreateExperimentRequest "exp2" "Experiment 2" "Test 2"
          [mkVariantConfig "a" (-1) ∅; mkVariantConfig "b" 1 ∅] 1000
          "default") 0 (Sample.service 1)
     = (inl Http422, Sample.service 1).
Proof.
  destruct create_experiment_validation as [Hsvc Hapi]. split; [|split].
  - apply (Hsvc "weight_test" "Weight Test" "Test" (Sample.two_variants 2 2)
             1000 "default" 0 (Sample.service 1)).
    vm_compute. reflexivity.
  - apply Hapi. left. simpl. lia.
  - apply Hapi. right. exists (mkVariantConfig "a" (-1) ∅). split.
    + simpl. left.
    + vm_compute. reflexivity.
Defined.

(** ** A zero total weight *)






(** ** Weights after creation *)

Lemma weights_of_set_experiments (self : Service) (m : gmap string Experiment)
  (k : string) :
  weights_of (set_experiments m self) k
  = (e ← m !! k; Some (map weight (variants e))).
Proof. reflexivity. Qed.

Lemma weights_of_update_variant (self : Service) (experiment_id k : string)
  (experiment : Experiment) (i : nat) (f : Variant -> Variant) :
  _experiments self !! experiment_id = Some experiment ->
  (forall v, weight (f v) = weight v) ->
  weights_of (update_variant experiment_id experiment i f self) k
  = weights_of self k.
Proof.
  intros He Hf. unfold update_variant. rewrite weights_of_set_experiments.
  unfold weights_of. destruct (decide (k = experiment_id)) as [->|Hk].
  - rewrite lookup_insert_eq, He. simpl. f_equal.
    apply list_eq. intros j. rewrite !list_lookup_fmap.
    destruct (decide (j = i)) as [->|Hj].
    + rewrite list_lookup_alter_eq.
      destruct (variants experiment !! i); simpl; [|reflexivity].
      rewrite Hf. reflexivity.
    + rewrite list_lookup_alter_ne by auto. reflexivity.
  - rewrite lookup_insert_ne by auto. reflexivity.
Qed.

Lemma weights_of_set_status (self : Service) (experiment_id k : string)
  (experiment experiment' : Experiment) :
  _experiments self !! experiment_id = Some experiment ->
  variants experiment' = variants experiment ->
  weights_of
    (set_experiments (<[experiment_id := experiment']> (_experiments self))
       self) k
  = weights_of self k.
Proof.
  intros He Hv. rewrite weights_of_set_experiments. unfold weights_of.
  destruct (decide (k = experiment_id)) as [->|Hk].
  - rewrite lookup_insert_eq, He. simpl. rewrite Hv. reflexivity.
  - rewrite lookup_insert_ne by auto. reflexivity.
Qed.

Lemma weights_of_run_op (self : Service) (op : Op) (k : string) :
  weights_of (run_op self op) k = weights_of self k.
Proof.
  destruct op as [eid now|eid now|eid uid rnd|eid uid|eid]; simpl.
  - unfold start_experiment.
    destruct (_experiments self !! eid) as [e|] eqn:He; [|reflexivity].
    simpl. eapply weights_of_set_status; eauto.
  - unfold stop_experiment.
    destruct (_experiments self !! eid) as [e|] eqn:He; [|reflexivity].
    simpl. eapply weights_of_set_status; eauto.
  - unfold get_variant.
    destruct (enabled self); simpl; [|reflexivity].
    destruct (_experiments self !! eid) as [e|] eqn:He; [|reflexivity].
    destruct (negb (bool_decide (status e = RUNNING))); [reflexivity|].
    destruct (_ ≫= _) as [[j v]|]; [reflexivity|].
    destruct (sample_rate self <? rnd)%float; [reflexivity|].
    destruct (_assign_variant e uid) as [i|]; [|reflexivity].
    destruct (variants e !! i) as [v|]; [|reflexivity].
    simpl. apply (weights_of_update_variant
                    (store_assignment uid eid (name v) self)); auto.
  - unfold record_conversion.
    destruct (_experiments self !! eid) as [e|] eqn:He; [|reflexivity].
    destruct (stored_assignment self uid eid) as [vn|]; [|reflexivity].
    destruct (find_by_name vn 0 (variants e)) as [[i v]|]; [|reflexivity].
    simpl. apply weights_of_update_variant; auto.
  - reflexivity.
Qed.

Lemma weights_of_run_ops (ops : list Op) (self : Service) (k : string) :
  weights_of (run_ops ops self) k = weights_of self k.
Proof.
  unfold run_ops. revert self.
  induction ops as [|op ops IH]; intros self; simpl; [reflexivity|].
  rewrite IH. apply weights_of_run_op.
Qed.

(** ** The error of the float operations

    The error of the float operations that [create_experiment] performs
    (the sum of the input weights, the quotients, and the sum of the
    stored weights), derived from the definitions of the rounded
    operations in [SpecFloat]. *)

(** *** Powers of two *)

Lemma pow2_pos (e : Z) : (0 < pow2 e)%R.
Proof. apply powerRZ_lt. lra. Qed.

Lemma pow2_add (a b : Z) : pow2 (a + b) = (pow2 a * pow2 b)%R.
Proof. apply powerRZ_add. lra. Qed.

Lemma pow2_0 : pow2 0 = 1%R.
Proof. reflexivity. Qed.

Lemma pow2_1 : pow2 1 = 2%R.
Proof. unfold pow2. simpl. lra. Qed.

Lemma pow2_succ (e : Z) : pow2 (e + 1) = (2 * pow2 e)%R.
Proof. rewrite pow2_add, pow2_1. lra. Qed.

Lemma pow2_pred (e : Z) : pow2 (e - 1) = (pow2 e / 2)%R.
Proof.
  replace e with ((e - 1) + 1) at 2 by lia. rewrite pow2_succ. lra.
Qed.

Lemma pow2_opp (e : Z) : pow2 (- e) = (/ pow2 e)%R.
Proof. apply powerRZ_neg'. Qed.

Lemma pow2_sub (a b : Z) : pow2 (a - b) = (pow2 a / pow2 b)%R.
Proof.
  replace (a - b) with (a + - b) by lia. rewrite pow2_add, pow2_opp.
  reflexivity.
Qed.

Lemma pow2_IZR (e : Z) : 0 <= e -> pow2 e = IZR (2 ^ e).
Proof.
  intros He. pattern e. apply natlike_ind; [reflexivity | | exact He].
  intros x Hx IH. rewrite Z.pow_succ_r by exact Hx.
  rewrite mult_IZR, <- IH. unfold Z.succ. rewrite pow2_succ. reflexivity.
Qed.

Lemma pow2_le (a b : Z) : a <= b -> (pow2 a <= pow2 b)%R.
Proof.
  intros H. replace b with (a + (b - a)) by lia. rewrite pow2_add.
  rewrite (pow2_IZR (b - a)) by lia.
  assert (1 <= 2 ^ (b - a)) as Hp.
  { assert (0 < 2 ^ (b - a)) by (apply Z.pow_pos_nonneg; lia). lia. }
  apply IZR_le in Hp. pose proof (pow2_pos a). nra.
Qed.

Lemma pow2_lt (a b : Z) : a < b -> (pow2 a < pow2 b)%R.
Proof.
  intros H. apply Rlt_le_trans with (pow2 (a + 1)).
  - rewrite pow2_succ. pose proof (pow2_pos a). lra.
  - apply pow2_le. lia.
Qed.

(** *** Digits *)

Lemma digits2_pos_bounds (p : positive) :
  2 ^ (Zpos (digits2_pos p) - 1) <= Zpos p < 2 ^ (Zpos (digits2_pos p)).
Proof.
  induction p as [p IH|p IH|]; simpl digits2_pos.
  - rewrite Pos2Z.inj_succ.
    replace (Z.succ (Z.pos (digits2_pos p)) - 1)
      with (Z.succ (Z.pos (digits2_pos p) - 1)) by lia.
    rewrite !Z.pow_succ_r by lia. lia.
  - rewrite Pos2Z.inj_succ.
    replace (Z.succ (Z.pos (digits2_pos p)) - 1)
      with (Z.succ (Z.pos (digits2_pos p) - 1)) by lia.
    rewrite !Z.pow_succ_r by lia. lia.
  - simpl. lia.
Qed.

Lemma Zdigits2_bounds (m : Z) :
  0 < m -> 2 ^ (Zdigits2 m - 1) <= m < 2 ^ Zdigits2 m.
Proof.
  destruct m as [|p|p]; try lia. intros _. apply digits2_pos_bounds.
Qed.

Lemma Zdigits2_nonneg (m : Z) : 0 <= Zdigits2 m.
Proof. destruct m; simpl; lia. Qed.

Lemma Zdigits2_pos (m : Z) : 0 < m -> 0 < Zdigits2 m.
Proof. destruct m; simpl; lia. Qed.

(** The number of digits is determined by the bounds. *)
Lemma Zdigits2_unique (m d : Z) :
  2 ^ (d - 1) <= m < 2 ^ d -> 0 < m -> Zdigits2 m = d.
Proof.
  intros [H1 H2] Hm. pose proof (Zdigits2_bounds m Hm) as [H3 H4].
  pose proof (Zdigits2_pos m Hm).
  assert (0 < d).
  { destruct (Z_lt_le_dec 0 d); [assumption|].
    destruct (Z.eq_dec d 0) as [->|]; [simpl in H2; lia|].
    rewrite Z.pow_neg_r in H2 by lia. lia. }
  destruct (Z_lt_le_dec (Zdigits2 m) d).
  - assert (2 ^ Zdigits2 m <= 2 ^ (d - 1)) by (apply Z.pow_le_mono_r; lia).
    lia.
  - destruct (Z_lt_le_dec d (Zdigits2 m)); [|lia].
    assert (2 ^ d <= 2 ^ (Zdigits2 m - 1)) by (apply Z.pow_le_mono_r; lia).
    lia.
Qed.

Lemma Zdigits2_le (m d : Z) : 0 <= d -> 0 <= m < 2 ^ d -> Zdigits2 m <= d.
Proof.
  intros Hd [H1 H2]. destruct (Z.eq_dec m 0) as [->|]; [simpl; lia|].
  pose proof (Zdigits2_bounds m ltac:(lia)) as [H3 H4].
  destruct (Z_lt_le_dec d (Zdigits2 m)); [|lia].
  assert (2 ^ d <= 2 ^ (Zdigits2 m - 1)) by (apply Z.pow_le_mono_r; lia).
  lia.
Qed.

Lemma Zdigits2_ge (m d : Z) : 2 ^ (d - 1) <= m -> 0 < d -> d <= Zdigits2 m.
Proof.
  intros H Hd.
  assert (0 < 2 ^ (d - 1)) by (apply Z.pow_pos_nonneg; lia).
  pose proof (Zdigits2_bounds m ltac:(lia)) as [H3 H4].
  destruct (Z_lt_le_dec (Zdigits2 m) d); [|lia].
  assert (2 ^ Zdigits2 m <= 2 ^ (d - 1)).
  { apply Z.pow_le_mono_r; [lia|]. lia. }
  lia.
Qed.

(** *** Shifting right *)

Lemma iter_pos_nat {A : Type} (f : A -> A) (p : positive) (x : A) :
  @SpecFloat.iter_pos A f p x = Nat.iter (Pos.to_nat p) f x.
Proof.
  revert x. induction p as [p IH|p IH|]; intros x; simpl SpecFloat.iter_pos.
  - rewrite !IH. rewrite Pos2Nat.inj_xI.
    replace (S (2 * Pos.to_nat p))%nat
      with (Pos.to_nat p + (Pos.to_nat p + 1))%nat by lia.
    rewrite !Nat.iter_add. reflexivity.
  - rewrite !IH. rewrite Pos2Nat.inj_xO.
    replace (2 * Pos.to_nat p)%nat
      with (Pos.to_nat p + Pos.to_nat p)%nat by lia.
    rewrite Nat.iter_add. reflexivity.
  - reflexivity.
Qed.

(** One shift to the right halves the number and keeps track of where it
    lies. *)
Lemma shr_1_spec (x : R) (mrs : shr_record) :
  0 <= shr_m mrs -> inloc x mrs ->
  inloc (x / 2) (shr_1 mrs) /\ shr_m (shr_1 mrs) = shr_m mrs / 2.
Proof.
  destruct mrs as [m r s]. unfold inloc. simpl shr_m. simpl shr_r.
  simpl shr_s. intros Hm H.
  destruct m as [|p|p]; [| |lia].
  - simpl. destruct r, s; simpl; split; try reflexivity; lra.
  - destruct p as [p|p|].
    + assert (Z.pos p~1 / 2 = Z.pos p) as Hd.
      { rewrite Pos2Z.inj_xI. symmetry.
        apply Z.div_unique with (r := 1); lia. }
      assert (IZR (Z.pos p~1) = (2 * IZR (Z.pos p) + 1)%R) as Hr.
      { rewrite Pos2Z.inj_xI, plus_IZR, mult_IZR. reflexivity. }
      rewrite Hr in H. split; [|simpl; symmetry; exact Hd].
      destruct r, s; simpl; lra.
    + assert (Z.pos p~0 / 2 = Z.pos p) as Hd.
      { rewrite Pos2Z.inj_xO. symmetry.
        apply Z.div_unique with (r := 0); lia. }
      assert (IZR (Z.pos p~0) = (2 * IZR (Z.pos p))%R) as Hr.
      { rewrite Pos2Z.inj_xO, mult_IZR. reflexivity. }
      rewrite Hr in H. split; [|simpl; symmetry; exact Hd].
      destruct r, s; simpl; lra.
    + split; [|reflexivity]. destruct r, s; simpl in *; lra.
Qed.

Lemma shr_iter_spec (k : nat) (x : R) (mrs : shr_record) :
  0 <= shr_m mrs -> inloc x mrs ->
  inloc (x / pow2 (Z.of_nat k)) (Nat.iter k shr_1 mrs)
  /\ shr_m (Nat.iter k shr_1 mrs) = shr_m mrs / 2 ^ Z.of_nat k.
Proof.
  intros Hm H. induction k as [|k [IH1 IH2]].
  - change (Z.of_nat 0) with 0. simpl Nat.iter.
    rewrite pow2_0, Z.pow_0_r, Z.div_1_r. split; [|reflexivity].
    replace (x / 1)%R with x by lra. exact H.
  - simpl Nat.iter.
    assert (0 <= shr_m (Nat.iter k shr_1 mrs)) as Hk.
    { rewrite IH2. apply Z.div_pos; [lia|]. apply Z.pow_pos_nonneg; lia. }
    destruct (shr_1_spec _ _ Hk IH1) as [H1 H2]. split.
    + rewrite Nat2Z.inj_succ. unfold Z.succ. rewrite pow2_succ.
      replace (x / (2 * pow2 (Z.of_nat k)))%R
        with (x / pow2 (Z.of_nat k) / 2)%R; [exact H1|].
      pose proof (pow2_pos (Z.of_nat k)). field. lra.
    + rewrite H2, IH2, Nat2Z.inj_succ, Z.pow_succ_r by lia.
      assert (0 < 2 ^ Z.of_nat k) by (apply Z.pow_pos_nonneg; lia).
      rewrite Z.div_div by lia. f_equal. lia.
Qed.

(** [shr] by [n] places. *)
Lemma shr_spec (x : R) (mrs : shr_record) (e n : Z) :
  0 <= shr_m mrs -> inloc x mrs -> 0 <= n ->
  let '(mrs', e') := shr mrs e n in
  e' = e + n
  /\ inloc (x / pow2 n) mrs'
  /\ shr_m mrs' = shr_m mrs / 2 ^ n.
Proof.
  intros Hm H Hn. unfold shr. destruct n as [|p|p]; [| |lia].
  - rewrite pow2_0, Z.div_1_r. replace (x / 1)%R with x by lra.
    split; [lia|]. split; [exact H | reflexivity].
  - split; [reflexivity|]. rewrite iter_pos_nat.
    destruct (shr_iter_spec (Pos.to_nat p) x mrs Hm H) as [H1 H2].
    rewrite positive_nat_Z in *. split; assumption.
Qed.

(** *** Rounding to nearest, ties to even *)

Lemma round_nearest_even_spec (x : R) (mrs : shr_record) :
  inloc x mrs ->
  let m1 := round_nearest_even (shr_m mrs) (loc_of_shr_record mrs) in
  (Rabs (IZR m1 - x) <= / 2)%R
  /\ (m1 = shr_m mrs \/ m1 = shr_m mrs + 1)
  /\ (IZR (shr_m mrs) <= x < IZR (shr_m mrs) + 1)%R
  /\ (x = IZR (shr_m mrs) -> m1 = shr_m mrs).
Proof.
  destruct mrs as [m r s]. unfold inloc. simpl.
  destruct r, s; simpl; intros H;
    try destruct (Z.even m); try rewrite plus_IZR;
    (split; [apply Rabs_le; lra|]); (split; [auto|]); (split; [lra|]);
    intros Hx; solve [lra | reflexivity].
Qed.

(** *** The rounding step of every operation *)

Lemma fexp_eq (e : Z) : fexp prec emax e = Z.max (e - 53) (-1074).
Proof. reflexivity. Qed.

Lemma shr_m_of_loc (m : Z) (l : location) : shr_m (shr_record_of_loc m l) = m.
Proof. destruct l as [|[| |]]; reflexivity. Qed.

(** [binary_round_aux] on a non-negative number [x * 2^ex] given by its
    integer part [mx] and the location [lx] of [x] above it: the result is
    [M * 2^E] for the integer [M] nearest to [x * 2^(ex - E)] (ties to
    even), at the exponent [E] that the format gives to numbers of that
    magnitude; it overflows when [E] is above the largest exponent. *)
Lemma binary_round_aux_spec (mx ex : Z) (lx : location) (x : R) :
  0 <= mx ->
  inloc x (shr_record_of_loc mx lx) ->
  ex <= fexp prec emax (Zdigits2 mx + ex) ->
  exists M : Z,
    0 <= M <= 2 ^ 53
    /\ (Rabs (IZR M * pow2 (fexp prec emax (Zdigits2 mx + ex)) - x * pow2 ex)
        <= pow2 (fexp prec emax (Zdigits2 mx + ex)) / 2)%R
    /\ (x = IZR mx -> ex = fexp prec emax (Zdigits2 mx + ex) -> M = mx)
    /\ (fexp prec emax (Zdigits2 mx + ex) = Zdigits2 mx + ex - 53 ->
        0 < mx -> 2 ^ 52 <= M)
    /\ binary_round_aux prec emax false mx ex lx
       = if M =? 0 then S754_zero false
         else if M <? 2 ^ 53 then
                if fexp prec emax (Zdigits2 mx + ex) <=? 971
                then S754_finite false (Z.to_pos M)
                       (fexp prec emax (Zdigits2 mx + ex))
                else S754_infinity false
              else
                if fexp prec emax (Zdigits2 mx + ex) + 1 <=? 971
                then S754_finite false (Z.to_pos (2 ^ 52))
                       (fexp prec emax (Zdigits2 mx + ex) + 1)
                else S754_infinity false.
Proof.
  intros Hmx Hx. set (E := fexp prec emax (Zdigits2 mx + ex)). intros HE.
  assert (-1074 <= E /\ Zdigits2 mx + ex - 53 <= E) as [HEmin HEd].
  { unfold E. rewrite fexp_eq. lia. }
  unfold binary_round_aux, shr_fexp. fold E.
  pose proof (shr_spec x (shr_record_of_loc mx lx) ex (E - ex)) as Hs.
  rewrite shr_m_of_loc in Hs. specialize (Hs Hmx Hx ltac:(lia)).
  destruct (shr (shr_record_of_loc mx lx) ex (E - ex)) as [mrs' e'].
  destruct Hs as (He' & Hloc & Hm').
  assert (e' = E) as -> by lia. clear He'.
  pose proof (round_nearest_even_spec _ _ Hloc) as Hr. cbv zeta in Hr.
  set (M := round_nearest_even (shr_m mrs') (loc_of_shr_record mrs')) in *.
  destruct Hr as (Hr1 & Hr2 & Hr3 & Hr4).
  assert (0 < 2 ^ (E - ex)) as Hpn by (apply Z.pow_pos_nonneg; lia).
  assert (0 <= shr_m mrs') as Hm0.
  { rewrite Hm'. apply Z.div_pos; lia. }
  assert (shr_m mrs' < 2 ^ 53) as Hmlt.
  { rewrite Hm'. apply Z.div_lt_upper_bound; [lia|].
    destruct (Z.eq_dec mx 0) as [->|Hnz]; [lia|].
    pose proof (Zdigits2_bounds mx ltac:(lia)) as [_ Hd].
    pose proof (Zdigits2_pos mx ltac:(lia)).
    rewrite <- Z.pow_add_r by lia.
    assert (2 ^ Zdigits2 mx <= 2 ^ (E - ex + 53))
      by (apply Z.pow_le_mono_r; lia).
    lia. }
  exists M. split; [lia|]. split.
  { replace (pow2 ex) with (pow2 E / pow2 (E - ex))%R.
    2:{ rewrite pow2_sub. pose proof (pow2_pos E). pose proof (pow2_pos ex).
        field. lra. }
    replace (IZR M * pow2 E - x * (pow2 E / pow2 (E - ex)))%R
      with (pow2 E * (IZR M - x / pow2 (E - ex)))%R.
    2:{ pose proof (pow2_pos (E - ex)). field. lra. }
    rewrite Rabs_mult. rewrite (Rabs_pos_eq (pow2 E)).
    2:{ pose proof (pow2_pos E). lra. }
    pose proof (pow2_pos E). nra. }
  split.
  { intros Hxe Hex.
    assert (shr_m mrs' = mx) as Hsame.
    { rewrite Hm'. replace (E - ex) with 0 by lia.
      rewrite Z.pow_0_r, Z.div_1_r. reflexivity. }
    rewrite <- Hsame. apply Hr4. replace (E - ex) with 0 by lia.
    rewrite pow2_0, Hsame, Hxe. lra. }
  split.
  { intros HEn Hpos.
    assert (2 ^ 52 <= shr_m mrs'); [|lia].
    rewrite Hm'. apply Z.div_le_lower_bound; [lia|].
    pose proof (Zdigits2_bounds mx Hpos) as [Hd _].
    pose proof (Zdigits2_pos mx Hpos).
    rewrite <- Z.pow_add_r by lia.
    replace (E - ex + 52) with (Zdigits2 mx - 1) by lia. exact Hd. }
  destruct (Z.eqb_spec M 0) as [HM0|HM0].
  - rewrite HM0. simpl Zdigits2.
    unfold shr. replace (fexp prec emax (0 + E) - E) with
      (Z.max (E - 53) (-1074) - E) by reflexivity.
    destruct (Z.max (E - 53) (-1074) - E) eqn:Hn; try lia; reflexivity.
  - destruct (Z.ltb_spec M (2 ^ 53)) as [HMlt|HMge].
    + assert (Zdigits2 M <= 53) as Hd by (apply Zdigits2_le; lia).
      rewrite (fexp_eq (Zdigits2 M + E)). unfold shr.
      destruct (Z.max (Zdigits2 M + E - 53) (-1074) - E) eqn:Hn; try lia.
      * rewrite shr_m_of_loc. destruct M; try lia. reflexivity.
      * rewrite shr_m_of_loc. destruct M; try lia. reflexivity.
    + assert (M = 2 ^ 53) as -> by lia.
      replace (fexp prec emax (Zdigits2 (2 ^ 53) + E) - E) with 1
        by (rewrite fexp_eq; change (Zdigits2 (2 ^ 53)) with 54; lia).
      reflexivity.
Qed.

(** *** The error of one rounding *)

Lemma Rabs_le_iff (x y : R) : (Rabs x <= y <-> - y <= x <= y)%R.
Proof. unfold Rabs. destruct (Rcase_abs x); lra. Qed.

Lemma inloc_of_loc_bounds (x : R) (m : Z) (l : location) :
  inloc x (shr_record_of_loc m l) -> (IZR m <= x < IZR m + 1)%R.
Proof. destruct l as [|[| |]]; unfold inloc; simpl; lra. Qed.

(** The error of [binary_round_aux]: relative, at most [2^-53], or, for a
    result at the smallest exponent, absolute, at most [2^-1075]; none
    when [x] is an integer and nothing is shifted out; an overflow needs a
    value of at least [2^1023]. *)
Lemma binary_round_aux_error (mx ex : Z) (lx : location) (x : R) :
  0 <= mx ->
  inloc x (shr_record_of_loc mx lx) ->
  ex <= fexp prec emax (Zdigits2 mx + ex) ->
  let z := binary_round_aux prec emax false mx ex lx in
  (z = S754_infinity false /\ (pow2 1023 <= x * pow2 ex)%R)
  \/ (nonneg_SF z
      /\ ((Rabs (SF2R z - x * pow2 ex) <= unit_roundoff * (x * pow2 ex))%R
          \/ (fexp prec emax (Zdigits2 mx + ex) = -1074
              /\ (Rabs (SF2R z - x * pow2 ex) <= underflow_error)%R))
      /\ (x = IZR mx -> ex = fexp prec emax (Zdigits2 mx + ex) ->
          SF2R z = (x * pow2 ex)%R)).
Proof.
  intros Hmx Hx HE z.
  destruct (binary_round_aux_spec mx ex lx x Hmx Hx HE)
    as (M & HM & Herr & Hexact & Hnormal & Hz).
  fold z in Hz. set (E := fexp prec emax (Zdigits2 mx + ex)) in *.
  assert (-1074 <= E /\ (E = Zdigits2 mx + ex - 53 \/ E = -1074))
    as [HEmin HEcase].
  { unfold E. rewrite fexp_eq. lia. }
  pose proof (inloc_of_loc_bounds _ _ _ Hx) as Hxb.
  pose proof (pow2_pos E) as HpE. pose proof (pow2_pos ex) as Hpex.
  assert (0 <= IZR mx)%R as Hmx' by (apply IZR_le; exact Hmx).
  assert (0 <= x * pow2 ex)%R as Hv by nra.
  (* the bound on the error in terms of the value *)
  assert ((pow2 E / 2 <= unit_roundoff * (x * pow2 ex))%R \/ E = -1074) as Hrel.
  { destruct HEcase as [HEn|]; [|right; assumption].
    destruct (Z.eq_dec mx 0) as [->|Hnz].
    - right. simpl Zdigits2 in *. unfold E in *. rewrite fexp_eq in *. lia.
    - left. pose proof (Zdigits2_bounds mx ltac:(lia)) as [Hd _].
      pose proof (Zdigits2_pos mx ltac:(lia)) as Hdp.
      apply IZR_le in Hd. rewrite <- pow2_IZR in Hd by lia.
      assert (pow2 (E + 52) <= x * pow2 ex)%R as Hlow.
      { replace (E + 52) with ((Zdigits2 mx - 1) + ex) by lia.
        rewrite pow2_add. nra. }
      unfold unit_roundoff.
      replace (pow2 E / 2)%R with (pow2 (-53) * pow2 (E + 52))%R.
      + pose proof (pow2_pos (-53)). nra.
      + rewrite <- pow2_add. replace (-53 + (E + 52)) with (E - 1) by lia.
        apply pow2_pred. }
  assert (forall z', SF2R z' = (IZR M * pow2 E)%R -> nonneg_SF z' ->
            nonneg_SF z'
            /\ ((Rabs (SF2R z' - x * pow2 ex)
                 <= unit_roundoff * (x * pow2 ex))%R
                \/ (E = -1074
                    /\ (Rabs (SF2R z' - x * pow2 ex) <= underflow_error)%R))
            /\ (x = IZR mx -> ex = E -> SF2R z' = (x * pow2 ex)%R))
    as Hfin.
  { intros z' Hval Hnn. split; [exact Hnn|]. rewrite Hval. split.
    - destruct Hrel as [Hrel|Hrel]; [left; lra|right].
      split; [exact Hrel|]. unfold underflow_error.
      replace (pow2 (-1075)) with (pow2 E / 2)%R; [exact Herr|].
      rewrite Hrel. symmetry. apply (pow2_pred (-1074)).
    - intros Hxe Hex. rewrite (Hexact Hxe Hex), Hxe, Hex. reflexivity. }
  apply Rabs_le_iff in Herr.
  assert (forall k, 0 <= k -> 972 <= E + k ->
            (IZR (2 ^ (52 + k)) <= IZR M)%R ->
            (pow2 1023 <= x * pow2 ex)%R) as Hover.
  { intros k Hk Hbig HM52. rewrite <- pow2_IZR in HM52 by lia.
    assert (pow2 (E + 52 + k) <= IZR M * pow2 E)%R.
    { replace (E + 52 + k) with ((52 + k) + E) by lia.
      rewrite pow2_add. nra. }
    assert (pow2 (1023 + 1) <= pow2 (E + 52 + k))%R by (apply pow2_le; lia).
    assert (pow2 E <= pow2 (E + 52 + k - 1))%R by (apply pow2_le; lia).
    rewrite pow2_pred in *. rewrite pow2_succ in *. lra. }
  destruct (Z.eqb_spec M 0) as [HM0|HM0].
  - right. rewrite Hz. apply Hfin; [|exact I]. rewrite HM0. simpl. lra.
  - destruct (Z.ltb_spec M (2 ^ 53)) as [HMlt|HMge].
    + destruct (Z.leb_spec E 971) as [HEle|HEgt].
      * right. rewrite Hz. apply Hfin; [|exact I]. simpl.
        rewrite Z2Pos.id by lia. lra.
      * left. split; [exact Hz|].
        assert (E = Zdigits2 mx + ex - 53) as HEn by lia.
        assert (0 < mx) as Hpos.
        { destruct (Z.eq_dec mx 0) as [->|]; [|lia].
          simpl Zdigits2 in *. lia. }
        pose proof (Hnormal HEn Hpos) as HM52.
        apply (Hover 0); [lia | lia |]. apply IZR_le. exact HM52.
    + destruct (Z.leb_spec (E + 1) 971) as [HEle|HEgt].
      * right. rewrite Hz. apply Hfin; [|exact I].
        assert (M = 2 ^ 53) as -> by lia.
        cbn [SF2R]. rewrite Z2Pos.id by lia.
        rewrite pow2_succ. rewrite <- (pow2_IZR 52), <- (pow2_IZR 53) by lia.
        replace 53 with (52 + 1) at 1 by lia. rewrite pow2_succ. lra.
      * left. split; [exact Hz|].
        apply (Hover 1); [lia | lia |]. apply IZR_le.
        change (52 + 1) with 53. lia.
Qed.

(** *** Addition *)

Lemma iter_xO (m d : positive) :
  Zpos (Pos.iter xO m d) = Zpos m * 2 ^ Zpos d.
Proof.
  induction d as [|d IH] using Pos.peano_ind.
  - simpl. lia.
  - rewrite Pos.iter_succ, Pos2Z.inj_xO, IH, Pos2Z.inj_succ.
    rewrite Z.pow_succ_r by lia. lia.
Qed.

Lemma shl_align_spec (m : positive) (e e' : Z) :
  exists m',
    shl_align m e e' = (m', Z.min e e')
    /\ Zpos m' = Zpos m * 2 ^ (e - Z.min e e').
Proof.
  unfold shl_align. destruct (e' - e) as [|d|d] eqn:Hd.
  - exists m. replace (Z.min e e') with e by lia.
    rewrite Z.sub_diag. split; [reflexivity | simpl; lia].
  - exists m. replace (Z.min e e') with e by lia.
    rewrite Z.sub_diag. split; [reflexivity | simpl; lia].
  - exists (Pos.iter xO m d). replace (Z.min e e') with e' by lia.
    split; [reflexivity|]. rewrite iter_xO. f_equal. f_equal. lia.
Qed.

Lemma Zdigits2_shift (m : positive) (k : Z) :
  0 <= k -> Zdigits2 (Zpos m * 2 ^ k) = Zdigits2 (Zpos m) + k.
Proof.
  intros Hk. pose proof (Zdigits2_bounds (Zpos m) ltac:(lia)) as [H1 H2].
  pose proof (Zdigits2_pos (Zpos m) ltac:(lia)) as Hd.
  assert (0 < 2 ^ k) by (apply Z.pow_pos_nonneg; lia).
  apply Zdigits2_unique; [|lia]. split.
  - replace (Zdigits2 (Z.pos m) + k - 1) with ((Zdigits2 (Z.pos m) - 1) + k)
      by lia.
    rewrite Z.pow_add_r by lia. apply Z.mul_le_mono_nonneg_r; lia.
  - rewrite Z.pow_add_r by lia. apply Z.mul_lt_mono_pos_r; lia.
Qed.

Lemma inloc_exact (m : Z) : inloc (IZR m) (shr_record_of_loc m loc_Exact).
Proof. reflexivity. Qed.

(** [binary_round] of the integer [m] at an exponent of the format: a
    relative error of at most [2^-53] (numbers at the smallest exponent
    are exact). *)
Lemma binary_round_error (m : positive) (e : Z) :
  -1074 <= e ->
  let z := binary_round prec emax false m e in
  (z = S754_infinity false /\ (pow2 1023 <= IZR (Zpos m) * pow2 e)%R)
  \/ (nonneg_SF z
      /\ (Rabs (SF2R z - IZR (Zpos m) * pow2 e)
          <= unit_roundoff * (IZR (Zpos m) * pow2 e))%R).
Proof.
  intros He z. unfold binary_round in z.
  change (Z.pos (digits2_pos m)) with (Zdigits2 (Zpos m)) in z.
  set (F := fexp prec emax (Zdigits2 (Zpos m) + e)) in *.
  destruct (shl_align_spec m e F) as (m' & Hsh & Hm').
  unfold z. rewrite Hsh. clear z.
  assert (0 <= IZR (Zpos m) * pow2 e)%R as Hv.
  { pose proof (pow2_pos e).
    assert (0 <= IZR (Zpos m))%R by (apply IZR_le; lia).
    nra. }
  assert (IZR (Zpos m') * pow2 (Z.min e F) = IZR (Zpos m) * pow2 e)%R as Hval.
  { rewrite Hm', mult_IZR, <- pow2_IZR by lia.
    rewrite Rmult_assoc, <- pow2_add. f_equal. f_equal. lia. }
  assert (fexp prec emax (Zdigits2 (Zpos m') + Z.min e F) = F) as HF.
  { rewrite Hm', Zdigits2_shift by lia. unfold F. f_equal. lia. }
  assert (-1074 <= F) as HFmin by (unfold F; rewrite fexp_eq; lia).
  pose proof (binary_round_aux_error (Zpos m') (Z.min e F) loc_Exact
                (IZR (Zpos m')) ltac:(lia) (inloc_exact _)) as H.
  rewrite HF in H. specialize (H ltac:(lia)). cbv zeta in H.
  rewrite Hval in H. pose proof (pow2_pos (-53)) as Hu.
  fold unit_roundoff in Hu.
  destruct H as [H|(Hnn & Herr & Hexact)]; [left; exact H|right].
  split; [exact Hnn|].
  destruct Herr as [Herr|[HFe Herr]]; [exact Herr|].
  rewrite Hexact; [|reflexivity|lia].
  replace (IZR (Z.pos m) * pow2 e - IZR (Z.pos m) * pow2 e)%R with 0%R by lra.
  rewrite Rabs_R0. nra.
Qed.

Lemma valid_binary_exponent (s : bool) (m : positive) (e : Z) :
  valid_binary (S754_finite s m e) = true -> -1074 <= e.
Proof.
  unfold valid_binary, SpecFloat.valid_binary, bounded, canonical_mantissa.
  intros H. apply andb_prop in H as [H _].
  apply Z.eqb_eq in H. rewrite fexp_eq in H. lia.
Qed.

Lemma SF2R_nonneg (x : spec_float) : nonneg_SF x -> (0 <= SF2R x)%R.
Proof.
  destruct x as [s|s| |[|] m e]; simpl; try lra; try tauto. intros _.
  pose proof (pow2_pos e). assert (0 < IZR (Zpos m))%R by (apply IZR_lt; lia).
  nra.
Qed.

(** The sum of two non-negative numbers of the format. *)
Lemma SFadd_nonneg (x y : spec_float) :
  valid_binary x = true -> valid_binary y = true ->
  nonneg_SF x -> nonneg_SF y ->
  let z := SFadd prec emax x y in
  (z = S754_infinity false /\ (pow2 1023 <= SF2R x + SF2R y)%R)
  \/ (nonneg_SF z
      /\ (Rabs (SF2R z - (SF2R x + SF2R y))
          <= unit_roundoff * (SF2R x + SF2R y))%R).
Proof.
  intros Hvx Hvy Hx Hy.
  pose proof (SF2R_nonneg x Hx) as Hx0. pose proof (SF2R_nonneg y Hy) as Hy0.
  pose proof (pow2_pos (-53)) as Hu. fold unit_roundoff in Hu.
  assert (forall z, nonneg_SF z -> SF2R z = (SF2R x + SF2R y)%R ->
            nonneg_SF z
            /\ (Rabs (SF2R z - (SF2R x + SF2R y))
                <= unit_roundoff * (SF2R x + SF2R y))%R) as Hsame.
  { intros z Hz ->. split; [exact Hz|].
    replace (SF2R x + SF2R y - (SF2R x + SF2R y))%R with 0%R by lra.
    rewrite Rabs_R0. nra. }
  destruct x as [sx|sx| |sx mx ex]; try contradiction;
    destruct y as [sy|sy| |sy my ey]; try contradiction.
  - right. apply Hsame; [destruct sx, sy; exact I|].
    destruct sx, sy; simpl; lra.
  - right. apply Hsame; [exact Hy | simpl; lra].
  - right. apply Hsame; [exact Hx | simpl; lra].
  - destruct sx; [contradiction|]. destruct sy; [contradiction|].
    pose proof (valid_binary_exponent _ _ _ Hvx) as Hex.
    pose proof (valid_binary_exponent _ _ _ Hvy) as Hey.
    unfold SFadd.
    destruct (shl_align_spec mx ex (Z.min ex ey)) as (m1 & Hs1 & Hm1).
    destruct (shl_align_spec my ey (Z.min ex ey)) as (m2 & Hs2 & Hm2).
    rewrite Hs1, Hs2. cbn [fst cond_Zopp Z.add binary_normalize].
    pose proof (binary_round_error (m1 + m2) (Z.min ex ey) ltac:(lia)) as H.
    cbv zeta in H.
    assert (IZR (Z.pos (m1 + m2)) * pow2 (Z.min ex ey)
            = SF2R (S754_finite false mx ex) + SF2R (S754_finite false my ey))%R
      as Hval.
    { rewrite Pos2Z.inj_add, plus_IZR, Hm1, Hm2, !mult_IZR.
      rewrite <- !pow2_IZR by lia. simpl SF2R.
      rewrite Rmult_plus_distr_r, !Rmult_assoc, <- !pow2_add.
      replace (ex - Z.min ex (Z.min ex ey) + Z.min ex ey) with ex by lia.
      replace (ey - Z.min ey (Z.min ex ey) + Z.min ex ey) with ey by lia.
      lra. }
    rewrite Hval in H. exact H.
Qed.

(** *** Division *)

(** [new_location] places [q + k / nb] above [q]. *)
Lemma new_location_spec (nb k q : Z) (x : R) :
  0 < nb -> 0 <= k < nb ->
  (x * IZR nb = IZR q * IZR nb + IZR k)%R ->
  inloc x (shr_record_of_loc q (new_location nb k)).
Proof.
  intros Hnb Hk Hx.
  assert (0 < IZR nb)%R as Hn by (apply IZR_lt; lia).
  assert (k = 0 -> x = IZR q) as Hzero.
  { intros ->. nra. }
  assert (0 < k -> (IZR q < x)%R) as Hpos.
  { intros H. apply IZR_lt in H. nra. }
  assert (2 * k < nb -> (x < IZR q + / 2)%R) as Hlt.
  { intros H. apply IZR_lt in H. rewrite mult_IZR in H. nra. }
  assert (2 * k = nb -> x = (IZR q + / 2)%R) as Heq.
  { intros H. apply (f_equal IZR) in H. rewrite mult_IZR in H. nra. }
  assert (nb < 2 * k -> (IZR q + / 2 < x)%R) as Hgt.
  { intros H. apply IZR_lt in H. rewrite mult_IZR in H. nra. }
  assert (x < IZR q + 1)%R as Hup.
  { destruct Hk as [_ H]. apply IZR_lt in H. nra. }
  unfold new_location, new_location_even, new_location_odd.
  destruct (Z.even nb) eqn:Hev.
  - destruct (Z.eqb_spec k 0) as [Hk0|Hk0]; [apply Hzero; exact Hk0|].
    destruct (Z.compare_spec (2 * k) nb) as [H|H|H]; unfold inloc; simpl.
    + apply Heq; exact H.
    + split; [apply Hpos; lia | apply Hlt; exact H].
    + split; [apply Hgt; exact H | exact Hup].
  - assert (2 * k <> nb) as Hodd.
    { intros <-. rewrite Z.even_mul in Hev. discriminate. }
    destruct (Z.eqb_spec k 0) as [Hk0|Hk0]; [apply Hzero; exact Hk0|].
    destruct (Z.compare_spec (2 * k + 1) nb) as [H|H|H]; unfold inloc; simpl.
    + split; [apply Hpos; lia | apply Hlt; lia].
    + split; [apply Hpos; lia | apply Hlt; lia].
    + split; [apply Hgt; lia | exact Hup].
Qed.

Lemma fexp_mono (a b : Z) : a <= b -> fexp prec emax a <= fexp prec emax b.
Proof. rewrite !fexp_eq. lia. Qed.

(** The integer quotient that [SFdiv] rounds: it has enough digits for
    the rounding to shift, and its location is that of the exact
    quotient. *)
Lemma SFdiv_core_binary_spec (mx my : positive) (ex ey : Z) :
  let '(q, e', l) := SFdiv_core_binary prec emax (Zpos mx) ex (Zpos my) ey in
  exists x : R,
    0 <= q
    /\ inloc x (shr_record_of_loc q l)
    /\ e' <= fexp prec emax (Zdigits2 q + e')
    /\ (x * pow2 e'
        = (IZR (Zpos mx) * pow2 ex) / (IZR (Zpos my) * pow2 ey))%R.
Proof.
  unfold SFdiv_core_binary.
  set (d1 := Zdigits2 (Zpos mx)). set (d2 := Zdigits2 (Zpos my)).
  set (t := d1 + ex - (d2 + ey)).
  set (e' := Z.min (fexp prec emax t) (ex - ey)).
  set (s := ex - ey - e').
  assert (0 <= s) as Hs by (unfold s, e'; lia).
  set (m' := match s with
             | 0 => Z.pos mx
             | Z.pos _ => Z.shiftl (Z.pos mx) s
             | Z.neg _ => 0
             end).
  assert (m' = Zpos mx * 2 ^ s) as Hm'.
  { unfold m'. destruct s as [|p|p]; [simpl; lia | | lia].
    apply Z.shiftl_mul_pow2. lia. }
  clearbody m'.
  pose proof (Z_div_mod m' (Zpos my) ltac:(lia)) as Hdm.
  destruct (Z.div_eucl m' (Z.pos my)) as [q r]. destruct Hdm as [Hdm Hr].
  assert (0 < 2 ^ s) as Hps by (apply Z.pow_pos_nonneg; lia).
  assert (0 <= q) as Hq by nia.
  assert (0 < IZR (Zpos my))%R as Hmy by (apply IZR_lt; lia).
  exists (IZR m' / IZR (Zpos my))%R. split; [exact Hq|]. split.
  { apply new_location_spec; [lia | lia |].
    rewrite Hdm at 1. rewrite plus_IZR, mult_IZR. field. lra. }
  split.
  { apply Z.le_trans with (fexp prec emax t); [unfold e'; lia|].
    apply fexp_mono.
    assert (d1 + s - d2 <= Zdigits2 q); [|unfold t, s in *; lia].
    destruct (Z_le_gt_dec (d1 + s - d2) 0) as [Hle|Hgt].
    - pose proof (Zdigits2_nonneg q). lia.
    - apply Zdigits2_ge; [|lia].
      pose proof (Zdigits2_bounds (Zpos mx) ltac:(lia)) as [Hb1 _].
      pose proof (Zdigits2_bounds (Zpos my) ltac:(lia)) as [_ Hb2].
      fold d1 in Hb1. fold d2 in Hb2.
      pose proof (Zdigits2_pos (Zpos mx) ltac:(lia)) as Hd1. fold d1 in Hd1.
      pose proof (Zdigits2_pos (Zpos my) ltac:(lia)) as Hd2. fold d2 in Hd2.
      assert (2 ^ (d1 + s - d2 - 1) * 2 ^ d2 <= m') as Hlow.
      { rewrite <- Z.pow_add_r by lia.
        replace (d1 + s - d2 - 1 + d2) with ((d1 - 1) + s) by lia.
        rewrite Z.pow_add_r by lia. rewrite Hm'.
        apply Z.mul_le_mono_nonneg_r; lia. }
      assert (0 < 2 ^ (d1 + s - d2 - 1)) as Hpp
        by (apply Z.pow_pos_nonneg; lia).
      destruct (Z_lt_le_dec q (2 ^ (d1 + s - d2 - 1))) as [Hlt|]; [|lia].
      exfalso. nia. }
  rewrite Hm', mult_IZR, <- pow2_IZR by lia.
  pose proof (pow2_pos ey). pose proof (pow2_pos ex). pose proof (pow2_pos e').
  replace (pow2 ex) with (pow2 s * pow2 e' * pow2 ey)%R.
  - field. lra.
  - rewrite <- !pow2_add. f_equal. unfold s. lia.
Qed.

(** The quotient of a non-negative number by a positive one. *)
Lemma SFdiv_nonneg (x : spec_float) (my : positive) (ey : Z) :
  nonneg_SF x ->
  let y := S754_finite false my ey in
  let z := SFdiv prec emax x y in
  (z = S754_infinity false /\ (pow2 1023 <= SF2R x / SF2R y)%R)
  \/ (nonneg_SF z
      /\ (Rabs (SF2R z - SF2R x / SF2R y)
          <= unit_roundoff * (SF2R x / SF2R y) + underflow_error)%R).
Proof.
  intros Hx y z.
  pose proof (pow2_pos (-53)) as Hu. fold unit_roundoff in Hu.
  pose proof (pow2_pos (-1075)) as Heta. fold underflow_error in Heta.
  assert (0 < SF2R y)%R as Hy.
  { unfold y. cbn [SF2R]. pose proof (pow2_pos ey).
    assert (0 < IZR (Zpos my))%R by (apply IZR_lt; lia). nra. }
  destruct x as [sx|sx| |sx mx ex]; try contradiction.
  - right. unfold z, y. cbn [SFdiv SF2R]. split; [exact I|].
    unfold Rdiv. rewrite Rmult_0_l.
    replace (0 - 0)%R with 0%R by lra. rewrite Rabs_R0. lra.
  - destruct sx; [contradiction|]. unfold z, y, SFdiv.
    pose proof (SFdiv_core_binary_spec mx my ex ey) as H.
    destruct (SFdiv_core_binary prec emax (Z.pos mx) ex (Z.pos my) ey)
      as [[q e'] l].
    destruct H as (x & Hq & Hloc & He' & Hval).
    pose proof (binary_round_aux_error q e' l x Hq Hloc He') as H.
    cbv zeta in H. rewrite Hval in H. cbn [xorb].
    replace (SF2R (S754_finite false mx ex) / SF2R (S754_finite false my ey))%R
      with (IZR (Z.pos mx) * pow2 ex / (IZR (Z.pos my) * pow2 ey))%R
      by (cbn [SF2R]; f_equal; lra).
    set (v := (IZR (Z.pos mx) * pow2 ex / (IZR (Z.pos my) * pow2 ey))%R) in *.
    assert (0 <= v)%R as Hv.
    { unfold v. apply Rmult_le_pos.
      - pose proof (pow2_pos ex).
        assert (0 < IZR (Zpos mx))%R by (apply IZR_lt; lia). nra.
      - apply Rlt_le, Rinv_0_lt_compat. unfold y in Hy. cbn [SF2R] in Hy.
        lra. }
    destruct H as [H|(Hnn & Herr & _)]; [left; exact H|right].
    split; [exact Hnn|]. destruct Herr as [Herr|[_ Herr]]; nra.
Qed.

(** *** Floats *)

Lemma float_value_nonneg (a : float) :
  nonneg_finite a -> (0 <= float_value a)%R.
Proof. apply SF2R_nonneg. Qed.

Lemma nonneg_finite_of_bounds (w : float) :
  (0 <=? w)%float = true -> (w <? infinity)%float = true -> nonneg_finite w.
Proof.
  rewrite leb_spec, ltb_spec. unfold nonneg_finite.
  change (Prim2SF 0) with (S754_zero false).
  change (Prim2SF infinity) with (S754_infinity false).
  destruct (Prim2SF w) as [s|[|]| |[|] m e]; simpl; try discriminate; auto.
Qed.

Lemma float_value_pos (a : float) :
  nonneg_finite a -> (a =? 0)%float = false ->
  exists m e, Prim2SF a = S754_finite false m e /\ (0 < float_value a)%R.
Proof.
  unfold nonneg_finite, float_value. rewrite FloatAxioms.eqb_spec.
  change (Prim2SF 0) with (S754_zero false).
  destruct (Prim2SF a) as [s|[|]| |[|] m e]; simpl; try discriminate;
    try contradiction.
  intros _ _. exists m, e. split; [reflexivity|].
  pose proof (pow2_pos e). assert (0 < IZR (Zpos m))%R by (apply IZR_lt; lia).
  nra.
Qed.

(** [a + b] on non-negative floats: an overflow, or a relative error of
    at most [2^-53]. *)
Lemma add_error (a b : float) :
  nonneg_finite a -> nonneg_finite b ->
  (Prim2SF (a + b) = S754_infinity false
   /\ (pow2 1023 <= float_value a + float_value b)%R)
  \/ (nonneg_finite (a + b)
      /\ (Rabs (float_value (a + b) - (float_value a + float_value b))
          <= unit_roundoff * (float_value a + float_value b))%R).
Proof.
  intros Ha Hb. unfold nonneg_finite, float_value. rewrite add_spec.
  apply SFadd_nonneg; auto using Prim2SF_valid.
Qed.

Lemma add_infinity (a b : float) :
  Prim2SF a = S754_infinity false -> nonneg_finite b ->
  Prim2SF (a + b) = S754_infinity false.
Proof.
  intros Ha Hb. rewrite add_spec, Ha. unfold nonneg_finite in Hb.
  destruct (Prim2SF b) as [s|s| |[|] m e]; try contradiction; reflexivity.
Qed.

(** [a / b] on non-negative floats, [b] not zero: an overflow, or an
    error of at most [2^-53] relative plus [2^-1075]. *)
Lemma div_error (a b : float) :
  nonneg_finite a -> nonneg_finite b -> (b =? 0)%float = false ->
  (Prim2SF (a / b) = S754_infinity false
   /\ (pow2 1023 <= float_value a / float_value b)%R)
  \/ (nonneg_finite (a / b)
      /\ (Rabs (float_value (a / b) - float_value a / float_value b)
          <= unit_roundoff * (float_value a / float_value b)
             + underflow_error)%R).
Proof.
  intros Ha Hb Hnz. destruct (float_value_pos b Hb Hnz) as (m & e & Hbe & _).
  unfold nonneg_finite, float_value. rewrite div_spec, Hbe.
  apply SFdiv_nonneg. exact Ha.
Qed.

(** *** Sums *)

Lemma unit_roundoff_bounds : (0 < unit_roundoff < / 2)%R.
Proof.
  unfold unit_roundoff. split; [apply pow2_pos|].
  replace (/ 2)%R with (pow2 (-1)); [apply pow2_lt; lia|].
  change (-1) with (- (1)). rewrite pow2_opp, pow2_1. reflexivity.
Qed.

Lemma pow_1pu (k : nat) : (1 <= (1 + unit_roundoff) ^ k)%R.
Proof. pose proof unit_roundoff_bounds. apply pow_R1_Rle. lra. Qed.

Lemma pow_1mu (k : nat) : (0 < (1 - unit_roundoff) ^ k <= 1)%R.
Proof.
  pose proof unit_roundoff_bounds. split; [apply pow_lt; lra|].
  induction k as [|k IH]; simpl; [lra|].
  assert (0 < (1 - unit_roundoff) ^ k)%R by (apply pow_lt; lra). nra.
Qed.

(** One more addition. *)
Lemma sum_invariant_step (acc x : float) (k : nat) (A : R) :
  (0 <= A)%R -> nonneg_finite x -> sum_invariant acc k A ->
  sum_invariant (acc + x) (S k) (A + float_value x).
Proof.
  intros HA Hx Hacc. pose proof (float_value_nonneg x Hx) as Hx0.
  pose proof unit_roundoff_bounds as Hu. pose proof (pow_1pu k) as Hp.
  pose proof (pow_1mu k) as Hm.
  unfold sum_invariant in *. simpl pow.
  set (P := ((1 + unit_roundoff) ^ k)%R) in *.
  set (Q := ((1 - unit_roundoff) ^ k)%R) in *.
  set (vx := float_value x) in *.
  assert (0 <= P * A)%R as HPA by nra.
  assert (0 <= P * vx)%R as HPx by nra.
  assert (0 <= Q * A)%R as HQA by nra.
  assert (0 <= Q * vx <= vx)%R as HQx by nra.
  assert (0 <= unit_roundoff * (P * A))%R as HuPA by nra.
  assert (0 <= unit_roundoff * (P * vx))%R as HuPx by nra.
  destruct Hacc as [[Hinf Hbig]|[Hfin Hb]].
  - left. split; [apply add_infinity; assumption|]. nra.
  - destruct (add_error acc x Hfin Hx) as [[Hinf Hbig]|[Hfin' Herr]].
    + left. split; [exact Hinf|]. fold vx in Hbig. nra.
    + right. split; [exact Hfin'|]. apply Rabs_le_iff in Herr.
      fold vx in Herr.
      pose proof (float_value_nonneg acc Hfin) as Hacc0.
      set (va := float_value acc) in *.
      set (v' := float_value (acc + x)) in *.
      assert (0 <= unit_roundoff * (Q * A))%R by nra.
      assert (0 <= unit_roundoff * (Q * vx))%R by nra.
      split.
      * apply Rle_trans with ((1 - unit_roundoff) * (va + vx))%R; [|lra].
        apply Rle_trans with ((1 - unit_roundoff) * (Q * A + vx))%R; [nra|].
        apply Rmult_le_compat_l; lra.
      * apply Rle_trans with ((1 + unit_roundoff) * (va + vx))%R; [lra|].
        apply Rle_trans with ((1 + unit_roundoff) * (P * A + vx))%R;
          [apply Rmult_le_compat_l; lra | nra].
Qed.

Lemma sum_invariant_fold (xs : list float) (acc : float) (k : nat) (A : R) :
  (0 <= A)%R -> Forall nonneg_finite xs -> sum_invariant acc k A ->
  sum_invariant (fold_left PrimFloat.add xs acc) (k + length xs)
    (A + exact_sum xs).
Proof.
  revert acc k A. induction xs as [|x xs IH]; intros acc k A HA Hxs Hacc.
  - simpl. rewrite Nat.add_0_r, Rplus_0_r. exact Hacc.
  - inversion Hxs as [|? ? Hx Hxs']; subst. simpl.
    replace (k + S (length xs))%nat with (S k + length xs)%nat by lia.
    replace (A + (float_value x + exact_sum xs))%R
      with ((A + float_value x) + exact_sum xs)%R by lra.
    apply IH; [|exact Hxs'|apply sum_invariant_step; assumption].
    pose proof (float_value_nonneg x Hx). lra.
Qed.

Lemma exact_sum_nonneg (xs : list float) :
  Forall nonneg_finite xs -> (0 <= exact_sum xs)%R.
Proof.
  induction 1 as [|x xs Hx _ IH]; simpl; [lra|].
  pose proof (float_value_nonneg x Hx). lra.
Qed.

Lemma exact_sum_elem (xs : list float) (x : float) :
  Forall nonneg_finite xs -> x ∈ xs -> (float_value x <= exact_sum xs)%R.
Proof.
  induction 1 as [|y xs Hy Hxs IH]; intros Hin.
  - inversion Hin.
  - pose proof (float_value_nonneg y Hy).
    pose proof (exact_sum_nonneg xs Hxs). simpl.
    apply elem_of_cons in Hin as [->|Hin]; [lra|]. specialize (IH Hin). lra.
Qed.

(** [sum] of non-negative floats, from the start value 0. *)
Lemma sum_invariant_sum (xs : list float) :
  Forall nonneg_finite xs ->
  sum_invariant (fold_left PrimFloat.add xs 0%float) (length xs)
    (exact_sum xs).
Proof.
  intros Hxs.
  pose proof (sum_invariant_fold xs 0%float 0 0%R ltac:(lra) Hxs) as H.
  simpl in H. rewrite Rplus_0_l in H. apply H. right.
  split; [exact I|]. unfold float_value.
  change (Prim2SF 0) with (S754_zero false). simpl. lra.
Qed.

(** *** Powers of the rounding factors *)

(** [(1 + u)^n <= 1 + 2 n u] and [(1 - u)^n >= 1 - n u]. *)
Lemma pow_1pu_le (n : nat) :
  (2 * INR n * unit_roundoff <= 1)%R ->
  ((1 + unit_roundoff) ^ n <= 1 + 2 * INR n * unit_roundoff)%R.
Proof.
  pose proof unit_roundoff_bounds as Hu. induction n as [|n IH]; intros Hn.
  - simpl. lra.
  - rewrite S_INR in *. pose proof (pos_INR n).
    assert (2 * INR n * unit_roundoff <= 1)%R as Hn' by nra.
    specialize (IH Hn'). simpl pow. nra.
Qed.

Lemma pow_1mu_ge (n : nat) :
  (1 - INR n * unit_roundoff <= (1 - unit_roundoff) ^ n)%R.
Proof.
  pose proof unit_roundoff_bounds as Hu. induction n as [|n IH].
  - simpl. lra.
  - rewrite S_INR. pose proof (pos_INR n). simpl pow.
    pose proof (pow_1mu n). nra.
Qed.

(** *** Normalised weights *)

(** The exact sum of the float quotients [w / T] against the exact
    quotient of the sum. *)
Lemma quotients_error (T : float) (ws : list float) :
  nonneg_finite T -> (T =? 0)%float = false ->
  Forall (fun w => nonneg_finite w
                   /\ (float_value w / float_value T <= 2)%R) ws ->
  Forall nonneg_finite (map (fun w => (w / T)%float) ws)
  /\ (Rabs (exact_sum (map (fun w => (w / T)%float) ws)
            - exact_sum ws / float_value T)
      <= unit_roundoff * (exact_sum ws / float_value T)
         + INR (length ws) * underflow_error)%R.
Proof.
  intros HT Hnz. destruct (float_value_pos T HT Hnz) as (m & e & _ & HvT).
  induction 1 as [|w ws [Hw Hb] _ [IH1 IH2]].
  - simpl. split; [constructor|]. unfold Rdiv. rewrite Rmult_0_l, Rmult_0_r.
    replace (0 - 0)%R with 0%R by lra. rewrite Rabs_R0. lra.
  - assert (pow2 3 <= pow2 1023)%R as Hbig by (apply pow2_le; lia).
    assert (pow2 3 = 8)%R as H8 by (unfold pow2; simpl; lra).
    destruct (div_error w T Hw HT Hnz) as [[_ Hinf]|[Hfin Herr]]; [lra|].
    split; [constructor; assumption|].
    cbn [map length]. rewrite S_INR.
    change (exact_sum ((w / T)%float :: map (fun w => (w / T)%float) ws))
      with (float_value (w / T)
            + exact_sum (map (fun w => (w / T)%float) ws))%R.
    change (exact_sum (w :: ws)) with (float_value w + exact_sum ws)%R.
    apply Rabs_le_iff in Herr, IH2. apply Rabs_le_iff.
    replace ((float_value w + exact_sum ws) / float_value T)%R
      with (float_value w / float_value T + exact_sum ws / float_value T)%R
      by (field; lra).
    split; lra.
Qed.

Lemma unit_roundoff_value : unit_roundoff = (/ 9007199254740992)%R.
Proof.
  unfold unit_roundoff. change (-53) with (- (53)).
  rewrite pow2_opp, (pow2_IZR 53) by lia.
  reflexivity.
Qed.

Lemma underflow_error_le (n : nat) :
  (INR n <= 1000000)%R -> (INR n * underflow_error <= unit_roundoff)%R.
Proof.
  intros Hn. pose proof (pos_INR n).
  assert (pow2 20 = 1048576)%R as H20 by (rewrite pow2_IZR by lia; reflexivity).
  assert (pow2 20 * underflow_error <= unit_roundoff)%R.
  { unfold underflow_error, unit_roundoff. rewrite <- pow2_add.
    apply pow2_le. lia. }
  pose proof (pow2_pos (-1075)) as He. fold underflow_error in He. nra.
Qed.

(** The float sum of the quotients of non-negative floats by their float
    sum is 1 up to one part in [10^9], for up to a million summands, as
    long as the sum is finite and not zero. *)
Theorem normalised_sum_error (ws : list float) :
  Forall nonneg_finite ws ->
  (fold_left PrimFloat.add ws 0 <? infinity)%float = true ->
  (fold_left PrimFloat.add ws 0 =? 0)%float = false ->
  Z.of_nat (length ws) <= 1000000 ->
  (Rabs (float_value
           (fold_left PrimFloat.add
              (map (fun w => (w / fold_left PrimFloat.add ws 0)%float) ws)
              0%float)
         - 1) <= / 1000000000)%R.
Proof.
  intros Hws Hfinite Hnz Hlen.
  set (T := fold_left PrimFloat.add ws 0%float) in *.
  set (n := length ws) in *.
  pose proof (sum_invariant_sum ws Hws) as HT. fold T n in HT.
  unfold sum_invariant in HT.
  set (W := exact_sum ws) in *.
  pose proof (exact_sum_nonneg ws Hws) as HW0. fold W in HW0.
  pose proof unit_roundoff_bounds as Hu. pose proof unit_roundoff_value as Huv.
  assert (INR n <= 1000000)%R as Hn.
  { rewrite INR_IZR_INZ. apply IZR_le. exact Hlen. }
  pose proof (pos_INR n) as Hn0.
  set (a := (INR n * unit_roundoff)%R).
  assert (0 <= a <= / 8000000000)%R as Ha by (unfold a; rewrite Huv; lra).
  assert (unit_roundoff <= / 8000000000)%R as Hu' by (rewrite Huv; lra).
  pose proof (pow_1pu_le n ltac:(unfold a in Ha; lra)) as HP.
  replace (2 * INR n * unit_roundoff)%R with (2 * a)%R in HP
    by (unfold a; ring).
  pose proof (pow_1mu_ge n) as HQ. fold a in HQ.
  pose proof (pow_1pu n) as HP1. pose proof (pow_1mu n) as HQ1.
  set (P := ((1 + unit_roundoff) ^ n)%R) in *.
  set (Q := ((1 - unit_roundoff) ^ n)%R) in *.
  (* the float sum of the inputs *)
  destruct HT as [[Hinf _]|[HTfin HTb]].
  { rewrite ltb_spec, Hinf in Hfinite. discriminate. }
  destruct (float_value_pos T HTfin Hnz) as (_ & _ & _ & HvT).
  set (vT := float_value T) in *.
  assert (0 < W)%R as HW.
  { destruct (Rle_lt_dec W 0) as [Hle|]; [|assumption].
    assert (W = 0)%R as HW00 by lra. rewrite HW00 in HTb.
    rewrite !Rmult_0_r in HTb. fold vT in HTb. lra. }
  assert ((1 - a) * W <= vT <= (1 + 2 * a) * W)%R as HTW.
  { split.
    - apply Rle_trans with (Q * W)%R; [|lra].
      apply Rmult_le_compat_r; lra.
    - apply Rle_trans with (P * W)%R; [lra|].
      apply Rmult_le_compat_r; lra. }
  (* the quotients *)
  assert (Forall (fun w => nonneg_finite w /\ (float_value w / vT <= 2)%R) ws)
    as Hq.
  { apply Forall_forall. intros w Hin. rewrite Forall_forall in Hws.
    split; [apply Hws; exact Hin|].
    pose proof (exact_sum_elem ws w ltac:(apply Forall_forall; exact Hws) Hin)
      as Hle.
    fold W in Hle. apply Rmult_le_reg_r with vT; [exact HvT|].
    replace (float_value w / vT * vT)%R with (float_value w) by (field; lra).
    nra. }
  destruct (quotients_error T ws HTfin Hnz Hq) as [Hst Hse].
  fold W vT n in Hse.
  set (stored := map (fun w => (w / T)%float) ws) in *.
  pose proof (exact_sum_nonneg stored Hst) as HS0.
  set (Qs := exact_sum stored) in *.
  set (r := (W / vT)%R) in *.
  assert (r * vT = W)%R as Hr by (unfold r; field; lra).
  assert (1 - 2 * a <= r <= 1 + 2 * a)%R as Hrb.
  { assert (0 < r)%R by (unfold r; apply Rdiv_lt_0_compat; lra).
    split.
    - destruct (Rle_lt_dec (1 - 2 * a) r); [assumption|]. exfalso. nra.
    - destruct (Rle_lt_dec r (1 + 2 * a)); [assumption|]. exfalso. nra. }
  pose proof (underflow_error_le n Hn) as Heta.
  apply Rabs_le_iff in Hse.
  assert ((1 - unit_roundoff) * r - unit_roundoff <= Qs
          <= (1 + unit_roundoff) * r + unit_roundoff)%R as HQs by lra.
  (* the float sum of the quotients *)
  pose proof (sum_invariant_sum stored Hst) as HS.
  replace (length stored) with n in HS
    by (unfold stored; rewrite length_map; reflexivity).
  unfold sum_invariant in HS. fold Qs P Q in HS.
  assert (pow2 3 <= pow2 1023)%R as Hbig by (apply pow2_le; lia).
  assert (pow2 3 = 8)%R as H8 by (unfold pow2; simpl; lra).
  destruct HS as [[_ Hinf]|[_ HSb]]; [exfalso; nra|].
  set (vS := float_value (fold_left PrimFloat.add stored 0%float)) in *.
  assert (1 - / 1000000000 <= vS)%R as Hlow.
  { apply Rle_trans with (Q * Qs)%R; [|lra].
    apply Rle_trans with ((1 - a) * Qs)%R; [|nra].
    apply Rle_trans
      with ((1 - a) * ((1 - unit_roundoff) * r - unit_roundoff))%R; [|nra].
    apply Rle_trans
      with ((1 - a)
            * ((1 - unit_roundoff) * (1 - 2 * a) - unit_roundoff))%R;
      [|nra].
    nra. }
  assert (vS <= 1 + / 1000000000)%R as Hupp.
  { apply Rle_trans with (P * Qs)%R; [lra|].
    apply Rle_trans with ((1 + 2 * a) * Qs)%R; [nra|].
    apply Rle_trans
      with ((1 + 2 * a) * ((1 + unit_roundoff) * r + unit_roundoff))%R;
      [nra|].
    apply Rle_trans
      with ((1 + 2 * a)
            * ((1 + unit_roundoff) * (1 + 2 * a) + unit_roundoff))%R;
      [nra|].
    nra. }
  apply Rabs_le_iff. lra.
Qed.

(** Non-negative summands with a finite float sum are finite. *)
Lemma finite_sum_finite_summands (ws : list float) (acc : float) :
  nonneg_finite acc \/ Prim2SF acc = S754_infinity false ->
  Forall (fun w => (0 <=? w)%float = true) ws ->
  (fold_left PrimFloat.add ws acc <? infinity)%float = true ->
  nonneg_finite acc /\ Forall nonneg_finite ws.
Proof.
  revert acc. induction ws as [|w ws IH]; intros acc Hacc Hws Hfin.
  - simpl in Hfin. split; [|constructor].
    destruct Hacc as [Hacc|Hacc]; [exact Hacc|].
    rewrite ltb_spec, Hacc in Hfin. discriminate.
  - inversion Hws as [|? ? Hw Hws']; subst. simpl in Hfin.
    assert (nonneg_finite w \/ Prim2SF w = S754_infinity false) as Hw'.
    { rewrite leb_spec in Hw. unfold nonneg_finite.
      change (Prim2SF 0) with (S754_zero false) in Hw.
      destruct (Prim2SF w) as [s|[|]| |[|] m e]; simpl in *;
        try discriminate; auto. }
    assert (nonneg_finite acc /\ nonneg_finite w
            \/ Prim2SF (acc + w) = S754_infinity false) as Hcase.
    { destruct Hacc as [Hacc|Hacc], Hw' as [Hw'|Hw']; auto; right.
      - rewrite add_spec, Hw'. unfold nonneg_finite in Hacc.
        destruct (Prim2SF acc) as [s|s| |[|] m e]; try contradiction;
          reflexivity.
      - apply add_infinity; assumption.
      - rewrite add_spec, Hacc, Hw'. reflexivity. }
    destruct Hcase as [[Ha Hw'']|Hinf].
    + destruct (add_error acc w Ha Hw'') as [[Hinf _]|[Hsum _]].
      * destruct (IH _ (or_intror Hinf) Hws' Hfin) as [Hc _].
        unfold nonneg_finite in Hc. rewrite Hinf in Hc. contradiction.
      * destruct (IH _ (or_introl Hsum) Hws' Hfin) as [_ Hrest].
        split; [exact Ha|]. constructor; assumption.
    + destruct (IH _ (or_intror Hinf) Hws' Hfin) as [Hc _].
      unfold nonneg_finite in Hc. rewrite Hinf in Hc. contradiction.
Qed.

(** Weight conservation on floats. *)
Theorem normalised_weights_sum (ws : list float) :
  Forall (fun w => (0 <=? w)%float = true) ws ->
  (fold_left PrimFloat.add ws 0 <? infinity)%float = true ->
  (fold_left PrimFloat.add ws 0 =? 0)%float = false ->
  Z.of_nat (length ws) <= 1000000 ->
  (Rabs (float_value
           (fold_left PrimFloat.add
              (map (fun w => (w / fold_left PrimFloat.add ws 0)%float) ws)
              0%float)
         - 1) <= / 1000000000)%R.
Proof.
  intros Hws Hfin Hnz Hlen. apply normalised_sum_error; try assumption.
  apply (finite_sum_finite_summands ws 0%float); [|assumption..].
  left. exact I.
Qed.


(** ** Weight conservation *)

(** C7, as stated, fails on floats in two ways.  Two weights of 1e308
    have a positive sum, which overflows to infinity, so both stored
    weights are [1e308 / inf = 0.0] and they sum to 0.0.  And with weights
    of both signs the roundings of the sums do not cancel: the weights
    1e16, 3, -1e16 and 1 have the positive float sum 5, and the stored
    weights sum to 0.7. *)
Lemma stored_weights_off_one :
  ((0 <? Py.sum (map get_weight (Sample.two_variants 1e308 1e308)))%float
   = true
   /\ exists e self',
        create_experiment "big" "Big" "" (Sample.two_variants 1e308 1e308)
          1000 "default" 0 (Sample.service 1)
        = (Ok e, self')
        /\ map weight (variants e) = [0%float; 0%float]
        /\ (abs (Py.sum (map weight (variants e)) - 1) <=? 1e-9)%float
           = false)
  /\ let vs := [mkVariantDict "a" (Some 1e16%float) None;
                mkVariantDict "b" (Some 3%float) None;
                mkVariantDict "c" (Some (-1e16)%float) None;
                mkVariantDict "d" (Some 1%float) None] in
     Py.sum (map get_weight vs) = 5%float
     /\ exists e self',
          create_experiment "signs" "Signs" "" vs 1000 "default" 0
            (Sample.service 1)
          = (Ok e, self')
          /\ Py.sum (map weight (variants e)) = 0.7%float
          /\ (abs (Py.sum (map weight (variants e)) - 1) <=? 1e-9)%float
             = false.
Proof.
  split.
  - split; [vm_compute; reflexivity|].
    eexists _, _. split; [vm_compute; reflexivity|].
    split; vm_compute; reflexivity.
  - split; [vm_compute; reflexivity|].
    eexists _, _. split; [vm_compute; reflexivity|].
    split; vm_compute; reflexivity.
Qed.

(** C7, amended: for a list of at most a million variants whose input
    weights are not negative and whose float sum is finite and not zero,
    [create_experiment] stores for each variant, in order, the float
    quotient of its weight by that sum; the stored weights sum (in
    floats, as [sum] adds them) to a number within [1e-9] of 1, whatever
    the scale of the input weights; and after any sequence of engine
    operations (start, stop, assign, record a conversion, compute results,
    on this or any other experiment) the weights of the experiment are
    still exactly the stored ones, so that the sum stays within [1e-9] of
    1 at all times after the creation. *)
Theorem weights_sum_to_one (experiment_id title text : string)
  (vs : list VariantDict) (target_sample_size : Z) (target_feature : string)
  (now : Z) (self : Service) (ops : list Op) :
  let total_weight := Py.sum (map get_weight vs) in
  Forall (fun v => (0 <=? get_weight v)%float = true) vs ->
  (total_weight <? infinity)%float = true ->
  (total_weight =? 0)%float = false ->
  Z.of_nat (length vs) <= 1000000 ->
  exists e self',
    create_experiment experiment_id title text vs target_sample_size
      target_feature now self
    = (Ok e, self')
    /\ map weight (variants e)
       = map (fun v => (get_weight v / total_weight)%float) vs
    /\ (Rabs (float_value (Py.sum (map weight (variants e))) - 1)
        <= / 1000000000)%R
    /\ weights_of (run_ops ops self') experiment_id
       = Some (map weight (variants e)).
Proof.
  intros total_weight Hpos Hfin Hz Hlen. eexists _, _. split.
  - apply create_experiment_nonzero. exact Hz.
  - fold total_weight. simpl. rewrite map_map. split; [reflexivity|]. split.
    + pose proof (normalised_weights_sum (map get_weight vs)) as H.
      rewrite map_map in H. rewrite length_map in H.
      apply H; try assumption.
      apply Forall_map. exact Hpos.
    + rewrite weights_of_run_ops. unfold weights_of. simpl.
      rewrite lookup_insert_eq. simpl. rewrite map_map. reflexivity.
Qed.

Lemma weights_sum_to_one_witness :
  let vs := [mkVariantDict "a" (Some 0.1%float) None;
             mkVariantDict "b" (Some 0.2%float) None;
             mkVariantDict "c" (Some 0.3%float) None] in
  exists e self',
    create_experiment "weight_test" "Weight Test" "Test" vs 1000 "default" 0
      (Sample.service 1)
    = (Ok e, self')
    /\ Py.sum (map weight (variants e)) = 0.99999999999999989%float
    /\ (Rabs (float_value (Py.sum (map weight (variants e))) - 1)
        <= / 1000000000)%R
    /\ weights_of
         (run_ops [OpStart "weight_test" 1;
                   OpAssign "weight_test" "user123" 0.25;
                   OpRecordConversion "weight_test" "user123";
                   OpComputeResults "weight_test";
                   OpStop "weight_test" 2] self') "weight_test"
       = Some (map weight (variants e)).
Proof.
  intros vs.
  destruct (weights_sum_to_one "weight_test" "Weight Test" "Test" vs 1000
              "default" 0 (Sample.service 1)
              [OpStart "weight_test" 1;
               OpAssign "weight_test" "user123" 0.25;
               OpRecordConversion "weight_test" "user123";
               OpComputeResults "weight_test";
               OpStop "weight_test" 2])
    as (e & self' & Hc & Hw & Hsum & Hops).
  - repeat constructor.
  - vm_compute. reflexivity.
  - vm_compute. reflexivity.
  - vm_compute. discriminate.
  - exists e, self'. split; [exact Hc|].
    split; [rewrite Hw; vm_compute; reflexivity|].
    split; [exact Hsum | exact Hops].
Defined.

(** ** The three ways through [get_variant] on a Running experiment *)

Lemma select_by_weight_bound (normalized cumulative : float) (i j : nat)
  (vs : list Variant) :
  select_by_weight normalized cumulative i vs = Some j ->
  (i <= j < i + length vs)%nat.
Proof.
  revert cumulative i. induction vs as [|v vs IH]; intros c i H; simpl in *.
  - discriminate.
  - destruct (normalized <=? c + weight v)%float.
    + injection H as <-. lia.
    + apply IH in H. lia.
Qed.

Lemma _assign_variant_in_range (experiment : Experiment) (user_id : string) :
  variants experiment <> [] ->
  exists i v,
    _assign_variant experiment user_id = Ok i
    /\ variants experiment !! i = Some v.
Proof.
  intros Hne. unfold _assign_variant.
  destruct (select_by_weight _ _ _ _) as [j|] eqn:Hs.
  - apply select_by_weight_bound in Hs.
    destruct (lookup_lt_is_Some_2 (variants experiment) j) as [v Hv];
      [lia|]. eauto.
  - destruct (variants experiment) as [|x vs] eqn:Hv; [congruence|].
    destruct (lookup_lt_is_Some_2 (x :: vs) (length (x :: vs) - 1)) as [v Hl];
      [simpl; lia|]. eauto.
Qed.

(** A user excluded by the sampling gate gets the default variant and
    leaves no trace. *)
Lemma get_variant_excluded (self : Service) (experiment_id user_id : string)
  (rnd : float) (experiment : Experiment) :
  enabled self = true ->
  _experiments self !! experiment_id = Some experiment ->
  status experiment = RUNNING ->
  stored_assignment self user_id experiment_id = None ->
  (sample_rate self <? rnd)%float = true ->
  get_variant experiment_id user_id rnd self
  = (Ok (default_variant self, ∅), self).
Proof.
  intros Hen He Hst Hno Hgate. unfold get_variant.
  rewrite Hen, He, Hno. simpl.
  rewrite bool_decide_eq_true_2 by exact Hst. simpl.
  rewrite Hgate. reflexivity.
Qed.

(** A user that passes the gate is assigned the hashed variant; the
    assignment is stored and the variant's impressions go up by one. *)
Lemma get_variant_included (self : Service) (experiment_id user_id : string)
  (rnd : float) (experiment : Experiment) (i : nat) (v : Variant) :
  enabled self = true ->
  _experiments self !! experiment_id = Some experiment ->
  status experiment = RUNNING ->
  stored_assignment self user_id experiment_id = None ->
  (sample_rate self <? rnd)%float = false ->
  _assign_variant experiment user_id = Ok i ->
  variants experiment !! i = Some v ->
  get_variant experiment_id user_id rnd self
  = (Ok (name v, config v),
     after_assignment self experiment_id user_id experiment i v).
Proof.
  intros Hen He Hst Hno Hgate Hi Hv. unfold get_variant.
  rewrite Hen, He, Hno. simpl.
  rewrite bool_decide_eq_true_2 by exact Hst. simpl.
  rewrite Hgate, Hi, Hv. reflexivity.
Qed.

(** A user with a stored assignment gets the stored variant back and
    nothing changes, whatever the draw. *)
Lemma get_variant_stored (self : Service) (experiment_id user_id : string)
  (rnd : float) (experiment : Experiment) (variant_name : string) (j : nat)
  (w : Variant) :
  enabled self = true ->
  _experiments self !! experiment_id = Some experiment ->
  status experiment = RUNNING ->
  stored_assignment self user_id experiment_id = Some variant_name ->
  find_by_name variant_name 0 (variants experiment) = Some (j, w) ->
  get_variant experiment_id user_id rnd self
  = (Ok (variant_name, config w), self).
Proof.
  intros Hen He Hst Hsa Hf. unfold get_variant.
  rewrite Hen, He, Hsa. simpl.
  rewrite bool_decide_eq_true_2 by exact Hst. simpl. rewrite Hf.
  apply find_by_name_Some in Hf as (_ & _ & -> & _). reflexivity.
Qed.

Lemma stored_assignment_store (self : Service)
  (experiment_id user_id variant_name : string) :
  stored_assignment
    (store_assignment user_id experiment_id variant_name self)
    user_id experiment_id
  = Some variant_name.
Proof.
  unfold stored_assignment, store_assignment. simpl.
  rewrite lookup_insert_eq. simpl. apply lookup_insert_eq.
Qed.

Lemma name_alter_impressions (vs : list Variant) (i : nat) :
  map name (alter (fun v => set_impressions (impressions v + 1) v) i vs)
  = map name vs.
Proof.
  apply list_eq. intros k. rewrite !list_lookup_fmap.
  destruct (decide (k = i)) as [->|Hk].
  - rewrite list_lookup_alter_eq. destruct (vs !! i); reflexivity.
  - rewrite list_lookup_alter_ne by auto. reflexivity.
Qed.

Lemma find_by_name_map_name (vn : string) (vs vs' : list Variant) (i : nat) :
  map name vs = map name vs' ->
  is_Some (find_by_name vn i vs) -> is_Some (find_by_name vn i vs').
Proof.
  revert vs' i. induction vs as [|x vs IH]; intros [|y vs'] i Hm H;
    simpl in *; try discriminate; [exact H|].
  injection Hm as Hxy Hm. rewrite <- Hxy.
  case_bool_decide; [eauto | eapply IH; eauto].
Qed.

(** After the first assignment every further call is a stored one. *)
Lemma after_assignment_stable (self : Service)
  (experiment_id user_id : string) (experiment : Experiment) (i : nat)
  (v : Variant) (rnds : list float) :
  enabled self = true ->
  status experiment = RUNNING ->
  variants experiment !! i = Some v ->
  let self1 := after_assignment self experiment_id user_id experiment i v in
  (get_variant_repeat experiment_id user_id rnds self1).2 = self1
  /\ Forall (fun r => exists c, r = Ok (name v, c))
       (get_variant_repeat experiment_id user_id rnds self1).1.
Proof.
  intros Hen Hst Hv self1.
  assert (exists j w,
            find_by_name (name v) 0
              (alter (fun v => set_impressions (impressions v + 1) v) i
                 (variants experiment)) = Some (j, w)) as (j & w & Hf).
  { assert (is_Some (find_by_name (name v) 0 (variants experiment))) as Hs.
    { destruct (find_by_name_is_Some (name v) (variants experiment) v)
        as (j & w & ->); eauto.
      eapply list_elem_of_lookup_2; eauto. }
    eapply find_by_name_map_name in Hs;
      [|symmetry; apply (name_alter_impressions _ i)].
    destruct Hs as [[j w] Hs]. eauto. }
  assert (forall rnd,
            get_variant experiment_id user_id rnd self1
            = (Ok (name v, config w), self1)) as Hcall.
  { intros rnd.
    apply (get_variant_stored self1 experiment_id user_id rnd
             (set_variants
                (alter (fun v => set_impressions (impressions v + 1) v) i
                   (variants experiment)) experiment)
             (name v) j w).
    - exact Hen.
    - unfold self1, after_assignment, update_variant. simpl.
      apply lookup_insert_eq.
    - exact Hst.
    - unfold self1, after_assignment, update_variant.
      apply stored_assignment_store.
    - exact Hf. }
  induction rnds as [|rnd rnds [IH1 IH2]]; simpl.
  - split; [reflexivity | constructor].
  - rewrite Hcall.
    destruct (get_variant_repeat experiment_id user_id rnds self1)
      as [rs s2] eqn:E. simpl in *. split; [exact IH1|].
    constructor; eauto.
Qed.

Lemma counters_of_after_assignment (self : Service)
  (experiment_id user_id : string) (experiment : Experiment) (i : nat)
  (v : Variant) :
  variants experiment !! i = Some v ->
  counters_of (after_assignment self experiment_id user_id experiment i v)
    experiment_id
  = Some (<[i := (impressions v + 1, conversions v)]>
            (map (fun v => (impressions v, conversions v))
               (variants experiment))).
Proof.
  intros Hv. unfold counters_of, after_assignment, update_variant. simpl.
  rewrite lookup_insert_eq. simpl. f_equal.
  apply list_eq. intros k. rewrite list_lookup_fmap.
  destruct (decide (k = i)) as [->|Hk].
  - rewrite list_lookup_alter_eq, Hv. simpl.
    rewrite list_lookup_insert_eq; [reflexivity|].
    rewrite length_map. eapply lookup_lt_Some; eauto.
  - rewrite list_lookup_alter_ne, list_lookup_insert_ne by auto.
    rewrite list_lookup_fmap. reflexivity.
Qed.

(** ** Repeated assignment *)

(** C1 fails on the code, which the docstring of [get_variant] (the same
    user always gets the same variant) and
    [test_consistent_variant_assignment] contradict: with a sample rate of
    0.5, the same call on the same service answers the default variant
    when the draw is 0.9 and the hashed variant [a] when the draw is 0.1;
    since the first answer leaves the service unchanged, two successive
    calls with these draws return two different variants. *)
Theorem get_variant_depends_on_draw :
  get_variant "consistent_test" "user123" 0.9 (Sample.started 0.5)
  = (Ok ("control", ∅), Sample.started 0.5)
  /\ (get_variant "consistent_test" "user123" 0.1 (Sample.started 0.5)).1
     = Ok ("a", ∅)
  /\ (get_variant_repeat "consistent_test" "user123" [0.9%float; 0.1%float]
        (Sample.started 0.5)).1
     = [Ok ("control", ∅); Ok ("a", ∅)].
Proof. repeat split; vm_compute; reflexivity. Qed.

(** C2, as stated, fails for a user that the sampling gate excludes: with a
    sample rate of 0.5 and the draws 0.9 and 0.75, two calls for
    [user123] on the Running experiment leave every impression counter at
    zero. *)
Lemma excluded_user_counts_no_impression :
  counters_of (Sample.started 0.5) "consistent_test"
  = Some [(0, 0); (0, 0)]
  /\ counters_of
       (get_variant_repeat "consistent_test" "user123"
          [0.9%float; 0.75%float] (Sample.started 0.5)).2
       "consistent_test"
     = Some [(0, 0); (0, 0)].
Proof. split; vm_compute; reflexivity. Qed.

Lemma find_by_name_alter_config (vn : string) (f : Variant -> Variant)
  (vs : list Variant) (i k j : nat) (w : Variant) :
  (forall x, name (f x) = name x) ->
  (forall x, config (f x) = config x) ->
  find_by_name vn k vs = Some (j, w) ->
  exists w', find_by_name vn k (alter f i vs) = Some (j, w')
             /\ config w' = config w.
Proof.
  intros Hn Hc. revert i k.
  induction vs as [|x vs IH]; intros i k H; simpl in H; [discriminate|].
  destruct i as [|i]; simpl.
  - rewrite Hn. case_bool_decide.
    + injection H as <- <-. eauto.
    + eauto.
  - case_bool_decide.
    + injection H as <- <-. eauto.
    + apply IH. exact H.
Qed.

(** After the first assignment every call, whatever its draw, answers the
    stored variant (with the configuration of the first variant of that
    name) and changes nothing. *)
Lemma after_assignment_answers (self : Service)
  (experiment_id user_id : string) (experiment : Experiment) (i j : nat)
  (v w : Variant) (rnd : float) :
  enabled self = true ->
  status experiment = RUNNING ->
  find_by_name (name v) 0 (variants experiment) = Some (j, w) ->
  let self1 := after_assignment self experiment_id user_id experiment i v in
  get_variant experiment_id user_id rnd self1
  = (Ok (name v, config w), self1).
Proof.
  intros Hen Hst Hf self1.
  destruct (find_by_name_alter_config (name v)
              (fun v => set_impressions (impressions v + 1) v)
              (variants experiment) i 0 j w) as (w' & Hf' & Hc);
    [reflexivity | reflexivity | exact Hf |].
  rewrite <- Hc.
  apply (get_variant_stored self1 experiment_id user_id rnd
           (set_variants
              (alter (fun v => set_impressions (impressions v + 1) v) i
                 (variants experiment)) experiment)
           (name v) j w').
  - exact Hen.
  - unfold self1, after_assignment, update_variant. simpl.
    apply lookup_insert_eq.
  - exact Hst.
  - unfold self1, after_assignment, update_variant.
    apply stored_assignment_store.
  - exact Hf'.
Qed.

Lemma get_variant_repeat_constant (experiment_id user_id : string)
  (rnds : list float) (self : Service) (r : result (string * Config)) :
  (forall rnd, get_variant experiment_id user_id rnd self = (r, self)) ->
  get_variant_repeat experiment_id user_id rnds self
  = (map (fun _ => r) rnds, self).
Proof.
  intros Hcall. induction rnds as [|rnd rnds IH]; simpl; [reflexivity|].
  rewrite Hcall, IH. reflexivity.
Qed.

(** C2, amended: on an enabled service, for a Running experiment with at
    least one variant and a user without a stored assignment, N calls of
    [get_variant] raise the impression counter of the variant that
    [_assign_variant] selects for the user by exactly one when at least
    one of the calls passes the sampling gate, whatever N is, and change
    nothing at all when every call is excluded by the gate; no other
    counter of the experiment moves.  The answers come in this order: the
    default variant for every call up to the first one that passes the
    gate; the selected variant with its configuration at that call, which
    stores the assignment; and from then on, whatever the draw, the stored
    variant (with the configuration of the first variant of that name),
    each such call leaving the service, and so every counter, as it is. *)
Theorem impressions_counted_once (self : Service)
  (experiment_id user_id : string) (experiment : Experiment)
  (rnds : list float) :
  enabled self = true ->
  _experiments self !! experiment_id = Some experiment ->
  status experiment = RUNNING ->
  variants experiment <> [] ->
  stored_assignment self user_id experiment_id = None ->
  exists i v j w,
    _assign_variant experiment user_id = Ok i
    /\ variants experiment !! i = Some v
    /\ find_by_name (name v) 0 (variants experiment) = Some (j, w)
    /\ (forall k rnd,
          rnds !! k = Some rnd ->
          (get_variant_repeat experiment_id user_id rnds self).1 !! k
          = Some
              (if forallb (fun rnd => (sample_rate self <? rnd)%float)
                    (take k rnds)
               then
                 if (sample_rate self <? rnd)%float
                 then Ok (default_variant self, ∅)
                 else Ok (name v, config v)
               else Ok (name v, config w)))
    /\ let self' := (get_variant_repeat experiment_id user_id rnds self).2 in
       if forallb (fun rnd => (sample_rate self <? rnd)%float) rnds
       then self' = self
       else
         self' = after_assignment self experiment_id user_id experiment i v
         /\ stored_assignment self' user_id experiment_id = Some (name v)
         /\ counters_of self' experiment_id
            = Some (<[i := (impressions v + 1, conversions v)]>
                      (map (fun v => (impressions v, conversions v))
                         (variants experiment)))
         /\ (forall rnd,
               get_variant experiment_id user_id rnd self'
               = (Ok (name v, config w), self')).
Proof.
  intros Hen He Hst Hne Hno.
  destruct (_assign_variant_in_range experiment user_id Hne)
    as (i & v & Hi & Hv).
  destruct (find_by_name_is_Some (name v) (variants experiment) v)
    as (j & w & Hf); [eapply list_elem_of_lookup_2; eauto | reflexivity |].
  exists i, v, j, w.
  split; [exact Hi|]. split; [exact Hv|]. split; [exact Hf|].
  pose proof (fun rnd =>
                after_assignment_answers self experiment_id user_id
                  experiment i j v w rnd Hen Hst Hf) as Hstored.
  cbv zeta in Hstored.
  induction rnds as [|rnd rnds [IH1 IH2]]; simpl.
  - split; [intros k rnd Hk; destruct k; discriminate | reflexivity].
  - destruct (sample_rate self <? rnd)%float eqn:Hgate.
    + rewrite (get_variant_excluded self _ _ _ experiment) by assumption.
      destruct (get_variant_repeat experiment_id user_id rnds self)
        as [rs s2] eqn:E. simpl in *. split; [|exact IH2].
      intros [|k] rnd' Hk; simpl in *.
      * injection Hk as <-. rewrite Hgate. reflexivity.
      * rewrite Hgate. simpl. apply IH1. exact Hk.
    + rewrite (get_variant_included self _ _ _ experiment i v)
        by assumption.
      rewrite (get_variant_repeat_constant _ _ rnds _ _ Hstored).
      simpl. split.
      * intros [|k] rnd' Hk; simpl in *.
        -- injection Hk as <-. rewrite Hgate. reflexivity.
        -- rewrite Hgate. simpl. rewrite list_lookup_fmap, Hk. reflexivity.
      * split; [reflexivity|]. split.
        -- unfold after_assignment, update_variant.
           apply stored_assignment_store.
        -- split; [apply counters_of_after_assignment; exact Hv|].
           exact Hstored.
Qed.

Lemma impressions_counted_once_witness :
  exists i v j w,
    _assign_variant
      (mkExperiment "consistent_test" "Consistent Test" "Test"
         [mkVariant "a" 0.5 ∅ 0 0; mkVariant "b" 0.5 ∅ 0 0]
         RUNNING 0 (Some 1) None 1000 "default" ∅) "user123" = Ok i
    /\ [mkVariant "a" 0.5 ∅ 0 0; mkVariant "b" 0.5 ∅ 0 0] !! i = Some v
    /\ find_by_name (name v) 0
         [mkVariant "a" 0.5 ∅ 0 0; mkVariant "b" 0.5 ∅ 0 0] = Some (j, w)
    /\ (get_variant_repeat "consistent_test" "user123"
          [0.9%float; 0.25%float; 0.75%float; 0.1%float]
          (Sample.started 0.5)).1 !! 2%nat
       = Some (Ok (name v, config w))
    /\ counters_of
         (get_variant_repeat "consistent_test" "user123"
            [0.9%float; 0.25%float; 0.75%float; 0.1%float]
            (Sample.started 0.5)).2 "consistent_test"
       = Some (<[i := (impressions v + 1, conversions v)]> [(0, 0); (0, 0)]).
Proof.
  destruct (impressions_counted_once (Sample.started 0.5) "consistent_test"
              "user123"
              (mkExperiment "consistent_test" "Consistent Test" "Test"
                 [mkVariant "a" 0.5 ∅ 0 0; mkVariant "b" 0.5 ∅ 0 0]
                 RUNNING 0 (Some 1) None 1000 "default" ∅)
              [0.9%float; 0.25%float; 0.75%float; 0.1%float])
    as (i & v & j & w & Hi & Hv & Hf & Hout & H).
  - reflexivity.
  - vm_compute. reflexivity.
  - reflexivity.
  - discriminate.
  - vm_compute. reflexivity.
  - exists i, v, j, w.
    split; [exact Hi|]. split; [exact Hv|]. split; [exact Hf|].
    split; [exact (Hout 2%nat 0.75%float eq_refl)|].
    apply H.
Defined.

(** ** The best variant *)

Lemma rate_of_Ok (v : Variant) (r : float) :
  conversion_rate v = Ok r -> rate_of v = r.
Proof. unfold rate_of. intros ->. reflexivity. Qed.

(** When the control converts at a positive rate: the loop either keeps
    the best it started with, or ends on the first variant that attains
    the highest lift above the initial one. *)
Lemma results_loop_positive (control : Variant) (vs : list Variant) :
  (exists r, conversion_rate control = Ok r) ->
  (0 <? rate_of control)%float = true ->
  Forall (fun v => exists r, conversion_rate v = Ok r) vs ->
  forall (i : nat) (best_lift : float) (best_variant : nat),
  exists bl bv,
    results_loop control i vs best_lift best_variant
    = Ok (bl, bv, map (entry_of control) vs)
    /\ ((bl = best_lift /\ bv = best_variant
         /\ forall k v, vs !! k = Some v ->
              differs_from_control (i + k) v control = true ->
              (best_lift <? lift_of control v)%float = false)
        \/ (exists k v,
              vs !! k = Some v /\ bv = (i + k)%nat
              /\ bl = lift_of control v
              /\ differs_from_control (i + k) v control = true
              /\ (best_lift <? bl)%float = true
              /\ (forall k' w, vs !! k' = Some w ->
                    differs_from_control (i + k') w control = true ->
                    (bl <? lift_of control w)%float = false)
              /\ (forall k' w, (k' < k)%nat -> vs !! k' = Some w ->
                    differs_from_control (i + k') w control = true ->
                    (bl <=? lift_of control w)%float = false))).
Proof.
  intros [crate Hc] Hpos Hall.
  assert (rate_of control = crate) as Hrc by (apply rate_of_Ok; exact Hc).
  induction Hall as [|x vs [r Hr] _ IH]; intros i best_lift best_variant.
  - exists best_lift, best_variant. split; [reflexivity|]. left.
    repeat split. intros k v Hk. rewrite lookup_nil in Hk. discriminate.
  - assert (rate_of x = r) as Hrx by (apply rate_of_Ok; exact Hr).
    assert (lift_of control x = ((r - crate) / crate * 100)%float) as Hlx.
    { unfold lift_of, lift_formula. rewrite Hrc, Hrx.
      rewrite Hrc in Hpos. rewrite Hpos. reflexivity. }
    assert (entry_of control x
            = mkVariantResult (name x) (impressions x) (conversions x) r
                ((r - crate) / crate * 100)%float) as Hex.
    { unfold entry_of. rewrite Hrx, Hlx. reflexivity. }
    simpl. rewrite Hr, Hc. simpl. rewrite Hrc in Hpos. rewrite Hpos.
    rewrite <- Hex, <- Hlx.
    destruct ((best_lift <? lift_of control x)%float
              && differs_from_control i x control) eqn:Hupd.
    + apply andb_true_iff in Hupd as [Hlt Hdiff].
      destruct (IH (S i) (lift_of control x) i) as (bl & bv & -> & Hcase).
      simpl. exists bl, bv. split; [reflexivity|]. right.
      destruct Hcase as [(-> & -> & Hrest)
                        |(k & v & Hk & -> & -> & Hd & Hgt & Hmax & Hfirst)].
      * exists 0%nat, x. rewrite Nat.add_0_r.
        repeat split; auto.
        -- intros [|k'] w Hk' Hd'; simpl in Hk'.
           ++ injection Hk' as <-. apply ltb_irrefl.
           ++ apply (Hrest k' w Hk').
              replace (S i + k')%nat with (i + S k')%nat by lia. exact Hd'.
        -- intros k' w Hlt'. lia.
      * exists (S k), v. replace (i + S k)%nat with (S i + k)%nat by lia.
        repeat split; auto.
        -- eapply ltb_trans; eauto.
        -- intros [|k'] w Hk' Hd'; simpl in Hk'.
           ++ injection Hk' as <-. apply ltb_asym. exact Hgt.
           ++ apply (Hmax k' w Hk').
              replace (S i + k')%nat with (i + S k')%nat by lia. exact Hd'.
        -- intros [|k'] w Hlt' Hk' Hd'; simpl in Hk'.
           ++ injection Hk' as <-. apply ltb_not_leb. exact Hgt.
           ++ apply (Hfirst k' w); [lia | exact Hk' |].
              replace (S i + k')%nat with (i + S k')%nat by lia. exact Hd'.
    + destruct (IH (S i) best_lift best_variant) as (bl & bv & -> & Hcase).
      simpl. exists bl, bv. split; [reflexivity|].
      assert (differs_from_control i x control = true ->
              (best_lift <? lift_of control x)%float = false) as Hhead.
      { intros Hd. rewrite Hd, andb_true_r in Hupd. exact Hupd. }
      destruct Hcase as [(-> & -> & Hrest)
                        |(k & v & Hk & -> & -> & Hd & Hgt & Hmax & Hfirst)].
      * left. repeat split. intros [|k'] w Hk' Hd'; simpl in Hk'.
        -- injection Hk' as <-. rewrite Nat.add_0_r in Hd'. auto.
        -- apply (Hrest k' w Hk').
           replace (S i + k')%nat with (i + S k')%nat by lia. exact Hd'.
      * right. exists (S k), v.
        replace (i + S k)%nat with (S i + k)%nat by lia.
        repeat split; auto.
        -- intros [|k'] w Hk' Hd'; simpl in Hk'.
           ++ injection Hk' as <-. rewrite Nat.add_0_r in Hd'.
              specialize (Hhead Hd').
              destruct (lift_of control v <? lift_of control x)%float eqn:E;
                [|reflexivity].
              rewrite (ltb_trans _ _ _ Hgt E) in Hhead. discriminate.
           ++ apply (Hmax k' w Hk').
              replace (S i + k')%nat with (i + S k')%nat by lia. exact Hd'.
        -- intros [|k'] w Hlt' Hk' Hd'; simpl in Hk'.
           ++ injection Hk' as <-. rewrite Nat.add_0_r in Hd'.
              specialize (Hhead Hd').
              destruct (lift_of control v <=? lift_of control x)%float eqn:E;
                [|reflexivity].
              rewrite (ltb_leb_trans _ _ _ Hgt E) in Hhead. discriminate.
           ++ apply (Hfirst k' w); [lia | exact Hk' |].
              replace (S i + k')%nat with (i + S k')%nat by lia. exact Hd'.
Qed.

(** [get_experiment_results] reports the outcome of the loop: the lift of
    the result is the final best lift and the breakdown is the loop's. *)
Lemma compute_results_analysis (experiment_id : string)
  (experiment : Experiment) (r : ExperimentResult) :
  compute_results experiment_id experiment = Ok r ->
  exists best_variant,
    analyse_variants (variants experiment)
    = Ok (lift r, best_variant, result_variants r).
Proof.
  unfold compute_results. destruct (variants experiment) as [|c vs] eqn:Hv;
    [discriminate|].
  destruct (analyse_variants (c :: vs)) as [[[bl bv] entries]|]; simpl;
    [|discriminate].
  destruct (_calculate_significance _ _) as [[sig conf]|]; simpl;
    [|discriminate].
  destruct (decide_winner _ _ _ _ _ _) as [w rec].
  intros [= <-]. simpl. eauto.
Qed.

(** When the control's rate is not positive every lift is 0 and the best
    variant never changes. *)
Lemma results_loop_no_control_rate (control : Variant) (vs : list Variant) :
  (exists r, conversion_rate control = Ok r) ->
  (0 <? rate_of control)%float = false ->
  Forall (fun v => exists r, conversion_rate v = Ok r) vs ->
  forall (i : nat) (best_lift : float) (best_variant : nat),
    results_loop control i vs best_lift best_variant
    = Ok (best_lift, best_variant, map (entry_of control) vs).
Proof.
  intros [crate Hc] Hpos Hall.
  assert (rate_of control = crate) as Hrc by (apply rate_of_Ok; exact Hc).
  induction Hall as [|x vs [r Hr] _ IH]; intros i best_lift best_variant.
  - reflexivity.
  - simpl. rewrite Hr, Hc. simpl. rewrite Hrc in Hpos. rewrite Hpos.
    rewrite IH. simpl. unfold entry_of, lift_of, lift_formula.
    rewrite Hrc, Hpos, (rate_of_Ok _ _ Hr). reflexivity.
Qed.

(** C4, as stated, fails when no variant beats the control: with the
    control at 10 conversions in 100 impressions and the only other
    variant at 5 in 100 (lift -50), the best variant stays the control
    with best lift 0; and when the control has no conversion at all every
    lift is 0 and the best variant is again the control, not the first
    other variant. *)
Lemma best_variant_stays_control :
  analyse_variants
    [Sample.counters 100 10 "control"; Sample.counters 100 5 "treatment"]
  = Ok (0%float, 0%nat,
        [mkVariantResult "control" 100 10 0.1 0;
         mkVariantResult "treatment" 100 5 0.05 (-50)])
  /\ analyse_variants
       [Sample.counters 100 0 "control"; Sample.counters 100 50 "treatment"]
     = Ok (0%float, 0%nat,
           [mkVariantResult "control" 100 0 0 0;
            mkVariantResult "treatment" 100 50 0.5 0]).
Proof. split; vm_compute; reflexivity. Qed.

(** C4, amended: for every list of variants whose conversion rates are
    representable, the loop of [get_experiment_results] returns for each
    variant its rate (conversions / impressions, 0 without impressions)
    and its lift ((rate - controlRate) / controlRate * 100 when
    controlRate > 0, else 0).  The best variant is the control, with best
    lift 0, unless some variant that differs from the control has a
    strictly positive lift; in that case it is the first variant, in list
    order, among those that differ from the control, whose lift no other
    such variant exceeds. *)
Theorem best_variant_spec (control : Variant) (rest : list Variant) :
  let vs := control :: rest in
  Forall (fun v => exists r, conversion_rate v = Ok r) vs ->
  exists best_lift best_variant,
    analyse_variants vs = Ok (best_lift, best_variant, map (entry_of control) vs)
    /\ Forall (fun v =>
                 conversion_rate v = Ok (r_conversion_rate (entry_of control v))
                 /\ r_lift (entry_of control v)
                    = lift_formula (r_conversion_rate (entry_of control v))
                        (r_conversion_rate (entry_of control control))) vs
    /\ ((best_variant = 0%nat /\ best_lift = 0%float
         /\ forall k v, vs !! k = Some v ->
              differs_from_control k v control = true ->
              (0 <? lift_of control v)%float = false)
        \/ (exists v,
              vs !! best_variant = Some v
              /\ differs_from_control best_variant v control = true
              /\ best_lift = lift_of control v
              /\ (0 <? best_lift)%float = true
              /\ (forall k w, vs !! k = Some w ->
                    differs_from_control k w control = true ->
                    (best_lift <? lift_of control w)%float = false)
              /\ (forall k w, (k < best_variant)%nat -> vs !! k = Some w ->
                    differs_from_control k w control = true ->
                    (best_lift <=? lift_of control w)%float = false))).
Proof.
  intros vs Hall.
  assert (exists r, conversion_rate control = Ok r) as Hc
      by (inversion Hall; assumption).
  assert (Forall (fun v =>
                 conversion_rate v = Ok (r_conversion_rate (entry_of control v))
                 /\ r_lift (entry_of control v)
                    = lift_formula (r_conversion_rate (entry_of control v))
                        (r_conversion_rate (entry_of control control))) vs)
    as Hentries.
  { eapply Forall_impl; [exact Hall|]. simpl. intros v [r Hr].
    rewrite (rate_of_Ok _ _ Hr). split; [exact Hr|]. unfold lift_of.
    rewrite (rate_of_Ok _ _ Hr). reflexivity. }
  unfold analyse_variants. fold vs.
  destruct (0 <? rate_of control)%float eqn:Hpos.
  - destruct (results_loop_positive control vs Hc Hpos Hall 0%nat 0%float
                0%nat) as (bl & bv & Hloop & Hcase).
    exists bl, bv. split; [exact Hloop|]. split; [exact Hentries|].
    destruct Hcase as [(-> & -> & Hrest)
                      |(k & v & Hk & -> & -> & Hd & Hgt & Hmax & Hfirst)].
    + left. repeat split. exact Hrest.
    + right. exists v. simpl in *. repeat split; auto.
  - exists 0%float, 0%nat. split.
    + apply results_loop_no_control_rate; assumption.
    + split; [exact Hentries|]. left. repeat split.
      intros k v _ _. unfold lift_of, lift_formula. rewrite Hpos.
      apply ltb_irrefl.
Qed.

Lemma best_variant_spec_witness :
  let control := Sample.counters 1000 100 "control" in
  let vs :=
    [control; Sample.counters 1000 150 "b"; Sample.counters 1000 200 "c";
     Sample.counters 1000 200 "d"] in
  Forall (fun v => exists r, conversion_rate v = Ok r) vs
  /\ analyse_variants vs = Ok (100%float, 2%nat, map (entry_of control) vs)
  /\ exists best_lift best_variant,
       analyse_variants vs
       = Ok (best_lift, best_variant, map (entry_of control) vs)
       /\ (best_variant = 0%nat /\ best_lift = 0%float
           \/ exists v,
                vs !! best_variant = Some v
                /\ (0 <? best_lift)%float = true
                /\ (forall k w, (k < best_variant)%nat -> vs !! k = Some w ->
                      differs_from_control k w control = true ->
                      (best_lift <=? lift_of control w)%float = false)).
Proof.
  intros control vs.
  assert (Forall (fun v => exists r, conversion_rate v = Ok r) vs) as Hall.
  { repeat constructor; eexists; vm_compute; reflexivity. }
  split; [exact Hall|]. split; [vm_compute; reflexivity|].
  destruct (best_variant_spec control
              [Sample.counters 1000 150 "b"; Sample.counters 1000 200 "c";
               Sample.counters 1000 200 "d"] Hall)
    as (bl & bv & Hrun & _ & Hcase).
  exists bl, bv. split; [exact Hrun|].
  destruct Hcase as [(-> & -> & _)|(v & Hv & _ & _ & Hpos & _ & Hfirst)].
  - left. split; reflexivity.
  - right. exists v. repeat split; assumption.
Defined.

(** The scenario of the specification: a control at 10% and a treatment
    at 20%, 500 impressions each.  The treatment wins with a lift of 100
    and the capped confidence. *)
Example scenario_treatment_wins :
  compute_results "e1"
    (mkExperiment "e1" "e1" ""
       [Sample.counters 500 50 "control"; Sample.counters 500 100 "treatment"]
       RUNNING 0 (Some 1) None 1000 "default" ∅)
  = Ok (mkExperimentResult "e1" (Some "treatment") 99.9 100
          [mkVariantResult "control" 500 50 0.1 0;
           mkVariantResult "treatment" 500 100 0.2 100]
          true (Implement "treatment" 100 99.9)).
Proof. vm_compute. reflexivity. Qed.

(** ** Significance *)

(** C5, as stated, fails in two places.  Conversions are not bounded by
    impressions: with 300 conversions for 100 impressions in both arms the
    pooled proportion is 3, the product under the square root is negative
    and the function raises instead of answering.  And the function has
    one more guard, on a standard error of 0: with 10^200 impressions in
    each arm and 100 conversions in the control only, the pooled
    proportion is neither 0 nor 1, the product under the root underflows
    to 0 and the z of the formula is above 1.96, but the answer is not
    significant with confidence 0. *)
Lemma significance_outside_the_formula :
  _calculate_significance (Sample.counters 100 300 "control")
    (Sample.counters 100 300 "treatment")
  = Raise ValueError
  /\ Py.int_truediv (300 + 300) (100 + 100) = Ok 3%float
  /\ _calculate_significance (Sample.counters (10 ^ 200) 100 "control")
       (Sample.counters (10 ^ 200) 0 "treatment")
     = Ok (false, 0%float)
  /\ Py.int_truediv (100 + 0) (10 ^ 200 + 10 ^ 200) = Ok 5e-199%float
  /\ (5e-199 * (1 - 5e-199) * (1e-200 + 1e-200))%float = 0%float
  /\ (1.96 <=? z_formula 1e-198 0 5e-199 1e-200 1e-200)%float = true.
Proof. repeat split; vm_compute; reflexivity. Qed.

(** C5, amended: [_calculate_significance] answers not significant with
    confidence 0 when either arm has fewer than 100 impressions, and when
    the pooled proportion p is 0 or 1.  Otherwise, provided the product
    p (1 - p) (1/n_c + 1/n_b) is not negative, it answers not significant
    with confidence 0 when the square root of that product is 0, and
    else it is significant exactly when z is at least 1.96, with the
    confidence min(99.9, 50 + 25 z).  All the arithmetic is the float
    arithmetic of the code, and the rates and quotients are assumed
    representable. *)
Theorem calculate_significance_spec (control treatment : Variant) :
  let n1 := impressions control in
  let n2 := impressions treatment in
  (n1 < 100 \/ n2 < 100 ->
   _calculate_significance control treatment = Ok (false, 0%float))
  /\
  (forall p1 p2 p i1 i2,
     100 <= n1 -> 100 <= n2 ->
     conversion_rate control = Ok p1 ->
     conversion_rate treatment = Ok p2 ->
     Py.int_truediv (conversions control + conversions treatment) (n1 + n2)
     = Ok p ->
     Py.int_truediv 1 n1 = Ok i1 ->
     Py.int_truediv 1 n2 = Ok i2 ->
     let product := (p * (1 - p) * (i1 + i2))%float in
     let z := z_formula p1 p2 p i1 i2 in
     ((p =? 0)%float || (p =? 1)%float = true ->
      _calculate_significance control treatment = Ok (false, 0%float))
     /\
     ((p =? 0)%float || (p =? 1)%float = false ->
      (product <? 0)%float = false ->
      _calculate_significance control treatment
      = if (sqrt product =? 0)%float then Ok (false, 0%float)
        else Ok ((1.96 <=? z)%float, confidence_formula z))).
Proof.
  intros n1 n2. split.
  - intros Hlow. unfold _calculate_significance. fold n1 n2.
    assert ((n1 <? 100) || (n2 <? 100) = true) as ->; [|reflexivity].
    apply orb_true_iff. rewrite !Z.ltb_lt. exact Hlow.
  - intros p1 p2 p i1 i2 H1 H2 Hp1 Hp2 Hp Hi1 Hi2 product z.
    unfold _calculate_significance. fold n1 n2.
    assert ((n1 <? 100) || (n2 <? 100) = false) as ->.
    { apply orb_false_iff. rewrite !Z.ltb_ge. auto. }
    rewrite Hp1, Hp2. simpl. rewrite Hp. simpl. split.
    + intros ->. reflexivity.
    + intros -> Hnn. rewrite Hi1, Hi2. simpl.
      unfold Py.math_sqrt. fold product. rewrite Hnn. simpl.
      reflexivity.
Qed.

Lemma calculate_significance_spec_witness :
  _calculate_significance (Sample.counters 50 5 "control")
    (Sample.counters 50 6 "treatment")
  = Ok (false, 0%float)
  /\ _calculate_significance (Sample.counters 1000 0 "control")
       (Sample.counters 1000 0 "treatment")
     = Ok (false, 0%float)
  /\ _calculate_significance (Sample.counters 1000 100 "control")
       (Sample.counters 1000 150 "treatment")
     = Ok ((1.96 <=? z_formula 0.1 0.15 0.125 0.001 0.001)%float,
           confidence_formula (z_formula 0.1 0.15 0.125 0.001 0.001)).
Proof.
  split; [|split].
  - apply (calculate_significance_spec (Sample.counters 50 5 "control")
             (Sample.counters 50 6 "treatment")).
    left. simpl. lia.
  - destruct (proj2 (calculate_significance_spec
                       (Sample.counters 1000 0 "control")
                       (Sample.counters 1000 0 "treatment"))
                0%float 0%float 0%float 0.001%float 0.001%float)
      as [H _];
      [simpl; lia | simpl; lia | vm_compute; reflexivity .. | ].
    apply H. vm_compute. reflexivity.
  - destruct (proj2 (calculate_significance_spec
                       (Sample.counters 1000 100 "control")
                       (Sample.counters 1000 150 "treatment"))
                0.1%float 0.15%float 0.125%float 0.001%float 0.001%float)
      as [_ H];
      [simpl; lia | simpl; lia | vm_compute; reflexivity .. | ].
    rewrite H by (vm_compute; reflexivity). vm_compute. reflexivity.
Defined.

(** * Further properties of the service *)

(** ** Unknown experiments *)

(** X1: on an identifier that is not registered, [start_experiment],
    [stop_experiment], [delete_experiment] and [record_conversion] answer
    [False], [get_experiment_results] answers [None] and [get_variant]
    answers the default variant with an empty configuration; none of them
    changes the service, whatever the user, the clock and the draw. *)
Theorem unknown_experiment_is_inert (self : Service)
  (experiment_id user_id : string) (now : Z) (rnd : float) :
  _experiments self !! experiment_id = None ->
  start_experiment experiment_id now self = (false, self)
  /\ stop_experiment experiment_id now self = (false, self)
  /\ delete_experiment experiment_id self = (false, self)
  /\ record_conversion experiment_id user_id self = (false, self)
  /\ get_experiment_results experiment_id self = Ok None
  /\ get_variant experiment_id user_id rnd self
     = (Ok (default_variant self, ∅), self).
Proof.
  intros Hn.
  unfold start_experiment, stop_experiment, delete_experiment,
    record_conversion, get_experiment_results, get_variant.
  rewrite Hn. repeat split; try reflexivity.
  destruct (enabled self); reflexivity.
Qed.

Lemma unknown_experiment_is_inert_witness :
  _experiments (Sample.started 1) !! "missing" = None
  /\ record_conversion "missing" "user123" (Sample.started 1)
     = (false, Sample.started 1)
  /\ get_variant "missing" "user123" 0.25 (Sample.started 1)
     = (Ok ("control", ∅), Sample.started 1).
Proof.
  assert (_experiments (Sample.started 1) !! "missing" = None) as Hn
      by (vm_compute; reflexivity).
  destruct (unknown_experiment_is_inert (Sample.started 1) "missing"
              "user123" 0 0.25 Hn) as (_ & _ & _ & Hr & _ & Hg).
  split; [exact Hn|]. split; [exact Hr | exact Hg].
Defined.

(** ** Stopping *)

Lemma get_variant_idle (self : Service) (experiment_id user_id : string)
  (rnd : float) (experiment : Experiment) :
  _experiments self !! experiment_id = Some experiment ->
  bool_decide (status experiment = RUNNING) = false ->
  get_variant experiment_id user_id rnd self
  = (Ok (default_variant self, ∅), self).
Proof.
  intros He Hst. unfold get_variant. rewrite He, Hst.
  destruct (enabled self); reflexivity.
Qed.

(** X2: [stop_experiment] on a registered experiment, whatever its status,
    answers [True] and stores it as Completed with [ended_at] set to the
    time of the call; the variants with their counters, [started_at] and
    the assignments are kept.  From then on every [get_variant] on it
    answers the default variant and changes nothing, while a conversion of
    an already assigned user is still counted. *)
Theorem stop_experiment_freezes_assignment (self : Service)
  (experiment_id : string) (now : Z) (experiment : Experiment) :
  _experiments self !! experiment_id = Some experiment ->
  exists self' experiment',
    stop_experiment experiment_id now self = (true, self')
    /\ _experiments self' !! experiment_id = Some experiment'
    /\ status experiment' = COMPLETED
    /\ ended_at experiment' = Some now
    /\ variants experiment' = variants experiment
    /\ started_at experiment' = started_at experiment
    /\ _user_assignments self' = _user_assignments self
    /\ (forall user_id rnd,
          get_variant experiment_id user_id rnd self'
          = (Ok (default_variant self, ∅), self'))
    /\ (forall user_id,
          fst (record_conversion experiment_id user_id self')
          = fst (record_conversion experiment_id user_id self)).
Proof.
  intros He. unfold stop_experiment. rewrite He.
  eexists _, (set_completed now experiment). split; [reflexivity|].
  assert (_experiments
            (set_experiments
               (<[experiment_id := set_completed now experiment]>
                  (_experiments self)) self) !! experiment_id
          = Some (set_completed now experiment)) as Hl.
  { simpl. apply lookup_insert_eq. }
  split; [exact Hl|]. repeat split.
  - intros user_id rnd.
    apply (get_variant_idle _ _ _ _ _ Hl). reflexivity.
  - intros user_id. unfold record_conversion. rewrite Hl, He.
    unfold stored_assignment. simpl.
    destruct (_user_assignments self !! user_id ≫= _) as [vn|];
      [|reflexivity].
    destruct (find_by_name vn 0 (variants experiment)) as [[i v]|];
      reflexivity.
Qed.

Lemma stop_experiment_freezes_assignment_witness :
  exists self' experiment',
    stop_experiment "consistent_test" 2 (Sample.assigned 1) = (true, self')
    /\ _experiments self' !! "consistent_test" = Some experiment'
    /\ status experiment' = COMPLETED
    /\ ended_at experiment' = Some 2
    /\ get_variant "consistent_test" "user456" 0.25 self'
       = (Ok ("control", ∅), self')
    /\ fst (record_conversion "consistent_test" "user123" self') = true.
Proof.
  destruct (stop_experiment_freezes_assignment (Sample.assigned 1)
              "consistent_test" 2
              (mkExperiment "consistent_test" "Consistent Test" "Test"
                 [mkVariant "a" 0.5 ∅ 1 0; mkVariant "b" 0.5 ∅ 0 0]
                 RUNNING 0 (Some 1) None 1000 "default" ∅))
    as (s' & e' & H1 & H2 & H3 & H4 & _ & _ & _ & H5 & H6).
  - vm_compute. reflexivity.
  - exists s', e'. split; [exact H1|]. split; [exact H2|].
    split; [exact H3|]. split; [exact H4|]. split; [apply H5|].
    rewrite H6. vm_compute. reflexivity.
Defined.

(** ** Deleting *)

(** X3: [delete_experiment] on a registered experiment answers [True],
    removes it from the registry and removes its entry from the
    assignments of every user: afterwards no user has a stored assignment
    for it, a conversion for it is refused and [get_variant] answers the
    default variant.  The other experiments and the assignments to other
    experiments are untouched, and no user key is ever dropped from the
    assignment table, even when the user's assignments become empty. *)
Theorem delete_experiment_cascades (self : Service) (experiment_id : string)
  (experiment : Experiment) :
  _experiments self !! experiment_id = Some experiment ->
  exists self',
    delete_experiment experiment_id self = (true, self')
    /\ _experiments self' !! experiment_id = None
    /\ (forall other, other <> experiment_id ->
          _experiments self' !! other = _experiments self !! other)
    /\ (forall user_id, stored_assignment self' user_id experiment_id = None)
    /\ (forall user_id other, other <> experiment_id ->
          stored_assignment self' user_id other
          = stored_assignment self user_id other)
    /\ dom (_user_assignments self') = dom (_user_assignments self)
    /\ (forall user_id rnd,
          record_conversion experiment_id user_id self' = (false, self')
          /\ get_variant experiment_id user_id rnd self'
             = (Ok (default_variant self, ∅), self')).
Proof.
  intros He. unfold delete_experiment. rewrite He.
  eexists. split; [reflexivity|]. simpl.
  assert (forall user_id other,
            stored_assignment
              (mkService (enabled self) (default_variant self)
                 (sample_rate self) (delete experiment_id (_experiments self))
                 (delete experiment_id <$> _user_assignments self))
              user_id other
            = if decide (other = experiment_id) then None
              else stored_assignment self user_id other) as Hst.
  { intros user_id other. unfold stored_assignment. simpl.
    rewrite lookup_fmap.
    destruct (_user_assignments self !! user_id) as [a|]; simpl.
    - destruct (decide (other = experiment_id)) as [->|Hne].
      + apply lookup_delete_eq.
      + apply lookup_delete_ne. auto.
    - destruct (decide (other = experiment_id)); reflexivity. }
  split; [apply lookup_delete_eq|]. split.
  { intros other Hne. apply lookup_delete_ne. auto. }
  split.
  { intros user_id. rewrite Hst. rewrite decide_True by reflexivity.
    reflexivity. }
  split.
  { intros user_id other Hne. rewrite Hst. rewrite decide_False by exact Hne.
    reflexivity. }
  split; [apply dom_fmap_L|].
  intros user_id rnd.
  unfold record_conversion, get_variant. simpl.
  rewrite lookup_delete_eq. split; [reflexivity|].
  destruct (enabled self); reflexivity.
Qed.

Lemma delete_experiment_cascades_witness :
  stored_assignment (Sample.assigned 1) "user123" "consistent_test"
  = Some "a"
  /\ exists self',
       delete_experiment "consistent_test" (Sample.assigned 1) = (true, self')
       /\ stored_assignment self' "user123" "consistent_test" = None
       /\ dom (_user_assignments self')
          = dom (_user_assignments (Sample.assigned 1)).
Proof.
  split; [vm_compute; reflexivity|].
  destruct (delete_experiment_cascades (Sample.assigned 1) "consistent_test"
              (mkExperiment "consistent_test" "Consistent Test" "Test"
                 [mkVariant "a" 0.5 ∅ 1 0; mkVariant "b" 0.5 ∅ 0 0]
                 RUNNING 0 (Some 1) None 1000 "default" ∅))
    as (s' & H1 & _ & _ & H2 & _ & H3 & _).
  - vm_compute. reflexivity.
  - exists s'. split; [exact H1|]. split; [apply H2 | exact H3].
Defined.

(** X4: creating an experiment under an identifier that is neither
    registered nor mentioned in any user's assignments, and deleting it
    again, gives back exactly the service one started from. *)
Theorem create_then_delete_restores (experiment_id title text : string)
  (vs : list VariantDict) (target_sample_size : Z) (target_feature : string)
  (now : Z) (self : Service) :
  (Py.sum (map get_weight vs) =? 0)%float = false ->
  _experiments self !! experiment_id = None ->
  (forall user_id, stored_assignment self user_id experiment_id = None) ->
  delete_experiment experiment_id
    (create_experiment experiment_id title text vs target_sample_size
       target_feature now self).2
  = (true, self).
Proof.
  intros Hz Hfresh Hnone.
  rewrite create_experiment_nonzero by exact Hz. simpl.
  unfold delete_experiment. simpl. rewrite lookup_insert_eq.
  destruct self as [en dv sr exps ua]. simpl in *. f_equal. f_equal.
  - rewrite delete_insert_eq. apply delete_id. exact Hfresh.
  - apply map_eq. intros u. rewrite lookup_fmap.
    specialize (Hnone u). unfold stored_assignment in Hnone. simpl in Hnone.
    destruct (ua !! u) as [a|]; simpl in *; [|reflexivity].
    f_equal. apply delete_id. exact Hnone.
Qed.

Lemma create_then_delete_restores_witness :
  delete_experiment "weight_test"
    (create_experiment "weight_test" "Weight Test" "Test"
       (Sample.two_variants 2 2) 1000 "default" 0 (Sample.assigned 1)).2
  = (true, Sample.assigned 1).
Proof.
  apply create_then_delete_restores.
  - vm_compute. reflexivity.
  - vm_compute. reflexivity.
  - intros user_id. unfold stored_assignment.
    destruct (_user_assignments (Sample.assigned 1) !! user_id) as [a|] eqn:E;
      [|reflexivity].
    simpl.
    assert (_user_assignments (Sample.assigned 1)
            = {[ "user123" := {[ "consistent_test" := "a" ]} ]}) as Hua
        by (vm_compute; reflexivity).
    rewrite Hua in E. apply lookup_singleton_Some in E as [_ <-].
    vm_compute. reflexivity.
Defined.

(** ** Creating over an existing identifier *)

(** X5: [create_experiment] does not look at the registry or at the
    assignments.  Creating an experiment under an identifier for which a
    user still has a stored assignment keeps that assignment: once the new
    experiment is started, the user is served the stored variant name as
    long as one of the new variants carries it, whatever the hash and the
    draw, and no impression is counted for it (all counters of the new
    experiment are still zero). *)
Theorem recreate_keeps_assignment (experiment_id title text : string)
  (vs : list VariantDict) (target_sample_size : Z) (target_feature : string)
  (now now' : Z) (self : Service) (user_id variant_name : string)
  (rnd : float) :
  enabled self = true ->
  (Py.sum (map get_weight vs) =? 0)%float = false ->
  stored_assignment self user_id experiment_id = Some variant_name ->
  (exists d, d ∈ vs /\ d_name d = variant_name) ->
  let self1 :=
    (create_experiment experiment_id title text vs target_sample_size
       target_feature now self).2 in
  let self2 := (start_experiment experiment_id now' self1).2 in
  counters_of self2 experiment_id = Some (map (fun _ => (0, 0)) vs)
  /\ exists c,
       get_variant experiment_id user_id rnd self2
       = (Ok (variant_name, c), self2).
Proof.
  intros Hen Hz Hst (d & Hd & Hn) self1 self2.
  set (total := Py.sum (map get_weight vs)).
  set (e2 := set_running now'
               (mkExperiment experiment_id title text
                  (map (normalised total) vs) DRAFT now None None
                  target_sample_size target_feature ∅)).
  assert (self2
          = set_experiments
              (<[experiment_id := e2]>
                 (<[experiment_id :=
                      mkExperiment experiment_id title text
                        (map (normalised total) vs) DRAFT now None None
                        target_sample_size target_feature ∅]>
                    (_experiments self))) self) as Hs2.
  { unfold self2, self1. rewrite create_experiment_nonzero by exact Hz.
    unfold start_experiment. simpl. rewrite lookup_insert_eq. reflexivity. }
  assert (_experiments self2 !! experiment_id = Some e2) as He2.
  { rewrite Hs2. simpl. apply lookup_insert_eq. }
  split.
  - unfold counters_of. rewrite He2. simpl. rewrite map_map. reflexivity.
  - destruct (find_by_name_is_Some variant_name (variants e2)
                (normalised total d)) as (j & w & Hf).
    + simpl. apply list_elem_of_fmap. eauto.
    + exact Hn.
    + exists (config w).
      apply (get_variant_stored self2 experiment_id user_id rnd e2
               variant_name j w); auto.
      * rewrite Hs2. exact Hen.
      * rewrite Hs2. exact Hst.
Qed.

Lemma recreate_keeps_assignment_witness :
  let self2 :=
    (start_experiment "consistent_test" 8
       (create_experiment "consistent_test" "Again" ""
          [mkVariantDict "b" (Some 1%float) None;
           mkVariantDict "a" (Some 0%float) None] 1000 "default" 7
          (Sample.assigned 1)).2).2 in
  counters_of self2 "consistent_test" = Some [(0, 0); (0, 0)]
  /\ exists c,
       get_variant "consistent_test" "user123" 0.25 self2
       = (Ok ("a", c), self2).
Proof.
  apply (recreate_keeps_assignment "consistent_test" "Again" ""
           [mkVariantDict "b" (Some 1%float) None;
            mkVariantDict "a" (Some 0%float) None] 1000 "default" 7 8
           (Sample.assigned 1) "user123" "a" 0.25).
  - reflexivity.
  - vm_compute. reflexivity.
  - vm_compute. reflexivity.
  - exists (mkVariantDict "a" (Some 0%float) None). split; [|reflexivity].
    right. left.
Defined.

(** ** The allocation of a variant *)

Lemma SFcompare_Eq_l (a b c : spec_float) :
  SFcompare a b = Some Eq -> SFcompare a c = SFcompare b c.
Proof.
  destruct a as [[]|[]| |[] ma ea], b as [[]|[]| |[] mb eb]; simpl;
    intros H; try discriminate; try reflexivity;
    destruct (Z.compare_spec ea eb); try discriminate;
    change (Pos.compare_cont Eq ma mb) with (Pos.compare ma mb) in H;
    destruct (Pos.compare_spec ma mb); try discriminate;
    subst; reflexivity.
Qed.

Lemma SFcompare_le_trans (a b c : spec_float) :
  SFcompare a b = Some Lt \/ SFcompare a b = Some Eq ->
  SFcompare b c = Some Lt \/ SFcompare b c = Some Eq ->
  SFcompare a c = Some Lt \/ SFcompare a c = Some Eq.
Proof.
  intros [H1|H1] H2.
  - left. eapply SFcompare_lt_le_trans; eauto.
  - rewrite (SFcompare_Eq_l a b c H1). exact H2.
Qed.

Lemma leb_trans (x y z : float) :
  (x <=? y)%float = true -> (y <=? z)%float = true ->
  (x <=? z)%float = true.
Proof.
  rewrite !leb_spec. unfold SFleb. intros H1 H2.
  destruct (SFcompare_le_trans (Prim2SF x) (Prim2SF y) (Prim2SF z))
    as [-> | ->]; trivial.
  - destruct (SFcompare (Prim2SF x) (Prim2SF y)) as [[]|]; auto;
      discriminate.
  - destruct (SFcompare (Prim2SF y) (Prim2SF z)) as [[]|]; auto;
      discriminate.
Qed.

Lemma select_by_weight_spec (normalized : float) (vs : list Variant)
  (cumulative : float) (i : nat) :
  match select_by_weight normalized cumulative i vs with
  | Some j =>
      (i <= j)%nat
      /\ (exists c, running_sums cumulative vs !! (j - i)%nat = Some c
                    /\ (normalized <=? c)%float = true)
      /\ forall k c, (k < j - i)%nat ->
           running_sums cumulative vs !! k = Some c ->
           (normalized <=? c)%float = false
  | None =>
      forall k c, running_sums cumulative vs !! k = Some c ->
                  (normalized <=? c)%float = false
  end.
Proof.
  revert cumulative i. induction vs as [|v vs IH]; intros c0 i; simpl.
  - intros k c Hk. rewrite lookup_nil in Hk. discriminate.
  - destruct (normalized <=? c0 + weight v)%float eqn:Hle.
    + split; [lia|]. rewrite Nat.sub_diag. split; [eauto|].
      intros k c Hk. lia.
    + specialize (IH (c0 + weight v)%float (S i)).
      destruct (select_by_weight normalized (c0 + weight v) (S i) vs)
        as [j|].
      * destruct IH as (Hij & (c & Hc & Hn) & Hfirst).
        replace (j - i)%nat with (S (j - S i)) by lia.
        split; [lia|]. split; [eauto|].
        intros [|k] c' Hk Hl; simpl in Hl.
        -- injection Hl as <-. exact Hle.
        -- apply (Hfirst k c'); [lia | exact Hl].
      * intros [|k] c' Hl; simpl in Hl.
        -- injection Hl as <-. exact Hle.
        -- apply (IH k c' Hl).
Qed.

(** X6: [_assign_variant] raises [IndexError] exactly when the experiment
    has no variant.  Otherwise it returns the first position, in list
    order, at which the running sum of the weights reaches the user's
    bucket; when no running sum reaches the bucket (weights that sum to
    less than the bucket, or a NaN) it returns the last position. *)
Theorem _assign_variant_rule (experiment : Experiment) (user_id : string) :
  let b := bucket user_id (e_id experiment) in
  let sums := running_sums 0 (variants experiment) in
  match _assign_variant experiment user_id with
  | Raise e => e = IndexError /\ variants experiment = []
  | Ok j =>
      (exists c, sums !! j = Some c /\ (b <=? c)%float = true
                 /\ forall k c', (k < j)%nat -> sums !! k = Some c' ->
                                 (b <=? c')%float = false)
      \/ (S j = length (variants experiment)
          /\ forall k c', sums !! k = Some c' -> (b <=? c')%float = false)
  end.
Proof.
  intros b sums. unfold _assign_variant. fold b.
  pose proof (select_by_weight_spec b (variants experiment) 0 0) as H.
  destruct (select_by_weight b 0 0 (variants experiment)) as [j|].
  - rewrite Nat.sub_0_r in H. destruct H as (_ & (c & Hc & Hle) & Hfirst).
    left. exists c. auto.
  - destruct (variants experiment) as [|v vs] eqn:Hv.
    + auto.
    + right. split; [simpl; lia | exact H].
Qed.

Lemma bucket_table :
  forallb
    (fun k =>
       let b := (Py.float_of_int (Z.of_nat k) / 10000)%float in
       (0 <=? b)%float && (b <=? 0.9999)%float)
    (seq 0 (Z.to_nat 10000))
  = true.
Proof. vm_compute. reflexivity. Qed.

Lemma bucket_bounds (user_id exp_id : string) :
  (0 <=? bucket user_id exp_id)%float = true
  /\ (bucket user_id exp_id <=? 0.9999)%float = true.
Proof.
  unfold bucket.
  set (r := MD5.hexdigest_int (user_id +:+ ":" +:+ exp_id) mod 10000).
  assert (0 <= r < 10000) as Hr by (apply Z.mod_pos_bound; lia).
  pose proof bucket_table as H. rewrite forallb_forall in H.
  specialize (H (Z.to_nat r)). rewrite Z2Nat.id in H by lia.
  apply andb_true_iff. apply H. apply in_seq. lia.
Qed.

(** X7: the bucket of every pair of identifiers lies between 0 and 0.9999
    (it is a multiple of 1/10000 below 1).  Hence, as soon as some running
    sum of the weights is at least 0.9999, the fallback to the last variant
    is never taken: the position returned is one whose running sum reaches
    the bucket. *)
Theorem bucket_never_needs_fallback (experiment : Experiment)
  (user_id : string) (k : nat) (c : float) :
  running_sums 0 (variants experiment) !! k = Some c ->
  (0.9999 <=? c)%float = true ->
  (0 <=? bucket user_id (e_id experiment))%float = true
  /\ (bucket user_id (e_id experiment) <=? 0.9999)%float = true
  /\ exists j c',
       _assign_variant experiment user_id = Ok j
       /\ (j <= k)%nat
       /\ running_sums 0 (variants experiment) !! j = Some c'
       /\ (bucket user_id (e_id experiment) <=? c')%float = true.
Proof.
  intros Hk Hc.
  destruct (bucket_bounds user_id (e_id experiment)) as [Hlo Hhi].
  split; [exact Hlo|]. split; [exact Hhi|].
  assert ((bucket user_id (e_id experiment) <=? c)%float = true) as Hreach
      by (eapply leb_trans; eauto).
  unfold _assign_variant.
  pose proof (select_by_weight_spec (bucket user_id (e_id experiment))
                (variants experiment) 0 0) as H.
  destruct (select_by_weight _ 0 0 (variants experiment)) as [j|].
  - rewrite Nat.sub_0_r in H. destruct H as (_ & (c' & Hc' & Hle) & Hfirst).
    exists j, c'. repeat split; auto.
    destruct (le_lt_dec j k) as [Hjk|Hjk]; [exact Hjk|].
    rewrite (Hfirst k c Hjk Hk) in Hreach. discriminate.
  - rewrite (H k c Hk) in Hreach. discriminate.
Qed.

Lemma bucket_never_needs_fallback_witness :
  exists j c',
    _assign_variant
      (mkExperiment "consistent_test" "Consistent Test" "Test"
         [mkVariant "a" 0.5 ∅ 0 0; mkVariant "b" 0.5 ∅ 0 0]
         RUNNING 0 (Some 1) None 1000 "default" ∅) "user123" = Ok j
    /\ (j <= 1)%nat
    /\ running_sums 0 [mkVariant "a" 0.5 ∅ 0 0; mkVariant "b" 0.5 ∅ 0 0]
         !! j = Some c'
    /\ (bucket "user123" "consistent_test" <=? c')%float = true.
Proof.
  apply (bucket_never_needs_fallback
           (mkExperiment "consistent_test" "Consistent Test" "Test"
              [mkVariant "a" 0.5 ∅ 0 0; mkVariant "b" 0.5 ∅ 0 0]
              RUNNING 0 (Some 1) None 1000 "default" ∅) "user123" 1 1).
  - reflexivity.
  - reflexivity.
Defined.

(** X8: the comparison with the running sum is not strict, so a user whose
    hash residue is 0 (bucket 0.0) is always given the first variant, as
    long as its weight is not negative and not a NaN, even when that weight
    is 0. *)
Theorem zero_bucket_takes_first_variant (experiment : Experiment)
  (user_id : string) (first : Variant) (rest : list Variant) :
  variants experiment = first :: rest ->
  MD5.hexdigest_int (user_id +:+ ":" +:+ e_id experiment) mod 10000 = 0 ->
  (0 <=? 0 + weight first)%float = true ->
  _assign_variant experiment user_id = Ok 0%nat.
Proof.
  intros Hv Hr Hw. unfold _assign_variant, bucket. rewrite Hr, Hv. simpl.
  change (Py.float_of_int 0 / 10000)%float with 0%float.
  rewrite Hw. reflexivity.
Qed.

Lemma zero_bucket_takes_first_variant_witness :
  _assign_variant
    (mkExperiment "consistent_test" "Consistent Test" "Test"
       [mkVariant "a" 0 ∅ 0 0; mkVariant "b" 1 ∅ 0 0]
       RUNNING 0 (Some 1) None 1000 "default" ∅) "user_22045" = Ok 0%nat.
Proof.
  apply (zero_bucket_takes_first_variant _ "user_22045"
           (mkVariant "a" 0 ∅ 0 0) [mkVariant "b" 1 ∅ 0 0]).
  - reflexivity.
  - vm_compute. reflexivity.
  - reflexivity.
Defined.

(** ** Counters *)

Lemma Forall2_alter_rel {A : Type} (P : A -> A -> Prop) (f : A -> A)
  (l : list A) (i : nat) :
  (forall x, P x x) -> (forall x, P x (f x)) -> Forall2 P l (alter f i l).
Proof.
  intros Hrefl Hf. revert i. induction l as [|x l IH]; intros i.
  - constructor.
  - destruct i as [|i]; simpl.
    + constructor; [apply Hf|]. clear IH. induction l; constructor; auto.
    + constructor; [apply Hrefl | apply IH].
Qed.

Lemma counters_of_update_variant_le (self : Service)
  (experiment_id k : string) (experiment : Experiment) (i : nat)
  (f : Variant -> Variant) (cs : list (Z * Z)) :
  _experiments self !! experiment_id = Some experiment ->
  (forall v, counters_le (impressions v, conversions v)
               (impressions (f v), conversions (f v))) ->
  counters_of self k = Some cs ->
  exists cs',
    counters_of (update_variant experiment_id experiment i f self) k
    = Some cs'
    /\ Forall2 counters_le cs cs'.
Proof.
  intros He Hf Hcs. unfold counters_of, update_variant in *. simpl.
  destruct (decide (k = experiment_id)) as [->|Hk].
  - rewrite lookup_insert_eq. rewrite He in Hcs. simpl in *.
    injection Hcs as <-. eexists. split; [reflexivity|].
    apply Forall2_fmap.
    apply (Forall2_alter_rel
             (fun x y => counters_le (impressions x, conversions x)
                           (impressions y, conversions y))); auto.
    intros x. split; simpl; lia.
  - rewrite lookup_insert_ne by auto. exists cs. split; [exact Hcs|].
    clear. induction cs; constructor; auto. split; lia.
Qed.

Lemma counters_of_same_variants (self : Service) (experiment_id k : string)
  (experiment experiment' : Experiment) :
  _experiments self !! experiment_id = Some experiment ->
  variants experiment' = variants experiment ->
  counters_of
    (set_experiments (<[experiment_id := experiment']> (_experiments self))
       self) k
  = counters_of self k.
Proof.
  intros He Hv. unfold counters_of. simpl.
  destruct (decide (k = experiment_id)) as [->|Hk].
  - rewrite lookup_insert_eq, He. simpl. rewrite Hv. reflexivity.
  - rewrite lookup_insert_ne by auto. reflexivity.
Qed.

Lemma Forall2_counters_le_refl (cs : list (Z * Z)) :
  Forall2 counters_le cs cs.
Proof. induction cs; constructor; auto. split; lia. Qed.

Lemma Forall2_counters_le_trans (a b c : list (Z * Z)) :
  Forall2 counters_le a b -> Forall2 counters_le b c ->
  Forall2 counters_le a c.
Proof.
  intros H. revert c. induction H as [|x y a b [H1 H2] _ IH]; intros c Hc;
    inversion Hc as [|? z ? c' [H3 H4] Hrest]; subst; constructor.
  - split; lia.
  - apply IH. exact Hrest.
Qed.

Lemma counters_of_run_op (self : Service) (op : Op) (k : string)
  (cs : list (Z * Z)) :
  counters_of self k = Some cs ->
  exists cs',
    counters_of (run_op self op) k = Some cs' /\ Forall2 counters_le cs cs'.
Proof.
  intros Hcs.
  assert (exists cs', counters_of self k = Some cs'
                      /\ Forall2 counters_le cs cs') as Hsame
      by (exists cs; split; [exact Hcs | apply Forall2_counters_le_refl]).
  destruct op as [eid now|eid now|eid uid rnd|eid uid|eid]; simpl.
  - unfold start_experiment.
    destruct (_experiments self !! eid) as [e|] eqn:He; [|exact Hsame].
    simpl. rewrite (counters_of_same_variants self eid k e) by auto.
    exact Hsame.
  - unfold stop_experiment.
    destruct (_experiments self !! eid) as [e|] eqn:He; [|exact Hsame].
    simpl. rewrite (counters_of_same_variants self eid k e) by auto.
    exact Hsame.
  - unfold get_variant.
    destruct (enabled self); simpl; [|exact Hsame].
    destruct (_experiments self !! eid) as [e|] eqn:He; [|exact Hsame].
    destruct (negb (bool_decide (status e = RUNNING))); [exact Hsame|].
    destruct (_ ≫= _) as [[j v]|]; [exact Hsame|].
    destruct (sample_rate self <? rnd)%float; [exact Hsame|].
    destruct (_assign_variant e uid) as [i|]; [|exact Hsame].
    destruct (variants e !! i) as [v|]; [|exact Hsame].
    simpl.
    apply (counters_of_update_variant_le
             (store_assignment uid eid (name v) self)); auto.
    intros x. split; simpl; lia.
  - unfold record_conversion.
    destruct (_experiments self !! eid) as [e|] eqn:He; [|exact Hsame].
    destruct (stored_assignment self uid eid) as [vn|]; [|exact Hsame].
    destruct (find_by_name vn 0 (variants e)) as [[i v]|]; [|exact Hsame].
    simpl. apply counters_of_update_variant_le; auto.
    intros x. split; simpl; lia.
  - exact Hsame.
Qed.

(** X9: both counters are monotonic.  Along any sequence of engine
    operations (start, stop, assign, record a conversion, compute results)
    a registered experiment stays registered with the same number of
    variants, and no impression or conversion counter of any of its
    variants ever decreases. *)
Theorem counters_never_decrease (ops : list Op) (self : Service)
  (experiment_id : string) (cs : list (Z * Z)) :
  counters_of self experiment_id = Some cs ->
  exists cs',
    counters_of (run_ops ops self) experiment_id = Some cs'
    /\ length cs' = length cs
    /\ Forall2 counters_le cs cs'.
Proof.
  unfold run_ops. revert self cs.
  induction ops as [|op ops IH]; intros self cs Hcs; simpl.
  - exists cs. split; [exact Hcs|]. split; [reflexivity|].
    apply Forall2_counters_le_refl.
  - destruct (counters_of_run_op self op experiment_id cs Hcs)
      as (cs1 & H1 & Hle1).
    destruct (IH _ _ H1) as (cs' & H2 & Hlen & Hle2).
    exists cs'. split; [exact H2|]. split.
    + rewrite Hlen. symmetry. eapply Forall2_length; eauto.
    + eapply Forall2_counters_le_trans; eauto.
Qed.

Lemma counters_never_decrease_witness :
  exists cs',
    counters_of
      (run_ops [OpAssign "consistent_test" "user456" 0.25;
                OpRecordConversion "consistent_test" "user123";
                OpStop "consistent_test" 2;
                OpRecordConversion "consistent_test" "user123"]
         (Sample.assigned 1)) "consistent_test" = Some cs'
    /\ length cs' = 2%nat
    /\ Forall2 counters_le [(1, 0); (0, 0)] cs'.
Proof.
  apply (counters_never_decrease _ (Sample.assigned 1) "consistent_test"
           [(1, 0); (0, 0)]).
  vm_compute. reflexivity.
Defined.

(** ** Repeated conversions *)

Lemma find_by_name_alter (vn : string) (f : Variant -> Variant)
  (vs : list Variant) (k i : nat) (v : Variant) :
  (forall x, name (f x) = name x) ->
  find_by_name vn k vs = Some (i, v) ->
  find_by_name vn k (alter f (i - k)%nat vs) = Some (i, f v).
Proof.
  intros Hf. revert k. induction vs as [|x vs IH]; intros k H; simpl in H.
  - discriminate.
  - case_bool_decide as Hn.
    + injection H as <- <-. rewrite Nat.sub_diag. simpl.
      rewrite Hf. rewrite bool_decide_eq_true_2 by exact Hn. reflexivity.
    + pose proof (find_by_name_Some _ _ _ _ _ H) as (Hle & _).
      replace (i - k)%nat with (S (i - S k)) by lia. simpl.
      rewrite bool_decide_eq_false_2 by exact Hn. apply IH. exact H.
Qed.

Lemma record_conversion_repeat_spec (n : nat) (experiment_id user_id : string)
  (variant_name : string) (i : nat) :
  forall (self : Service) (experiment : Experiment) (v : Variant),
    _experiments self !! experiment_id = Some experiment ->
    stored_assignment self user_id experiment_id = Some variant_name ->
    find_by_name variant_name 0 (variants experiment) = Some (i, v) ->
    (record_conversion_repeat n experiment_id user_id self).1
    = repeat true n
    /\ exists experiment',
         _experiments
           (record_conversion_repeat n experiment_id user_id self).2
           !! experiment_id = Some experiment'
         /\ variants experiment'
            = <[i := set_conversions (conversions v + Z.of_nat n) v]>
                (variants experiment).
Proof.
  induction n as [|n IH]; intros self e v He Hst Hf.
  - simpl. split; [reflexivity|]. exists e. split; [exact He|].
    rewrite Z.add_0_r. symmetry. apply list_insert_id.
    apply find_by_name_Some in Hf as (_ & Hl & _).
    rewrite Nat.sub_0_r in Hl. destruct v. exact Hl.
  - set (f := fun v => set_conversions (conversions v + 1) v).
    set (e1 := set_variants (alter f i (variants e)) e).
    set (self1 := update_variant experiment_id e i f self).
    assert (record_conversion experiment_id user_id self = (true, self1))
      as Hstep.
    { unfold record_conversion. rewrite He, Hst, Hf. reflexivity. }
    assert (_experiments self1 !! experiment_id = Some e1) as He1.
    { unfold self1, update_variant. simpl. apply lookup_insert_eq. }
    assert (find_by_name variant_name 0 (variants e1) = Some (i, f v))
      as Hf1.
    { pose proof (find_by_name_alter variant_name f (variants e) 0 i v) as H.
      rewrite Nat.sub_0_r in H. apply H; auto. }
    destruct (IH self1 e1 (f v) He1 Hst Hf1) as (Hout & e' & He' & Hv').
    simpl. rewrite Hstep.
    destruct (record_conversion_repeat n experiment_id user_id self1)
      as [bs s2] eqn:E. simpl in *.
    split; [f_equal; exact Hout|]. exists e'. split; [exact He'|].
    rewrite Hv'. apply find_by_name_Some in Hf as (_ & Hl & _).
    rewrite Nat.sub_0_r in Hl.
    apply list_eq. intros k. destruct (decide (k = i)) as [->|Hk].
    + rewrite !list_lookup_insert_eq.
      * f_equal. unfold f, set_conversions. simpl. f_equal. lia.
      * eapply lookup_lt_Some; eauto.
      * rewrite length_alter. eapply lookup_lt_Some; eauto.
    + rewrite !list_lookup_insert_ne by auto.
      apply list_lookup_alter_ne. auto.
Qed.

(** X10: conversions are not deduplicated.  For a user whose stored
    assignment names a variant of the experiment, n calls of
    [record_conversion] all answer [True] and raise the conversion counter
    of that variant by n, leaving its impressions and every other variant
    as they were; so the conversions of a variant can exceed its
    impressions. *)
Theorem conversions_are_not_deduplicated (n : nat) (self : Service)
  (experiment_id user_id variant_name : string) (experiment : Experiment)
  (i : nat) (v : Variant) :
  _experiments self !! experiment_id = Some experiment ->
  stored_assignment self user_id experiment_id = Some variant_name ->
  find_by_name variant_name 0 (variants experiment) = Some (i, v) ->
  (record_conversion_repeat n experiment_id user_id self).1 = repeat true n
  /\ counters_of (record_conversion_repeat n experiment_id user_id self).2
       experiment_id
     = Some (<[i := (impressions v, conversions v + Z.of_nat n)]>
               (map (fun v => (impressions v, conversions v))
                  (variants experiment))).
Proof.
  intros He Hst Hf.
  destruct (record_conversion_repeat_spec n experiment_id user_id
              variant_name i self experiment v He Hst Hf)
    as (Hout & e' & He' & Hv').
  split; [exact Hout|]. unfold counters_of. rewrite He'. simpl.
  rewrite Hv', list_fmap_insert. reflexivity.
Qed.

Lemma conversions_are_not_deduplicated_witness :
  counters_of (Sample.assigned 1) "consistent_test" = Some [(1, 0); (0, 0)]
  /\ counters_of
       (record_conversion_repeat 3 "consistent_test" "user123"
          (Sample.assigned 1)).2 "consistent_test"
     = Some [(1, 3); (0, 0)].
Proof.
  split; [vm_compute; reflexivity|].
  apply (conversions_are_not_deduplicated 3 (Sample.assigned 1)
           "consistent_test" "user123" "a"
           (mkExperiment "consistent_test" "Consistent Test" "Test"
              [mkVariant "a" 0.5 ∅ 1 0; mkVariant "b" 0.5 ∅ 0 0]
              RUNNING 0 (Some 1) None 1000 "default" ∅)
           0%nat (mkVariant "a" 0.5 ∅ 1 0)).
  - vm_compute. reflexivity.
  - vm_compute. reflexivity.
  - reflexivity.
Defined.

(** ** Assignment, then conversion *)

(** X11: a conversion is accepted exactly after an assignment.  On an
    enabled service, for a Running experiment with at least one variant
    and a user without stored assignment, [record_conversion] answers
    [False] before the call of [get_variant]; after a call that passes the
    sampling gate it answers [True], and after a call that the gate
    excludes it still answers [False]. *)
Theorem conversion_follows_assignment (self : Service)
  (experiment_id user_id : string) (experiment : Experiment) (rnd : float) :
  enabled self = true ->
  _experiments self !! experiment_id = Some experiment ->
  status experiment = RUNNING ->
  variants experiment <> [] ->
  stored_assignment self user_id experiment_id = None ->
  (record_conversion experiment_id user_id self).1 = false
  /\ (record_conversion experiment_id user_id
        (get_variant experiment_id user_id rnd self).2).1
     = negb (sample_rate self <? rnd)%float.
Proof.
  intros Hen He Hst Hne Hno. split.
  - unfold record_conversion. rewrite He, Hno. reflexivity.
  - destruct (sample_rate self <? rnd)%float eqn:Hgate.
    + rewrite (get_variant_excluded self _ _ _ experiment) by assumption.
      simpl. unfold record_conversion. rewrite He, Hno. reflexivity.
    + destruct (_assign_variant_in_range experiment user_id Hne)
        as (i & v & Hi & Hv).
      rewrite (get_variant_included self _ _ _ experiment i v)
        by assumption.
      simpl.
      set (self1 :=
             after_assignment self experiment_id user_id experiment i v).
      set (f := fun v => set_impressions (impressions v + 1) v).
      assert (_experiments self1 !! experiment_id
              = Some (set_variants (alter f i (variants experiment))
                        experiment)) as He1.
      { unfold self1, after_assignment, update_variant. simpl.
        apply lookup_insert_eq. }
      assert (stored_assignment self1 user_id experiment_id
              = Some (name v)) as Hs1.
      { unfold self1, after_assignment, update_variant.
        apply stored_assignment_store. }
      assert (is_Some (find_by_name (name v) 0
                         (alter f i (variants experiment)))) as [[j w] Hf].
      { eapply find_by_name_map_name;
          [symmetry; apply (name_alter_impressions _ i)|].
        destruct (find_by_name_is_Some (name v) (variants experiment) v)
          as (j & w & ->); eauto.
        eapply list_elem_of_lookup_2; eauto. }
      unfold record_conversion. rewrite He1, Hs1. simpl. rewrite Hf.
      reflexivity.
Qed.

Lemma conversion_follows_assignment_witness :
  (record_conversion "consistent_test" "user123" (Sample.started 0.5)).1
  = false
  /\ (record_conversion "consistent_test" "user123"
        (get_variant "consistent_test" "user123" 0.25
           (Sample.started 0.5)).2).1 = true
  /\ (record_conversion "consistent_test" "user123"
        (get_variant "consistent_test" "user123" 0.75
           (Sample.started 0.5)).2).1 = false.
Proof.
  pose proof (fun rnd =>
                conversion_follows_assignment (Sample.started 0.5)
                  "consistent_test" "user123"
                  (mkExperiment "consistent_test" "Consistent Test" "Test"
                     [mkVariant "a" 0.5 ∅ 0 0; mkVariant "b" 0.5 ∅ 0 0]
                     RUNNING 0 (Some 1) None 1000 "default" ∅) rnd
                  eq_refl) as H.
  assert (_experiments (Sample.started 0.5) !! "consistent_test"
          = Some (mkExperiment "consistent_test" "Consistent Test" "Test"
                    [mkVariant "a" 0.5 ∅ 0 0; mkVariant "b" 0.5 ∅ 0 0]
                    RUNNING 0 (Some 1) None 1000 "default" ∅)) as He
      by (vm_compute; reflexivity).
  assert (stored_assignment (Sample.started 0.5) "user123" "consistent_test"
          = None) as Hno by (vm_compute; reflexivity).
  split; [|split].
  - apply (H 0.25%float He eq_refl ltac:(discriminate) Hno).
  - apply (proj2 (H 0.25%float He eq_refl ltac:(discriminate) Hno)).
  - apply (proj2 (H 0.75%float He eq_refl ltac:(discriminate) Hno)).
Defined.

(** ** What an assignment leaves alone *)

Lemma stored_assignment_store_other (self : Service)
  (experiment_id user_id variant_name u e : string) :
  (u, e) <> (user_id, experiment_id) ->
  stored_assignment
    (store_assignment user_id experiment_id variant_name self) u e
  = stored_assignment self u e.
Proof.
  intros Hne. unfold stored_assignment, store_assignment. simpl.
  destruct (decide (u = user_id)) as [->|Hu].
  - rewrite lookup_insert_eq. simpl.
    rewrite lookup_insert_ne by congruence.
    destruct (_user_assignments self !! user_id); reflexivity.
  - rewrite lookup_insert_ne by auto. reflexivity.
Qed.

Lemma get_variant_state_cases (self : Service)
  (experiment_id user_id : string) (rnd : float) :
  (get_variant experiment_id user_id rnd self).2 = self
  \/ exists ex i v,
       _experiments self !! experiment_id = Some ex
       /\ (get_variant experiment_id user_id rnd self).2
          = after_assignment self experiment_id user_id ex i v.
Proof.
  unfold get_variant.
  destruct (enabled self); simpl; [|auto].
  destruct (_experiments self !! experiment_id) as [ex|] eqn:He; [|auto].
  destruct (negb (bool_decide (status ex = RUNNING))); [auto|].
  destruct (_ ≫= _) as [[j v]|]; [auto|].
  destruct (sample_rate self <? rnd)%float; [auto|].
  destruct (_assign_variant ex user_id) as [i|]; [|auto].
  destruct (variants ex !! i) as [v|]; [|auto].
  right. exists ex, i, v. auto.
Qed.

(** X12: a call of [get_variant] for one user and one experiment never
    touches anything else: the three settings, every other experiment, the
    status of the experiment itself, and the stored assignment of every
    other pair of user and experiment are the same after the call as
    before, whatever the call does. *)
Theorem get_variant_frame (self : Service) (experiment_id user_id : string)
  (rnd : float) :
  let self' := (get_variant experiment_id user_id rnd self).2 in
  (enabled self', default_variant self', sample_rate self')
  = (enabled self, default_variant self, sample_rate self)
  /\ (forall other, other <> experiment_id ->
        _experiments self' !! other = _experiments self !! other)
  /\ (status <$> _experiments self' !! experiment_id)
     = (status <$> _experiments self !! experiment_id)
  /\ (forall u e, (u, e) <> (user_id, experiment_id) ->
        stored_assignment self' u e = stored_assignment self u e).
Proof.
  cbv zeta.
  destruct (get_variant_state_cases self experiment_id user_id rnd)
    as [-> | (ex & i & v & He & ->)].
  - repeat split; auto.
  - unfold after_assignment, update_variant. simpl.
    split; [reflexivity|]. split.
    + intros other Hne. apply lookup_insert_ne. auto.
    + split.
      * rewrite lookup_insert_eq, He. reflexivity.
      * intros u e Hne.
        apply (stored_assignment_store_other self experiment_id user_id
                 (name v) u e Hne).
Qed.

(** ** The hashed position at all times *)

Lemma select_by_weight_weights (normalized : float) (vs vs' : list Variant) :
  map weight vs = map weight vs' ->
  forall cumulative i,
    select_by_weight normalized cumulative i vs
    = select_by_weight normalized cumulative i vs'.
Proof.
  revert vs'. induction vs as [|v vs IH]; intros [|v' vs'] Hm c i;
    simpl in *; try discriminate; [reflexivity|].
  injection Hm as Hw Hm. rewrite Hw.
  destruct (normalized <=? c + weight v')%float; [reflexivity|].
  apply IH. exact Hm.
Qed.

Lemma _assign_variant_weights (e e' : Experiment) (user_id : string) :
  e_id e' = e_id e ->
  map weight (variants e') = map weight (variants e) ->
  _assign_variant e' user_id = _assign_variant e user_id.
Proof.
  intros Hid Hw. unfold _assign_variant. rewrite Hid.
  rewrite (select_by_weight_weights _ _ _ Hw).
  destruct (select_by_weight _ 0 0 (variants e)); [reflexivity|].
  assert (length (variants e') = length (variants e)) as Hlen.
  { rewrite <- (length_map weight (variants e')), Hw. apply length_map. }
  rewrite Hlen.
  destruct (variants e'), (variants e); simpl in *; try lia; reflexivity.
Qed.

Lemma identity_of_update_variant (self : Service) (experiment_id k : string)
  (experiment : Experiment) (i : nat) (f : Variant -> Variant) :
  _experiments self !! experiment_id = Some experiment ->
  (forall v, weight (f v) = weight v) ->
  identity_of (update_variant experiment_id experiment i f self) k
  = identity_of self k.
Proof.
  intros He Hf.
  pose proof (weights_of_update_variant self experiment_id k experiment i f
                He Hf) as Hw.
  unfold identity_of, weights_of, update_variant in *. simpl in *.
  destruct (decide (k = experiment_id)) as [->|Hk].
  - rewrite lookup_insert_eq in *. rewrite He in *. simpl in *.
    injection Hw as ->. reflexivity.
  - rewrite lookup_insert_ne by auto. reflexivity.
Qed.

Lemma identity_of_same (self : Service) (experiment_id k : string)
  (experiment experiment' : Experiment) :
  _experiments self !! experiment_id = Some experiment ->
  e_id experiment' = e_id experiment ->
  variants experiment' = variants experiment ->
  identity_of
    (set_experiments (<[experiment_id := experiment']> (_experiments self))
       self) k
  = identity_of self k.
Proof.
  intros He Hid Hv. unfold identity_of. simpl.
  destruct (decide (k = experiment_id)) as [->|Hk].
  - rewrite lookup_insert_eq, He. simpl. rewrite Hid, Hv. reflexivity.
  - rewrite lookup_insert_ne by auto. reflexivity.
Qed.

Lemma identity_of_run_op (self : Service) (op : Op) (k : string) :
  identity_of (run_op self op) k = identity_of self k.
Proof.
  destruct op as [eid now|eid now|eid uid rnd|eid uid|eid]; simpl.
  - unfold start_experiment.
    destruct (_experiments self !! eid) as [e|] eqn:He; [|reflexivity].
    simpl. eapply identity_of_same; eauto.
  - unfold stop_experiment.
    destruct (_experiments self !! eid) as [e|] eqn:He; [|reflexivity].
    simpl. eapply identity_of_same; eauto.
  - unfold get_variant.
    destruct (enabled self); simpl; [|reflexivity].
    destruct (_experiments self !! eid) as [e|] eqn:He; [|reflexivity].
    destruct (negb (bool_decide (status e = RUNNING))); [reflexivity|].
    destruct (_ ≫= _) as [[j v]|]; [reflexivity|].
    destruct (sample_rate self <? rnd)%float; [reflexivity|].
    destruct (_assign_variant e uid) as [i|]; [|reflexivity].
    destruct (variants e !! i) as [v|]; [|reflexivity].
    simpl. apply (identity_of_update_variant
                    (store_assignment uid eid (name v) self)); auto.
  - unfold record_conversion.
    destruct (_experiments self !! eid) as [e|] eqn:He; [|reflexivity].
    destruct (stored_assignment self uid eid) as [vn|]; [|reflexivity].
    destruct (find_by_name vn 0 (variants e)) as [[i v]|]; [|reflexivity].
    simpl. apply identity_of_update_variant; auto.
  - reflexivity.
Qed.

(** X13: the variant position that the hash gives a user does not move.
    After any sequence of engine operations (start, stop, assign, record a
    conversion, compute results) a registered experiment is still
    registered, and [_assign_variant] selects for every user the same
    position as before: the selection depends on the identifiers and the
    weights only, never on the counters, the status or the assignments. *)
Theorem hashed_position_is_stable (ops : list Op) (self : Service)
  (experiment_id user_id : string) (experiment : Experiment) :
  _experiments self !! experiment_id = Some experiment ->
  exists experiment',
    _experiments (run_ops ops self) !! experiment_id = Some experiment'
    /\ _assign_variant experiment' user_id
       = _assign_variant experiment user_id.
Proof.
  intros He.
  assert (identity_of (run_ops ops self) experiment_id
          = identity_of self experiment_id) as Hid.
  { unfold run_ops. clear He. revert self.
    induction ops as [|op ops IH]; intros self; simpl; [reflexivity|].
    rewrite IH. apply identity_of_run_op. }
  unfold identity_of in Hid. rewrite He in Hid. simpl in Hid.
  destruct (_experiments (run_ops ops self) !! experiment_id) as [e'|];
    [|discriminate].
  simpl in Hid. injection Hid as Hi Hw.
  exists e'. split; [reflexivity|].
  apply _assign_variant_weights; assumption.
Qed.

Lemma hashed_position_is_stable_witness :
  exists experiment',
    _experiments
      (run_ops [OpAssign "consistent_test" "user456" 0.25;
                OpRecordConversion "consistent_test" "user456";
                OpStop "consistent_test" 2]
         (Sample.started 1)) !! "consistent_test" = Some experiment'
    /\ _assign_variant experiment' "user123"
       = _assign_variant
           (mkExperiment "consistent_test" "Consistent Test" "Test"
              [mkVariant "a" 0.5 ∅ 0 0; mkVariant "b" 0.5 ∅ 0 0]
              RUNNING 0 (Some 1) None 1000 "default" ∅) "user123".
Proof.
  apply hashed_position_is_stable. vm_compute. reflexivity.
Defined.

(** ** What a result can say *)

Lemma results_loop_shape (control : Variant) (vs : list Variant) :
  forall (i : nat) (best_lift : float) (best_variant : nat) bl bv entries,
    results_loop control i vs best_lift best_variant = Ok (bl, bv, entries) ->
    (bl = best_lift \/ (best_lift <? bl)%float = true)
    /\ (bv = best_variant \/ (i <= bv < i + length vs)%nat)
    /\ Forall2 (fun v en => r_name en = name v
                            /\ r_impressions en = impressions v
                            /\ r_conversions en = conversions v
                            /\ conversion_rate v = Ok (r_conversion_rate en))
         vs entries.
Proof.
  induction vs as [|x vs IH]; intros i bl0 bv0 bl bv entries H; simpl in H.
  - injection H as <- <- <-. repeat split; auto.
  - destruct (conversion_rate x) as [rate|] eqn:Hr; [|discriminate].
    destruct (conversion_rate control) as [crate|]; [|discriminate].
    simpl in H.
    destruct (0 <? crate)%float.
    + destruct ((bl0 <? (rate - crate) / crate * 100)%float
                && differs_from_control i x control) eqn:Hupd.
      * destruct (results_loop control (S i) vs _ i)
          as [[[bl1 bv1] en1]|] eqn:E; [|discriminate].
        simpl in H. injection H as <- <- <-.
        destruct (IH _ _ _ _ _ _ E) as (Hbl & Hbv & Hen).
        apply andb_true_iff in Hupd as [Hlt _].
        split; [|split].
        -- right. destruct Hbl as [-> | Hbl]; [exact Hlt|].
           eapply ltb_trans; eauto.
        -- right. simpl. destruct Hbv as [-> | Hbv]; lia.
        -- constructor; auto.
      * destruct (results_loop control (S i) vs bl0 bv0)
          as [[[bl1 bv1] en1]|] eqn:E; [|discriminate].
        simpl in H. injection H as <- <- <-.
        destruct (IH _ _ _ _ _ _ E) as (Hbl & Hbv & Hen).
        split; [exact Hbl|]. split.
        -- destruct Hbv as [-> | Hbv]; [auto | right; simpl; lia].
        -- constructor; auto.
    + destruct (results_loop control (S i) vs bl0 bv0)
        as [[[bl1 bv1] en1]|] eqn:E; [|discriminate].
      simpl in H. injection H as <- <- <-.
      destruct (IH _ _ _ _ _ _ E) as (Hbl & Hbv & Hen).
      split; [exact Hbl|]. split.
      * destruct Hbv as [-> | Hbv]; [auto | right; simpl; lia].
      * constructor; auto.
Qed.

(** X14: whenever [get_experiment_results] produces a result, its
    breakdown has one entry per variant, in list order, carrying the
    variant's name, its two counters and its conversion rate; and the
    reported lift is never negative (it is 0 unless some variant beats the
    control). *)
Theorem result_breakdown_and_lift (experiment_id : string)
  (experiment : Experiment) (r : ExperimentResult) :
  compute_results experiment_id experiment = Ok r ->
  (lift r <? 0)%float = false
  /\ Forall2 (fun v en => r_name en = name v
                          /\ r_impressions en = impressions v
                          /\ r_conversions en = conversions v
                          /\ conversion_rate v = Ok (r_conversion_rate en))
       (variants experiment) (result_variants r).
Proof.
  intros H. apply compute_results_analysis in H as [bv H].
  unfold analyse_variants in H.
  destruct (variants experiment) as [|control vs]; [discriminate|].
  apply results_loop_shape in H as (Hbl & _ & Hen).
  split; [|exact Hen].
  destruct Hbl as [-> | Hlt]; [reflexivity | apply ltb_asym; exact Hlt].
Qed.

Lemma result_breakdown_and_lift_witness :
  exists r,
    compute_results "e1"
      (mkExperiment "e1" "e1" ""
         [Sample.counters 100 10 "control"; Sample.counters 100 5 "treatment"]
         RUNNING 0 (Some 1) None 1000 "default" ∅) = Ok r
    /\ (lift r <? 0)%float = false
    /\ map r_lift (result_variants r) = [0%float; (-50)%float].
Proof.
  eexists. split; [vm_compute; reflexivity|]. split.
  - eapply (result_breakdown_and_lift "e1"
              (mkExperiment "e1" "e1" ""
                 [Sample.counters 100 10 "control";
                  Sample.counters 100 5 "treatment"]
                 RUNNING 0 (Some 1) None 1000 "default" ∅)).
    vm_compute. reflexivity.
  - reflexivity.
Defined.

(** X15: the decision of [get_experiment_results].  A winner is always
    the name of one of the experiment's variants.  The recommendation to
    keep the control is only given with enough impressions and a lift that
    is not positive, and then the winner is the control (the first
    variant), whether or not the result is significant.  The recommendation
    to collect more impressions comes without a winner and always asks for
    a positive number of impressions, the distance to the target sample
    size. *)
Theorem result_decision (experiment_id : string) (experiment : Experiment)
  (r : ExperimentResult) :
  compute_results experiment_id experiment = Ok r ->
  (forall w, winner r = Some w ->
             exists v, v ∈ variants experiment /\ name v = w)
  /\ (recommendation r = KeepControl ->
      enough_data experiment = true
      /\ (lift r <=? 0)%float = true
      /\ winner r = name <$> head (variants experiment))
  /\ (forall m, recommendation r = NeedMore m ->
                winner r = None
                /\ 0 < m
                /\ m = target_sample_size experiment
                       - total_impressions experiment)
  /\ (forall w bl c, recommendation r = Implement w bl c ->
                     is_significant r = true
                     /\ (5 <? lift r)%float = true
                     /\ winner r = Some w /\ bl = lift r
                     /\ c = confidence r).
Proof.
  unfold compute_results.
  destruct (variants experiment) as [|control vs] eqn:Hv; [discriminate|].
  destruct (analyse_variants (control :: vs)) as [[[bl bv] entries]|];
    simpl; [|discriminate].
  destruct (_calculate_significance _ _) as [[sig conf]|]; simpl;
    [|discriminate].
  assert (nth bv (control :: vs) control ∈ control :: vs) as Hbest.
  { destruct (le_lt_dec (length (control :: vs)) bv) as [Hge|Hlt].
    - rewrite nth_overflow by exact Hge. left.
    - apply list_elem_of_In. apply nth_In. exact Hlt. }
  unfold decide_winner.
  destruct (sig && (5 <? bl)%float) eqn:H1.
  - apply andb_true_iff in H1 as [-> H5]. intros [= <-]. simpl.
    split; [|split; [discriminate|split; [discriminate|]]].
    + intros w [= <-]. eauto.
    + intros w bl' c [= <- <- <-]. auto.
  - destruct (enough_data experiment && (bl <=? 0)%float) eqn:H2.
    + apply andb_true_iff in H2 as [Hen Hle]. rewrite Hen.
      intros [= <-]. simpl.
      split; [|split; [auto|split; discriminate]].
      intros w [= <-]. exists control. split; [left | reflexivity].
    + destruct (negb (enough_data experiment)) eqn:H3.
      * intros [= <-]. simpl.
        split; [discriminate|]. split; [discriminate|].
        split; [|discriminate].
        intros m [= <-]. split; [reflexivity|]. split; [|reflexivity].
        apply negb_true_iff in H3. unfold enough_data in H3.
        apply Z.leb_gt in H3. lia.
      * intros [= <-]. simpl.
        split; [discriminate|]. split; [discriminate|].
        split; discriminate.
Qed.

Lemma result_decision_witness :
  exists r,
    compute_results "e1"
      (mkExperiment "e1" "e1" ""
         [Sample.counters 100 10 "control"; Sample.counters 100 5 "treatment"]
         RUNNING 0 (Some 1) None 1000 "default" ∅) = Ok r
    /\ recommendation r = NeedMore 800
    /\ winner r = None.
Proof.
  eexists. split; [vm_compute; reflexivity|]. split; [reflexivity|].
  eapply (proj1 (proj1 (proj2 (proj2
            (result_decision "e1"
               (mkExperiment "e1" "e1" ""
                  [Sample.counters 100 10 "control";
                   Sample.counters 100 5 "treatment"]
                  RUNNING 0 (Some 1) None 1000 "default" ∅) _ _))) 800 _)).
  Unshelve.
  - vm_compute. reflexivity.
  - reflexivity.
Defined.

(** X16: a low sample is not an error.  For an experiment whose
    conversion rates are representable and whose control (the first
    variant) has fewer than 100 impressions, [get_experiment_results]
    returns a result, and this result is not significant, has confidence
    0, and names no winner other than the control. *)
Theorem low_sample_is_not_significant (self : Service)
  (experiment_id : string) (experiment : Experiment) (control : Variant)
  (rest : list Variant) :
  _experiments self !! experiment_id = Some experiment ->
  variants experiment = control :: rest ->
  Forall (fun v => exists r, conversion_rate v = Ok r) (variants experiment) ->
  impressions control < 100 ->
  exists r,
    get_experiment_results experiment_id self = Ok (Some r)
    /\ is_significant r = false
    /\ confidence r = 0%float
    /\ (winner r = None \/ winner r = Some (name control)).
Proof.
  intros He Hv Hall Hlow.
  assert (exists bl bv,
            analyse_variants (control :: rest)
            = Ok (bl, bv, map (entry_of control) (control :: rest)))
    as (bl & bv & Han).
  { rewrite Hv in Hall.
    assert (exists r, conversion_rate control = Ok r) as Hc
        by (inversion Hall; assumption).
    unfold analyse_variants.
    destruct (0 <? rate_of control)%float eqn:Hpos.
    - destruct (results_loop_positive control (control :: rest) Hc Hpos Hall
                  0%nat 0%float 0%nat) as (bl & bv & Hloop & _).
      eauto.
    - rewrite results_loop_no_control_rate by assumption. eauto. }
  assert (forall best, _calculate_significance control best
                       = Ok (false, 0%float)) as Hsig.
  { intros best. unfold _calculate_significance.
    apply Z.ltb_lt in Hlow. rewrite Hlow. reflexivity. }
  unfold get_experiment_results. rewrite He.
  unfold compute_results. rewrite Hv, Han. simpl. rewrite Hsig. simpl.
  unfold decide_winner. simpl.
  destruct (enough_data experiment && (bl <=? 0)%float);
    [|destruct (negb (enough_data experiment))];
    simpl; eexists; repeat split; auto.
Qed.

Lemma low_sample_is_not_significant_witness :
  exists r,
    get_experiment_results "consistent_test" (Sample.assigned 1)
    = Ok (Some r)
    /\ is_significant r = false
    /\ confidence r = 0%float
    /\ (winner r = None \/ winner r = Some "a").
Proof.
  apply (low_sample_is_not_significant (Sample.assigned 1) "consistent_test"
           (mkExperiment "consistent_test" "Consistent Test" "Test"
              [mkVariant "a" 0.5 ∅ 1 0; mkVariant "b" 0.5 ∅ 0 0]
              RUNNING 0 (Some 1) None 1000 "default" ∅)
           (mkVariant "a" 0.5 ∅ 1 0) [mkVariant "b" 0.5 ∅ 0 0]).
  - vm_compute. reflexivity.
  - reflexivity.
  - repeat constructor; eexists; vm_compute; reflexivity.
  - simpl. lia.
Defined.

(** * The HTTP layer *)





Lemma record_conversion_false (experiment_id user_id : string)
  (self self' : Service) :
  record_conversion experiment_id user_id self = (false, self') ->
  self' = self.
Proof.
  unfold record_conversion.
  destruct (_experiments self !! experiment_id); [|congruence].
  destruct (stored_assignment self user_id experiment_id); [|congruence].
  destruct (find_by_name _ 0 _) as [[i v]|]; congruence.
Qed.

(** X19: the answers of the conversion endpoint.  It answers 422 exactly
    when the body fails the request model, 429 exactly when the body is
    valid and the caller is over the rate limit, 404 exactly when, past
    both, the experiment is not registered, and 400 exactly when the
    experiment is registered and the service refuses the conversion (which
    the service, answering [False] in both cases, does not tell apart); it
    never answers 500; every error leaves the service unchanged; a
    success is exactly a [True] answer of [record_conversion]. *)
Theorem api_record_conversion_statuses (body : ConversionBody)
  (over_limit : bool) (service : Service) :
  match api_record_conversion body over_limit service with
  | (inl err, service') =>
      service' = service
      /\ err <> Status500
      /\ (err = Status422 <-> validate_conversion body = None)
      /\ (err = Status429 <->
          is_Some (validate_conversion body) /\ over_limit = true)
      /\ (err = Status404 <->
          exists request,
            validate_conversion body = Some request
            /\ over_limit = false
            /\ _experiments service !! rc_experiment_id request = None)
      /\ (err = Status400 <->
          exists request,
            validate_conversion body = Some request
            /\ over_limit = false
            /\ is_Some (_experiments service !! rc_experiment_id request)
            /\ record_conversion (rc_experiment_id request)
                 (rc_user_id request) service = (false, service))
  | (inr _, service') =>
      exists request,
        validate_conversion body = Some request
        /\ over_limit = false
        /\ is_Some (_experiments service !! rc_experiment_id request)
        /\ record_conversion (rc_experiment_id request)
             (rc_user_id request) service = (true, service')
  end.
Proof.
  unfold api_record_conversion.
  destruct (validate_conversion body) as [request|] eqn:Hv.
  - destruct over_limit.
    + split; [reflexivity|]. split; [discriminate|].
      split; [split; discriminate|].
      split; [split; [eauto | reflexivity]|].
      split; (split; [discriminate|]);
        intros (rq & _ & Hl & _); discriminate.
    + destruct (_experiments service !! rc_experiment_id request)
        as [e|] eqn:He.
      * destruct (record_conversion (rc_experiment_id request)
                    (rc_user_id request) service) as [[|] s'] eqn:Hr.
        -- exists request. rewrite He. eauto.
        -- pose proof (record_conversion_false _ _ _ _ Hr) as ->.
           split; [reflexivity|]. split; [discriminate|].
           split; [split; discriminate|].
           split; [split; [discriminate | intros [_ Hl]; discriminate]|].
           split.
           ++ split; [discriminate|].
              intros (rq & Hrq & _ & Hn). injection Hrq as <-.
              rewrite He in Hn. discriminate.
           ++ split; [|reflexivity].
              intros _. exists request. rewrite He. eauto.
      * split; [reflexivity|]. split; [discriminate|].
        split; [split; discriminate|].
        split; [split; [discriminate | intros [_ Hl]; discriminate]|].
        split.
        -- split; [|reflexivity]. intros _. exists request. eauto.
        -- split; [discriminate|].
           intros (rq & Hrq & _ & Hs & _). injection Hrq as <-.
           rewrite He in Hs. destruct Hs as [x Hx]. discriminate.
  - split; [reflexivity|]. split; [discriminate|].
    split; [split; reflexivity|].
    split; [split; [discriminate | intros [[x Hx] _]; discriminate]|].
    split; (split; [discriminate|]);
      intros (rq & Hrq & _); discriminate.
Qed.

(** X20: a second call of the start endpoint changes nothing, and says so.
    Whatever the service and the identifier, the service after two calls
    is the service after one ([started_at] included); for a registered
    experiment the first call answers [started successfully] (or [is
    already running] when it was Running) and the second always answers
    [is already running]; for an unregistered one both answer 404; the
    endpoint never answers 500. *)
Theorem api_start_is_idempotent (experiment_id : string) (now1 now2 : Z)
  (service : Service) :
  let service1 := (api_start_experiment experiment_id now1 service).2 in
  (api_start_experiment experiment_id now2 service1).2 = service1
  /\ match _experiments service !! experiment_id with
     | None =>
         (api_start_experiment experiment_id now1 service).1 = inl Http404
         /\ (api_start_experiment experiment_id now2 service1).1
            = inl Http404
     | Some experiment =>
         (api_start_experiment experiment_id now1 service).1
         = inr (if bool_decide (status experiment = RUNNING)
                then is_already_running else started_successfully)
         /\ (api_start_experiment experiment_id now2 service1).1
            = inr is_already_running
     end.
Proof.
  cbv zeta.
  destruct (_experiments service !! experiment_id) as [e|] eqn:He.
  - destruct (decide (status e = RUNNING)) as [Hst|Hst].
    + assert (forall now, api_start_experiment experiment_id now service
                          = (inr is_already_running, service)) as Hcall.
      { intros now. unfold api_start_experiment. rewrite He.
        rewrite bool_decide_eq_true_2 by exact Hst. reflexivity. }
      rewrite (Hcall now1). simpl. rewrite (Hcall now2).
      rewrite bool_decide_eq_true_2 by exact Hst. auto.
    + set (service1 :=
             set_experiments
               (<[experiment_id := set_running now1 e]>
                  (_experiments service)) service).
      assert (api_start_experiment experiment_id now1 service
              = (inr started_successfully, service1)) as Hcall1.
      { unfold api_start_experiment, start_experiment. rewrite He.
        rewrite bool_decide_eq_false_2 by exact Hst. reflexivity. }
      assert (api_start_experiment experiment_id now2 service1
              = (inr is_already_running, service1)) as Hcall2.
      { unfold api_start_experiment, service1. simpl.
        rewrite lookup_insert_eq. reflexivity. }
      rewrite Hcall1. simpl. rewrite Hcall2.
      rewrite bool_decide_eq_false_2 by exact Hst. auto.
  - assert (forall now, api_start_experiment experiment_id now service
                        = (inl Http404, service)) as Hcall.
    { intros now. unfold api_start_experiment. rewrite He. reflexivity. }
    rewrite (Hcall now1). simpl. rewrite (Hcall now2). auto.
Qed.

(** X21: the delete endpoint answers 404 on its second call.  Whatever
    the service and the identifier, after one call of the endpoint the
    experiment is not registered, so a second call answers 404 and changes
    nothing. *)
Theorem api_delete_twice (experiment_id : string) (service : Service) :
  let service1 := (api_delete_experiment experiment_id service).2 in
  _experiments service1 !! experiment_id = None
  /\ api_delete_experiment experiment_id service1 = (inl Status404, service1).
Proof.
  cbv zeta.
  assert (_experiments (api_delete_experiment experiment_id service).2
            !! experiment_id = None) as Hgone.
  { unfold api_delete_experiment, delete_experiment.
    destruct (_experiments service !! experiment_id) as [e|] eqn:He; simpl.
    - apply lookup_delete_eq.
    - exact He. }
  split; [exact Hgone|].
  unfold api_delete_experiment at 1. rewrite Hgone. reflexivity.
Qed.

(** * The pre-configured experiments and the summary *)

(** X22: [create_ai_experiments] never fails and resets.  From any
    service it returns the three identifiers, and afterwards each of them
    is registered as a Draft without dates, with all counters at zero and
    weights that sum to exactly 1.0, whatever was registered under that
    identifier before (a Running experiment with its counters is
    replaced); the other experiments and all stored assignments are
    untouched. *)
Theorem create_ai_experiments_resets (now1 now2 now3 : Z) (self : Service) :
  exists self',
    create_ai_experiments now1 now2 now3 self
    = (Ok ["ai_response_length"; "rag_enabled"; "temperature_test"], self')
    /\ fresh_draft self' "ai_response_length"
    /\ fresh_draft self' "rag_enabled"
    /\ fresh_draft self' "temperature_test"
    /\ (forall other,
          other <> "ai_response_length" -> other <> "rag_enabled" ->
          other <> "temperature_test" ->
          _experiments self' !! other = _experiments self !! other)
    /\ _user_assignments self' = _user_assignments self.
Proof.
  unfold create_ai_experiments.
  rewrite create_experiment_nonzero by (vm_compute; reflexivity).
  cbv beta iota zeta.
  rewrite create_experiment_nonzero by (vm_compute; reflexivity).
  cbv beta iota zeta.
  rewrite create_experiment_nonzero by (vm_compute; reflexivity).
  cbv beta iota zeta.
  eexists. split; [reflexivity|]. unfold fresh_draft. simpl.
  split; [|split; [|split; [|split; [|reflexivity]]]].
  - eexists. split.
    { rewrite lookup_insert_ne by discriminate.
      rewrite lookup_insert_ne by discriminate. apply lookup_insert_eq. }
    simpl. repeat split; auto.
  - eexists. split.
    { rewrite lookup_insert_ne by discriminate. apply lookup_insert_eq. }
    simpl. repeat split; auto.
  - eexists. split; [apply lookup_insert_eq|].
    simpl. repeat split; auto.
  - intros other H1 H2 H3. rewrite !lookup_insert_ne by auto. reflexivity.
Qed.

Lemma status_value_inj (a b : ExperimentStatus) :
  status_value a = status_value b -> a = b.
Proof. destruct a, b; simpl; intros H; try reflexivity; discriminate. Qed.

Lemma status_count_step (exp : Experiment) (summary : Summary)
  (st : ExperimentStatus) :
  status_count (summary_step exp summary) st
  = if decide (st = status exp) then status_count summary st + 1
    else status_count summary st.
Proof.
  unfold status_count, summary_step. simpl.
  destruct (decide (st = status exp)) as [->|Hne].
  - rewrite lookup_insert_eq. reflexivity.
  - rewrite lookup_insert_ne; [reflexivity|].
    intros H. apply status_value_inj in H. congruence.
Qed.

Lemma summary_fold_spec (n : Z) (m : gmap string Experiment) :
  let r :=
    map_fold (fun _ exp summary => summary_step exp summary)
      (mkSummary n ∅ 0 0 0) m in
  total_experiments r = n
  /\ status_count r DRAFT + status_count r RUNNING
     + status_count r PAUSED + status_count r COMPLETED
     + status_count r CANCELLED
     = Z.of_nat (size m)
  /\ (forall key k,
        by_status r !! key = Some k ->
        0 < k
        /\ exists experiment_id e,
             m !! experiment_id = Some e
             /\ status_value (status e) = key)
  /\ 0 <= significant_experiments r <= Z.of_nat (size m).
Proof.
  cbv zeta.
  apply (map_fold_weak_ind
           (fun (r : Summary) (m : gmap string Experiment) =>
              total_experiments r = n
              /\ status_count r DRAFT + status_count r RUNNING
                 + status_count r PAUSED + status_count r COMPLETED
                 + status_count r CANCELLED
                 = Z.of_nat (size m)
              /\ (forall key k,
                    by_status r !! key = Some k ->
                    0 < k
                    /\ exists experiment_id e,
                         m !! experiment_id = Some e
                         /\ status_value (status e) = key)
              /\ 0 <= significant_experiments r <= Z.of_nat (size m))).
  - unfold status_count. simpl. rewrite !lookup_empty. simpl.
    rewrite map_size_empty. split; [reflexivity|]. split; [lia|].
    split; [|lia].
    intros key k Hk. rewrite lookup_empty in Hk. discriminate.
  - clear m. intros i x m r Hi (Ht & Hsum & Hkeys & Hsig).
    rewrite map_size_insert_None by exact Hi.
    split; [exact Ht|]. split; [|split].
    + rewrite !status_count_step.
      destruct (status x); simpl; lia.
    + intros key k Hk. unfold summary_step in Hk. simpl in Hk.
      destruct (decide (key = status_value (status x))) as [->|Hne].
      * rewrite lookup_insert_eq in Hk. injection Hk as <-. split.
        -- destruct (by_status r !! status_value (status x)) as [k0|] eqn:E;
             simpl; [|lia].
           destruct (Hkeys _ _ E) as [Hpos _]. lia.
        -- exists i, x. split; [apply lookup_insert_eq | reflexivity].
      * rewrite lookup_insert_ne in Hk by auto.
        destruct (Hkeys _ _ Hk) as (Hpos & j & e & Hj & He).
        split; [exact Hpos|]. exists j, e. split; [|exact He].
        rewrite lookup_insert_ne; [exact Hj|]. congruence.
    + unfold summary_step. simpl. destruct (enough_data x); lia.
Qed.

(** X23: in the summary of [GET /experiments/stats/summary] the counts per
    status add up to the number of experiments; a status is a key of
    [by_status] only if some registered experiment has it, and then its
    count is positive; and the number of experiments with enough data lies
    between 0 and the number of experiments. *)
Theorem summary_counts_add_up (service : Service) :
  let summary := get_experiments_summary service in
  total_experiments summary = Z.of_nat (size (_experiments service))
  /\ status_count summary DRAFT + status_count summary RUNNING
     + status_count summary PAUSED + status_count summary COMPLETED
     + status_count summary CANCELLED
     = total_experiments summary
  /\ (forall key k,
        by_status summary !! key = Some k ->
        0 < k
        /\ exists experiment_id e,
             _experiments service !! experiment_id = Some e
             /\ status_value (status e) = key)
  /\ 0 <= significant_experiments summary <= total_experiments summary.
Proof.
  cbv zeta. unfold get_experiments_summary.
  destruct (summary_fold_spec (Z.of_nat (size (_experiments service)))
              (_experiments service)) as (H1 & H2 & H3 & H4).
  rewrite H1. split; [reflexivity|]. split; [exact H2|].
  split; [exact H3 | exact H4].
Qed.

(** * Experiments without variants *)

(** X24: an experiment without variants (which [create_experiment]
    accepts) cannot be served.  For such an experiment, registered and
    Running on an enabled service, [get_experiment_results] raises
    [IndexError], and [get_variant] raises [IndexError] for every user
    whose draw passes the sampling gate and answers the default variant for
    the others; in both cases the service is left as it was. *)
Theorem empty_experiment_raises (self : Service)
  (experiment_id user_id : string) (experiment : Experiment) (rnd : float) :
  enabled self = true ->
  _experiments self !! experiment_id = Some experiment ->
  status experiment = RUNNING ->
  variants experiment = [] ->
  get_experiment_results experiment_id self = Raise IndexError
  /\ get_variant experiment_id user_id rnd self
     = (if (sample_rate self <? rnd)%float
        then Ok (default_variant self, ∅) else Raise IndexError,
        self).
Proof.
  intros Hen He Hst Hv. split.
  - unfold get_experiment_results, compute_results. rewrite He, Hv.
    reflexivity.
  - unfold get_variant. rewrite Hen, He. simpl.
    rewrite bool_decide_eq_true_2 by exact Hst. simpl. rewrite Hv.
    assert (stored_assignment self user_id experiment_id
            ≫= (fun variant_name => find_by_name variant_name 0 [])
            = None) as ->.
    { destruct (stored_assignment self user_id experiment_id);
        reflexivity. }
    destruct (sample_rate self <? rnd)%float; [reflexivity|].
    unfold _assign_variant. rewrite Hv. reflexivity.
Qed.

Lemma empty_experiment_raises_witness :
  let self :=
    (start_experiment "empty" 1
       (create_experiment "empty" "Empty" "" [] 1000 "default" 0
          (Sample.service 0.5)).2).2 in
  get_experiment_results "empty" self = Raise IndexError
  /\ get_variant "empty" "user123" 0.25 self = (Raise IndexError, self)
  /\ get_variant "empty" "user123" 0.75 self = (Ok ("control", ∅), self).
Proof.
  intros self.
  pose proof (fun rnd =>
                empty_experiment_raises self "empty" "user123"
                  (mkExperiment "empty" "Empty" "" [] RUNNING 0 (Some 1) None
                     1000 "default" ∅) rnd eq_refl eq_refl eq_refl eq_refl)
    as H.
  split; [apply (H 0.25%float)|].
  split; [apply (H 0.25%float) | apply (H 0.75%float)].
Defined.

(** * Instances of the properties without premises *)

Lemma get_variant_frame_witness :
  stored_assignment
    (get_variant "consistent_test" "user456" 0.25 (Sample.assigned 1)).2
    "user123" "consistent_test"
  = stored_assignment (Sample.assigned 1) "user123" "consistent_test".
Proof.
  apply (get_variant_frame (Sample.assigned 1) "consistent_test" "user456"
           0.25).
  intros H. discriminate H.
Defined.

Lemma create_ai_experiments_resets_witness :
  exists self',
    create_ai_experiments 1 2 3 (Sample.assigned 1)
    = (Ok ["ai_response_length"; "rag_enabled"; "temperature_test"], self')
    /\ fresh_draft self' "temperature_test"
    /\ _experiments self' !! "consistent_test"
       = _experiments (Sample.assigned 1) !! "consistent_test".
Proof.
  destruct (create_ai_experiments_resets 1 2 3 (Sample.assigned 1))
    as (s' & H1 & _ & _ & H2 & H3 & _).
  exists s'. split; [exact H1|]. split; [exact H2|].
  apply H3; discriminate.
Defined.

(** * The stop, delete and results endpoints *)

(** X25: the stop endpoint has no guard on the status (unlike the start
    endpoint): on a registered experiment every call succeeds, and a
    second call overwrites [ended_at] with its own time, the experiment
    staying Completed with the same variants and [started_at]. *)
Theorem api_stop_overwrites_ended_at (experiment_id : string) (now1 now2 : Z)
  (service : Service) (experiment : Experiment) :
  _experiments service !! experiment_id = Some experiment ->
  let service1 := (api_stop_experiment experiment_id now1 service).2 in
  exists service2 experiment2,
    api_stop_experiment experiment_id now2 service1 = (inr tt, service2)
    /\ _experiments service2 !! experiment_id = Some experiment2
    /\ status experiment2 = COMPLETED
    /\ ended_at experiment2 = Some now2
    /\ started_at experiment2 = started_at experiment
    /\ variants experiment2 = variants experiment.
Proof.
  intros He. cbv zeta.
  assert (api_stop_experiment experiment_id now1 service
          = (inr tt,
             set_experiments
               (<[experiment_id := set_completed now1 experiment]>
                  (_experiments service)) service)) as ->.
  { unfold api_stop_experiment, stop_experiment. rewrite He. reflexivity. }
  simpl. unfold api_stop_experiment, stop_experiment. simpl.
  rewrite lookup_insert_eq. simpl.
  eexists _, _. split; [reflexivity|]. simpl.
  rewrite lookup_insert_eq. repeat split; reflexivity.
Qed.

Lemma api_stop_overwrites_ended_at_witness :
  exists service2 experiment2,
    api_stop_experiment "consistent_test" 5
      (api_stop_experiment "consistent_test" 2 (Sample.started 1)).2
    = (inr tt, service2)
    /\ _experiments service2 !! "consistent_test" = Some experiment2
    /\ status experiment2 = COMPLETED
    /\ ended_at experiment2 = Some 5.
Proof.
  destruct (api_stop_overwrites_ended_at "consistent_test" 2 5
              (Sample.started 1)
              (mkExperiment "consistent_test" "Consistent Test" "Test"
                 [mkVariant "a" 0.5 ∅ 0 0; mkVariant "b" 0.5 ∅ 0 0]
                 RUNNING 0 (Some 1) None 1000 "default" ∅))
    as (s2 & e2 & H1 & H2 & H3 & H4 & _).
  - vm_compute. reflexivity.
  - exists s2, e2. auto.
Defined.

(** X26: where the 500 answers come from.  The stop and delete endpoints
    never answer 500: their internal-error branches are dead and the
    service functions they call cannot raise.  The internal-error branch
    of the results endpoint is dead as well ([get_experiment_results]
    answers [None] only for an unregistered experiment, which the endpoint
    has already answered with 404), but the endpoint does answer 500:
    whenever the computation of the results raises, and only then; else it
    answers the computed result.  Each of the three answers 404 exactly
    when the experiment is not registered. *)
Theorem endpoints_answering_500 (experiment_id : string) (now : Z)
  (service : Service) :
  (api_stop_experiment experiment_id now service).1 <> inl Status500
  /\ (api_delete_experiment experiment_id service).1 <> inl Status500
  /\ ((api_stop_experiment experiment_id now service).1 = inl Status404
      <-> _experiments service !! experiment_id = None)
  /\ ((api_delete_experiment experiment_id service).1 = inl Status404
      <-> _experiments service !! experiment_id = None)
  /\ (api_get_experiment_results experiment_id service = inl Status404
      <-> _experiments service !! experiment_id = None)
  /\ (get_experiment_results experiment_id service = Ok None
      <-> _experiments service !! experiment_id = None)
  /\ match _experiments service !! experiment_id with
     | None => True
     | Some experiment =>
         match compute_results experiment_id experiment with
         | Raise e =>
             get_experiment_results experiment_id service = Raise e
             /\ api_get_experiment_results experiment_id service
                = inl Status500
         | Ok r =>
             get_experiment_results experiment_id service = Ok (Some r)
             /\ api_get_experiment_results experiment_id service = inr r
         end
     end.
Proof.
  unfold api_stop_experiment, api_delete_experiment,
    api_get_experiment_results, stop_experiment, delete_experiment,
    get_experiment_results.
  destruct (_experiments service !! experiment_id) as [e|]; simpl.
  - destruct (compute_results experiment_id e); simpl;
      repeat split; discriminate.
  - repeat split; discriminate.
Qed.

(** The results endpoint answers 500 for a registered experiment whose
    variants count more conversions than impressions (300 against 100):
    the pooled rate is 3, and the square root of [p * (1 - p) * ...] is a
    domain error. *)
Lemma results_endpoint_answers_500 :
  let experiment :=
    mkExperiment "t" "T" ""
      [mkVariant "control" 0.5 ∅ 100 300; mkVariant "b" 0.5 ∅ 100 300]
      RUNNING 0 (Some 1) None 1000 "default" ∅ in
  let service :=
    set_experiments {[ "t" := experiment ]} (init true "control" 1) in
  compute_results "t" experiment = Raise ValueError
  /\ api_get_experiment_results "t" service = inl Status500.
Proof. split; vm_compute; reflexivity. Qed.
